(** * The multistream character device driver

    A shallow embedding of [src/driver/multistream-driver.c] and
    [src/driver/structs/structs.h]: the paged byte log of each flow, the
    dispatcher entry points [dev_open], [dev_release], [dev_write],
    [dev_read], [dev_ioctl], the deferred-write worker [do_wq_write] and the
    helpers [write_data], [try_get_lock], [try_wait_for_data] and
    [do_sleep_wqe].

    What the kernel decides (whether an allocation succeeds, whether
    [mutex_trylock] finds the mutex free, how a sleep on the wait queue ends,
    what the other threads do to the device while this one sleeps) is read
    from an environment record [env]. *)

From Stdlib Require Import ZArith Lia Strings.Byte.
From stdpp Require Import base option list.

Open Scope Z_scope.

(** ** Constants of the driver *)

Definition MINORS : Z := 128.
Definition OBJECT_MAX_SIZE : Z := 4096.
Definition MAX_PAGES : Z := 5.

Definition EINTR : Z := 4.
Definition ENOMEM : Z := 12.
Definition ENODEV : Z := 19.
Definition ENOSPC : Z := 28.
Definition ERESTARTSYS : Z := 512.

(** [enum ctl_ops] and [enum wait_ops] of structs.h. *)
Definition SET_PRIO : Z := 1.
Definition SET_BLOCKING : Z := 3.
Definition SET_OPENCLOSE : Z := 4.

Inductive wait_ops : Type := WAIT_MUTEX | WAIT_WRITE | WAIT_READ.

(** ** Machine integers

    [int] is 32 bits, [long] and [ssize_t] are 64 bits signed, [size_t] and
    [unsigned long] are 64 bits unsigned.  A value is kept as a [Z]; an
    assignment to a C variable of one of these types goes through the
    matching conversion (the kernel is built with wrapping signed
    arithmetic).  The residue of a user copy is at most the length asked
    for and is subtracted as it is. *)

Definition to_int (z : Z) : Z := (z + 2 ^ 31) mod 2 ^ 32 - 2 ^ 31.
Definition to_long (z : Z) : Z := (z + 2 ^ 63) mod 2 ^ 64 - 2 ^ 63.
Definition to_ulong (z : Z) : Z := z mod 2 ^ 64.

Definition is_int (z : Z) : Prop := - 2 ^ 31 <= z < 2 ^ 31.
Definition is_ulong (z : Z) : Prop := 0 <= z < 2 ^ 64.

(** ** Results of running driver code

    [Oops] is a dereference of [NULL] or of an index outside its array;
    [Spin] is a loop that used up its iteration budget. *)

Inductive outcome (A : Type) : Type :=
  | Ret (a : A)
  | Oops
  | Spin.
Arguments Ret {A} a.
Arguments Oops {A}.
Arguments Spin {A}.

Global Instance outcome_ret : MRet outcome := @Ret.
Global Instance outcome_bind : MBind outcome := fun A B f m =>
  match m with
  | Ret a => f a
  | Oops => Oops
  | Spin => Spin
  end.

Definition expect {A : Type} (o : option A) : outcome A :=
  match o with
  | Some a => Ret a
  | None => Oops
  end.

(** ** Data structures (structs.h) *)

(** [object_content]: one node of a flow's list; [stream_content] is the
    page obtained from [__get_free_page], kept as its [OBJECT_MAX_SIZE]
    bytes.  The [next] pointer is the tail of the Rocq list the node sits
    in; [NULL] is the empty list. *)
Record object_content : Type := {
  record_length : Z;
  read_offset : Z;
  stream_content : list byte
}.

(** [io_sess_info], the [private_data] of an open file. *)
Record io_sess_info : Type := {
  priority : Z;
  timeout : Z
}.

(** The open file as far as the driver looks at it: the minor number of its
    inode and [private_data].  [dev_open] sets [private_data]; a read, write
    or ioctl on a file without it dereferences [NULL]. *)
Record file : Type := {
  f_minor : Z;
  private_data : option io_sess_info
}.

(** [object_state] holds three arrays indexed by the flow (0 low, 1 high);
    [flow_state] gathers the entries of one index: [valid_bytes[j]],
    [total_free_bytes[j]] and the chain [list_heads[j]->next].  The mutex and
    wait queue of the flow carry no data; the calls on them are recorded as
    [event]s. *)
Record flow_state : Type := {
  valid_bytes : Z;
  total_free_bytes : Z;
  list_heads : list object_content
}.

Record object_state : Type := {
  low_flow : flow_state;
  high_flow : flow_state
}.

(** [packed_data_wq], a deferred write handed to the work queue: its fields
    [data], [minor] and [len] ([buffer] and [the_work] only serve
    [container_of]). *)
Record packed_data_wq : Type := {
  wq_data : list byte;
  wq_minor : Z;
  wq_len : Z
}.

(** The global state of the module: [objects], the five module parameter
    arrays and the works scheduled with [schedule_work_on] that have not run
    yet, oldest first. *)
Record driver : Type := {
  objects : list object_state;
  enable_disable_array : list Z;
  high_data_count : list Z;
  low_data_count : list Z;
  high_wait_data : list Z;
  low_wait_data : list Z;
  pending_work : list packed_data_wq
}.

(** Calls on a flow's mutex and wait queue, in the order they are issued. *)
Inductive event : Type :=
  | EvLock (minor prio : Z)
  | EvUnlock (minor prio : Z)
  | EvWake (minor prio : Z)
  | EvSleep (minor prio : Z) (what : wait_ops).

(** What the kernel and the other threads decide during one call. *)
Record env : Type := {
  fuel : nat;                 (* iteration budget of the copy loops *)
  kmalloc_ok : bool;          (* kmalloc/kzalloc of the session or staging buffer *)
  module_get_ok : bool;       (* try_module_get *)
  wq_alloc_ok : bool;         (* kzalloc of the packed_data_wq *)
  wq_data_ok : bool;          (* kmalloc of the work's data buffer *)
  page_budget : nat;          (* how many node-and-page allocations of write_data succeed *)
  trylock1 : bool;            (* mutex_trylock of the first try_get_lock *)
  sleep1 : Z;                 (* value of the wait macro if that call sleeps *)
  wait_data : Z;              (* value of the wait macro in try_wait_for_data *)
  interfere : driver -> driver; (* what other threads do while this one sleeps *)
  trylock2 : bool;            (* mutex_trylock of the second try_get_lock *)
  sleep2 : Z
}.

(** ** Arrays *)

Definition at_index {A : Type} (l : list A) (i : Z) : option A :=
  if i <? 0 then None else l !! Z.to_nat i.

Definition set_index {A : Type} (l : list A) (i : Z) (x : A) : list A :=
  if i <? 0 then l else <[Z.to_nat i := x]> l.

(** [arr[minor] += d] on an array of [unsigned long]. *)
Definition add_at (l : list Z) (minor d : Z) : list Z :=
  match at_index l minor with
  | Some c => set_index l minor (to_ulong (c + d))
  | None => l
  end.

Definition flow_at (o : object_state) (prio : Z) : option flow_state :=
  if prio =? 0 then Some (low_flow o)
  else if prio =? 1 then Some (high_flow o)
  else None.

Definition flow_put (o : object_state) (prio : Z) (f : flow_state) : object_state :=
  if prio =? 0 then {| low_flow := f; high_flow := high_flow o |}
  else if prio =? 1 then {| low_flow := low_flow o; high_flow := f |}
  else o.

Definition with_objects (s : driver) (os : list object_state) : driver :=
  {| objects := os;
     enable_disable_array := enable_disable_array s;
     high_data_count := high_data_count s;
     low_data_count := low_data_count s;
     high_wait_data := high_wait_data s;
     low_wait_data := low_wait_data s;
     pending_work := pending_work s |}.

Definition with_enable (s : driver) (l : list Z) : driver :=
  {| objects := objects s;
     enable_disable_array := l;
     high_data_count := high_data_count s;
     low_data_count := low_data_count s;
     high_wait_data := high_wait_data s;
     low_wait_data := low_wait_data s;
     pending_work := pending_work s |}.

Definition with_data_count (s : driver) (prio : Z) (minor d : Z) : driver :=
  {| objects := objects s;
     enable_disable_array := enable_disable_array s;
     high_data_count :=
       if prio =? 0 then high_data_count s else add_at (high_data_count s) minor d;
     low_data_count :=
       if prio =? 0 then add_at (low_data_count s) minor d else low_data_count s;
     high_wait_data := high_wait_data s;
     low_wait_data := low_wait_data s;
     pending_work := pending_work s |}.

Definition with_wait_data (s : driver) (prio : Z) (minor d : Z) : driver :=
  {| objects := objects s;
     enable_disable_array := enable_disable_array s;
     high_data_count := high_data_count s;
     low_data_count := low_data_count s;
     high_wait_data :=
       if prio =? 0 then high_wait_data s else add_at (high_wait_data s) minor d;
     low_wait_data :=
       if prio =? 0 then add_at (low_wait_data s) minor d else low_wait_data s;
     pending_work := pending_work s |}.

Definition with_pending (s : driver) (l : list packed_data_wq) : driver :=
  {| objects := objects s;
     enable_disable_array := enable_disable_array s;
     high_data_count := high_data_count s;
     low_data_count := low_data_count s;
     high_wait_data := high_wait_data s;
     low_wait_data := low_wait_data s;
     pending_work := l |}.

(** [objects[minor]] restricted to flow [prio]. *)
Definition get_flow (s : driver) (minor prio : Z) : option flow_state :=
  match at_index (objects s) minor with
  | Some o => flow_at o prio
  | None => None
  end.

Definition put_flow (s : driver) (minor prio : Z) (f : flow_state) : driver :=
  match at_index (objects s) minor with
  | Some o => with_objects s (set_index (objects s) minor (flow_put o prio f))
  | None => s
  end.

(** ** Memory copies *)

(** [memcpy(&dst[at], src, length src)]. *)
Definition memcpy_into (dst : list byte) (at_ : Z) (src : list byte) : list byte :=
  take (Z.to_nat at_) dst ++ src ++ drop (Z.to_nat at_ + length src)%nat dst.

(** The [n] bytes at [&src[from]]. *)
Definition bytes_at (src : list byte) (from n : Z) : list byte :=
  take (Z.to_nat n) (drop (Z.to_nat from) src).

(** User memory at a user pointer is the list of the bytes that can be
    accessed there; an access beyond them faults and is reported in the
    residue the three primitives return. *)
Definition copy_from_user (buff : list byte) (len : Z) : Z * list byte :=
  let got := take (Z.to_nat len) buff in
  (len - Z.of_nat (length got), got).

Definition clear_user (buff : list byte) (len : Z) : Z * list byte :=
  let n := (Z.to_nat len `min` length buff)%nat in
  (len - Z.of_nat n, replicate n x00 ++ drop n buff).

Definition copy_to_user (buff : list byte) (src : list byte) (n : Z) : Z * list byte :=
  let k := (Z.to_nat n `min` length buff)%nat in
  let moved := take k src in
  (n - Z.of_nat k, moved ++ drop (length moved) buff).

(** ** Helpers of the driver *)

(** [do_sleep_wqe]: [ret] is the [long] value of the
    [wait_event_interruptible_timeout_exclusive] macro: [- ERESTARTSYS]
    after a signal, 0 when the timeout elapsed with the condition still
    false, the jiffies that remained (at least 1, at most the timeout) when
    the condition became true.  The function assigns it to its local
    [int res] and tests that. *)
Definition do_sleep_wqe (ret : Z) : Z :=
  let res := to_int ret in
  if res =? - ERESTARTSYS then - EINTR
  else if negb (res =? 0) then 1
  else 0.

(** Whether the condition of the macro held when the macro left: its value
    is positive then, and only then.  The condition of [WAIT_MUTEX] is
    [mutex_trylock(...) == 1]: when it held, the sleeper has the mutex. *)
Definition condition_met (ret : Z) : bool := 0 <? ret.

(** [try_get_lock].  [trylock] is what [mutex_trylock] answers, [res] the
    value of the wait macro when the call sleeps for the mutex.  The mutex
    is addressed inside [objects[minor]], which needs [minor] in range; with
    a priority other than 0 and 1 the address lies past the two mutexes of
    the object and [mutex_trylock] answers from what it finds there, which
    is [trylock] again. *)
Definition try_get_lock (trylock : bool) (res : Z) (sess_info : io_sess_info)
    (minor : Z) (s : driver) : outcome (Z * list event) :=
  _ ← expect (at_index (objects s) minor);
  let prio := priority sess_info in
  if negb trylock then
    if timeout sess_info <=? 0 then Ret (0, [])
    else
      let tr := EvSleep minor prio WAIT_MUTEX
                :: (if condition_met res then [EvLock minor prio] else []) in
      if negb (do_sleep_wqe res =? 1) then Ret (0, tr) else Ret (1, tr)
  else Ret (1, [EvLock minor prio]).

(** Whether [try_get_lock] answers 1: [mutex_trylock] found the mutex free,
    or the session may sleep and the value of the wait macro, as an [int],
    is neither 0 nor [- ERESTARTSYS]. *)
Definition lock_granted (trylock : bool) (res : Z) (sess_info : io_sess_info)
    : bool :=
  trylock
  || ((timeout sess_info >? 0)
      && negb (to_int res =? 0) && negb (to_int res =? - ERESTARTSYS)).

(** [try_wait_for_data]: the waiter counter of the flow is raised, the
    thread sleeps (the other threads run: [others]), the counter is lowered
    again. *)
Definition try_wait_for_data (res : Z) (others : driver -> driver)
    (sess_info : io_sess_info) (minor : Z) (what : wait_ops) (s : driver)
    : Z * driver * list event :=
  let s1 := with_wait_data s (priority sess_info) minor 1 in
  let s2 := others s1 in
  let ret := do_sleep_wqe res in
  (ret, with_wait_data s2 (priority sess_info) minor (- 1),
   [EvSleep minor (priority sess_info) what]).

(** A node as [write_data] creates it.  Its page comes from
    [__get_free_page], which does not clear it; the bytes it happens to hold
    are taken to be [x00] here.  They lie at and beyond [record_length],
    and [dev_read] copies from below it. *)
Definition new_record : object_content :=
  {| record_length := 0;
     read_offset := 0;
     stream_content := replicate (Z.to_nat OBJECT_MAX_SIZE) x00 |}.

(** [while (temp_object->record_length == OBJECT_MAX_SIZE &&
            temp_object->next != NULL) temp_object = temp_object->next;]
    returns the nodes passed and the chain from [temp_object] on. *)
Fixpoint last_or_room (l : list object_content)
    : list object_content * list object_content :=
  match l with
  | p :: (_ :: _) as tl =>
      if record_length p =? OBJECT_MAX_SIZE
      then let '(passed, rest) := last_or_room tl in (p :: passed, rest)
      else ([], l)
  | _ => ([], l)
  end.

(** [while (temp_len > 0)]: one node and page per round, as long as the
    allocator gives them; returns whether every allocation succeeded and the
    nodes linked so far. *)
Fixpoint grow_chain (budget : nat) (temp_len : Z) {struct budget}
    : bool * list object_content :=
  match budget with
  | O => (negb (temp_len >? 0), [])
  | S budget' =>
      if temp_len >? 0
      then let '(ok, fresh) := grow_chain budget' (to_int (temp_len - OBJECT_MAX_SIZE)) in
           (ok, new_record :: fresh)
      else (true, [])
  end.

(** [while (temp_object->record_length == OBJECT_MAX_SIZE)
      temp_object = temp_object->next;] *)
Fixpoint skip_full (l : list object_content)
    : outcome (list object_content * list object_content) :=
  match l with
  | [] => Oops
  | p :: tl =>
      if record_length p =? OBJECT_MAX_SIZE
      then '(passed, rest) ← skip_full tl; Ret (p :: passed, rest)
      else Ret ([], l)
  end.

(** The copy loop [while (len > 0)] of [write_data]; [cur] is the chain from
    [temp_object] on. *)
Fixpoint copy_loop (fuel : nat) (cur : list object_content) (len : Z)
    (buffer : list byte) (tot_written : Z)
    : outcome (list object_content * Z) :=
  if negb (len >? 0) then Ret (cur, tot_written)
  else
    match fuel with
    | O => Spin
    | S fuel' =>
        match cur with
        | [] => Oops
        | p :: tl =>
            let room := to_int (OBJECT_MAX_SIZE - record_length p) in
            let curr_length := if len >? to_ulong room then room else to_int len in
            if curr_length <? 0 then Oops
            else
              let p' :=
                {| record_length := to_int (record_length p + curr_length);
                   read_offset := read_offset p;
                   stream_content :=
                     memcpy_into (stream_content p) (record_length p)
                       (bytes_at buffer tot_written curr_length) |} in
              let tot_written' := to_int (tot_written + curr_length) in
              let len' := to_ulong (len - curr_length) in
              if (record_length p' =? OBJECT_MAX_SIZE) && (len' >? 0)
              then '(l, t) ← copy_loop fuel' tl len' buffer tot_written';
                   Ret (p' :: l, t)
              else copy_loop fuel' (p' :: tl) len' buffer tot_written'
        end
    end.

(** [write_data] on the chain [list_heads[priority]->next]. *)
Definition write_pages (fuel budget : nat) (len : Z) (buffer : list byte)
    (chain : list object_content) : outcome (Z * list object_content) :=
  let temp_len := to_int len in
  let first :=
    match chain with
    | [] => match budget with
            | O => None
            | S budget' => Some ([new_record], budget')
            end
    | _ => Some (chain, budget)
    end in
  match first with
  | None => Ret (- ENOMEM, chain)
  | Some (chain1, budget1) =>
      let '(passed, rest) := last_or_room chain1 in
      match rest with
      | [] => Oops
      | temp_object :: _ =>
          let room := to_int (OBJECT_MAX_SIZE - record_length temp_object) in
          let '(ok, chain2) :=
            if to_int (room - temp_len) <? 0
            then let '(ok, fresh) := grow_chain budget1 (to_int (temp_len - room)) in
                 (ok, match fresh with
                      | [] => chain1
                      | _ => passed ++ temp_object :: fresh
                      end)
            else (true, chain1) in
          if negb ok then Ret (- ENOMEM, chain2)
          else
            '(full, cur) ← skip_full chain2;
            '(cur', tot_written) ← copy_loop fuel cur len buffer 0;
            Ret (tot_written, full ++ cur')
      end
  end.

Definition with_chain (f : flow_state) (chain : list object_content) : flow_state :=
  {| valid_bytes := valid_bytes f;
     total_free_bytes := total_free_bytes f;
     list_heads := chain |}.

Definition write_data (fuel budget : nat) (len minor : Z) (buffer : list byte)
    (prio : Z) (s : driver) : outcome (Z * driver) :=
  f ← expect (get_flow s minor prio);
  '(r, chain) ← write_pages fuel budget len buffer (list_heads f);
  Ret (r, put_flow s minor prio (with_chain f chain)).

(** ** The dispatcher *)

(** [dev_open]; the result carries the file with its new [private_data]. *)
Definition dev_open (e : env) (filp : file) (s : driver) : outcome (Z * file) :=
  let minor := f_minor filp in
  if minor >=? MINORS then Ret (- ENODEV, filp)
  else
    flag ← expect (at_index (enable_disable_array s) minor);
    if negb (flag =? 0) then Ret (- 1, filp)
    else if kmalloc_ok e
      then Ret (0, {| f_minor := minor;
                      private_data := Some {| priority := 1; timeout := 0 |} |})
      else Ret (- 1, filp).

(** [dev_release] (neither [SINGLE_INSTANCE], [SINGLE_SESSION_OBJECT] nor
    [DEBUG_INFO] is defined). *)
Definition dev_release (filp : file) (s : driver) : outcome (Z * driver) :=
  Ret (0, s).

Definition leave (minor prio : Z) : list event :=
  [EvUnlock minor prio; EvWake minor prio].

(** [dev_write] from the comment "Got the lock" on.  [try_module_get]
    answers [module_get_ok]; the reference count it raises, and [module_put]
    lowers, is not part of [driver]. *)
Definition dev_write_locked (e : env) (sess_info : io_sess_info) (minor : Z)
    (temp_buffer : list byte) (len : Z) (s : driver) (tr : list event)
    : outcome (Z * driver * list event) :=
  let prio := priority sess_info in
  f ← expect (get_flow s minor prio);
  if total_free_bytes f =? 0 then Ret (- ENOSPC, s, tr ++ leave minor prio)
  else
    let len := if len >? to_ulong (total_free_bytes f)
               then to_ulong (total_free_bytes f) else len in
    if prio =? 0 then
      if negb (module_get_ok e) then Ret (- ENODEV, s, tr ++ leave minor 0)
      else if negb (wq_alloc_ok e) then Ret (- 1, s, tr ++ leave minor 0)
      else if negb (wq_data_ok e) then Ret (- ENOMEM, s, tr ++ leave minor 0)
      else
        let the_wq := {| wq_data := temp_buffer; wq_minor := minor; wq_len := len |} in
        let f' := {| valid_bytes := valid_bytes f;
                     total_free_bytes :=
                       to_int (to_ulong (to_ulong (total_free_bytes f) - len));
                     list_heads := list_heads f |} in
        Ret (to_long len,
             with_pending (put_flow s minor 0 f') (pending_work s ++ [the_wq]),
             tr ++ leave minor 0)
    else
      '(written, s1) ← write_data (fuel e) (page_budget e) len minor temp_buffer prio s;
      let tot_written := to_int written in
      f1 ← expect (get_flow s1 minor 1);
      let f1' := {| valid_bytes := to_int (valid_bytes f1 + tot_written);
                    total_free_bytes := to_int (total_free_bytes f1 - tot_written);
                    list_heads := list_heads f1 |} in
      Ret (tot_written,
           with_data_count (put_flow s1 minor 1 f1') 1 minor tot_written,
           tr ++ leave minor 1).

(** [dev_write].  [buff] is the user memory at the source pointer. *)
Definition dev_write (e : env) (filp : file) (buff : list byte) (len : Z)
    (s : driver) : outcome (Z * driver * list event) :=
  let minor := f_minor filp in
  if negb (kmalloc_ok e) then Ret (- ENOMEM, s, [])
  else
    let '(ret, temp_buffer) := copy_from_user buff len in
    let len := to_ulong (len - ret) in
    sess_info ← expect (private_data filp);
    let prio := priority sess_info in
    '(got, tr) ← try_get_lock (trylock1 e) (sleep1 e) sess_info minor s;
    if negb (got =? 1) then Ret (- 1, s, tr)
    else
      f ← expect (get_flow s minor prio);
      if (total_free_bytes f =? 0) && (timeout sess_info >? 0) then
        let '(w, s1, trw) :=
          try_wait_for_data (wait_data e) (interfere e) sess_info minor WAIT_WRITE s in
        let tr := tr ++ [EvUnlock minor prio] ++ trw in
        if negb (w =? 1) then Ret (- ENOSPC, s1, tr)
        else
          '(got2, tr2) ← try_get_lock (trylock2 e) (sleep2 e) sess_info minor s1;
          if negb (got2 =? 1) then Ret (- 1, s1, tr ++ tr2)
          else dev_write_locked e sess_info minor temp_buffer len s1 (tr ++ tr2)
      else dev_write_locked e sess_info minor temp_buffer len s tr.

(** The copy loop [while (len > 0)] of [dev_read]; [cur] is the chain from
    [obj_index] on.  Returns the chain with the offsets it left, the
    temporary buffer, [total_len] and [record_to_rem].  [record_to_rem]
    counts nodes of the chain and is kept as it is: a chain of 2^31 nodes
    does not fit the memory. *)
Fixpoint read_loop (fuel : nat) (cur : list object_content) (len : Z)
    (temp_buffer : list byte) (total_len record_to_rem : Z)
    : outcome (list object_content * list byte * Z * Z) :=
  if negb (len >? 0) then Ret (cur, temp_buffer, total_len, record_to_rem)
  else
    match fuel with
    | O => Spin
    | S fuel' =>
        match cur with
        | [] => Oops
        | p :: tl =>
            let left := to_int (record_length p - read_offset p) in
            let len_to_read := if len >=? to_ulong left then left else to_int len in
            if len_to_read <? 0 then Oops
            else
              let temp_buffer' :=
                memcpy_into temp_buffer total_len
                  (bytes_at (stream_content p) (read_offset p) len_to_read) in
              let p' :=
                {| record_length := record_length p;
                   read_offset := to_int (read_offset p + len_to_read);
                   stream_content := stream_content p |} in
              let len' := to_ulong (len - len_to_read) in
              let total_len' := to_int (total_len + len_to_read) in
              if read_offset p' =? OBJECT_MAX_SIZE
              then '(l, t, n, r) ← read_loop fuel' tl len' temp_buffer' total_len'
                                     (record_to_rem + 1);
                   Ret (p' :: l, t, n, r)
              else read_loop fuel' (p' :: tl) len' temp_buffer' total_len' record_to_rem
        end
    end.

(** [for (; record_to_rem > 0; record_to_rem--)]: unlink and free the first
    nodes of the chain. *)
Fixpoint free_records (record_to_rem : nat) (chain : list object_content)
    : outcome (list object_content) :=
  match record_to_rem with
  | O => Ret chain
  | S n =>
      match chain with
      | [] => Oops
      | _ :: tl => free_records n tl
      end
  end.

(** [dev_read] from the comment "Got the lock" on.  [buff] is the user
    memory at the destination pointer, already cleared. *)
Definition dev_read_locked (e : env) (sess_info : io_sess_info) (minor : Z)
    (buff : list byte) (len : Z) (s : driver) (tr : list event)
    : outcome (Z * driver * list byte * list event) :=
  let prio := priority sess_info in
  f ← expect (get_flow s minor prio);
  if valid_bytes f =? 0 then Ret (0, s, buff, tr ++ leave minor prio)
  else
    let len := if len >? to_ulong (valid_bytes f)
               then to_ulong (valid_bytes f) else len in
    if negb (kmalloc_ok e) then Ret (- ENOMEM, s, buff, tr ++ leave minor prio)
    else
      let temp_buffer := replicate (Z.to_nat len) x00 in
      '(chain, temp_buffer, total_len, record_to_rem) ←
         read_loop (fuel e) (list_heads f) len temp_buffer 0 0;
      chain ← (if record_to_rem >? 0
               then free_records (Z.to_nat record_to_rem) chain
               else Ret chain);
      let f' := {| valid_bytes := to_int (valid_bytes f - total_len);
                   total_free_bytes := to_int (total_free_bytes f + total_len);
                   list_heads := chain |} in
      let s' := with_data_count (put_flow s minor prio f') prio minor (- total_len) in
      let '(ret, buff') := copy_to_user buff temp_buffer (to_ulong total_len) in
      Ret (total_len - to_int ret, s', buff', tr ++ leave minor prio).

(** [dev_read]; the result carries the user memory at the destination
    pointer as the call leaves it. *)
Definition dev_read (e : env) (filp : file) (buff : list byte) (len : Z)
    (s : driver) : outcome (Z * driver * list byte * list event) :=
  let minor := f_minor filp in
  let '(ret, buff) := clear_user buff len in
  let len := to_ulong (len - ret) in
  sess_info ← expect (private_data filp);
  let prio := priority sess_info in
  '(got, tr) ← try_get_lock (trylock1 e) (sleep1 e) sess_info minor s;
  if negb (got =? 1) then Ret (- 1, s, buff, tr)
  else
    f ← expect (get_flow s minor prio);
    if (valid_bytes f =? 0) && (timeout sess_info >? 0) then
      let '(w, s1, trw) :=
        try_wait_for_data (wait_data e) (interfere e) sess_info minor WAIT_READ s in
      let tr := tr ++ [EvUnlock minor prio] ++ trw in
      if negb (w =? 1) then Ret (0, s1, buff, tr)
      else
        '(got2, tr2) ← try_get_lock (trylock2 e) (sleep2 e) sess_info minor s1;
        if negb (got2 =? 1) then Ret (- 1, s1, buff, tr ++ tr2)
        else dev_read_locked e sess_info minor buff len s1 (tr ++ tr2)
    else dev_read_locked e sess_info minor buff len s tr.

(** [dev_ioctl]; the result carries the file with its session as the call
    leaves it. *)
Definition dev_ioctl (e : env) (filp : file) (command param : Z) (s : driver)
    : outcome (Z * file * driver * list event) :=
  let minor := f_minor filp in
  sess_info ← expect (private_data filp);
  '(got, tr) ← try_get_lock (trylock1 e) (sleep1 e) sess_info minor s;
  if negb (got =? 1) then Ret (- ENODEV, filp, s, tr)
  else
    let prev_prio := priority sess_info in
    let tr := tr ++ leave minor prev_prio in
    if command =? SET_PRIO then
      Ret (0, {| f_minor := minor;
                 private_data := Some {| priority := to_int param;
                                         timeout := timeout sess_info |} |}, s, tr)
    else if command =? SET_BLOCKING then
      Ret (0, {| f_minor := minor;
                 private_data := Some {| priority := priority sess_info;
                                         timeout := to_long param |} |}, s, tr)
    else if command =? SET_OPENCLOSE then
      Ret (0, filp,
           with_enable s (set_index (enable_disable_array s) minor param), tr)
    else Ret (- 1, filp, s, tr).

(** [do_wq_write], run by the work queue on the work [the_wq]. *)
Definition do_wq_write (e : env) (the_wq : packed_data_wq) (s : driver)
    : outcome (driver * list event) :=
  let minor := wq_minor the_wq in
  let tot_bytes := wq_len the_wq in
  '(_, s1) ← write_data (fuel e) (page_budget e) tot_bytes minor (wq_data the_wq) 0 s;
  f ← expect (get_flow s1 minor 0);
  let f' := {| valid_bytes := to_int (to_ulong (to_ulong (valid_bytes f) + tot_bytes));
               total_free_bytes := total_free_bytes f;
               list_heads := list_heads f |} in
  Ret (with_data_count (put_flow s1 minor 0 f') 0 minor tot_bytes,
       [EvLock minor 0; EvUnlock minor 0; EvWake minor 0]).

(** The state [init_module] builds when every allocation succeeds, the
    module parameter arrays are not set at load time (they are zero then)
    and the first pages hold [x00] bytes. *)
Definition first_flow : flow_state :=
  {| valid_bytes := 0;
     total_free_bytes := OBJECT_MAX_SIZE * MAX_PAGES;
     list_heads := [new_record] |}.

Definition init_module : driver :=
  let n := Z.to_nat MINORS in
  {| objects := replicate n {| low_flow := first_flow; high_flow := first_flow |};
     enable_disable_array := replicate n 0;
     high_data_count := replicate n 0;
     low_data_count := replicate n 0;
     high_wait_data := replicate n 0;
     low_wait_data := replicate n 0;
     pending_work := [] |}.

(** ** One step of the device

    A step is one call through the file operations or the work queue running
    one scheduled work. *)
Inductive call : Type :=
  | CallOpen (filp : file)
  | CallRelease (filp : file)
  | CallWrite (filp : file) (buff : list byte) (len : Z)
  | CallRead (filp : file) (buff : list byte) (len : Z)
  | CallIoctl (filp : file) (command param : Z)
  | RunWork (k : nat).

Definition exec (e : env) (c : call) (s : driver) : outcome driver :=
  match c with
  | CallOpen filp => _ ← dev_open e filp s; Ret s
  | CallRelease filp => '(_, s') ← dev_release filp s; Ret s'
  | CallWrite filp buff len => '(_, s', _) ← dev_write e filp buff len s; Ret s'
  | CallRead filp buff len => '(_, s', _, _) ← dev_read e filp buff len s; Ret s'
  | CallIoctl filp command param =>
      '(_, _, s', _) ← dev_ioctl e filp command param s; Ret s'
  | RunWork k =>
      match pending_work s !! k with
      | Some the_wq =>
          '(s', _) ← do_wq_write e the_wq (with_pending s (delete k (pending_work s)));
          Ret s'
      | None => Ret s
      end
  end.

(** ** Properties of states and of call traces *)

(** The order in which one call may issue its calls on the mutex and the
    wait queue of flow [prio] of [minor]: the mutex is taken only when it is
    not held, released only when it is held; a release is followed at once
    either by the wake-up that ends the call or by the sleep for data or
    space; the call does not end holding the mutex. *)
Inductive phase : Type := Idle | Held | Released.

Fixpoint discipline (minor prio : Z) (ph : phase) (tr : list event) : bool :=
  match tr with
  | [] => match ph with Idle => true | _ => false end
  | EvSleep m p WAIT_MUTEX :: tr' =>
      (m =? minor) && (p =? prio)
      && match ph with Idle => discipline minor prio Idle tr' | _ => false end
  | EvLock m p :: tr' =>
      (m =? minor) && (p =? prio)
      && match ph with Idle => discipline minor prio Held tr' | _ => false end
  | EvUnlock m p :: tr' =>
      (m =? minor) && (p =? prio)
      && match ph with Held => discipline minor prio Released tr' | _ => false end
  | EvSleep m p _ :: tr' =>
      (m =? minor) && (p =? prio)
      && match ph with Released => discipline minor prio Idle tr' | _ => false end
  | EvWake m p :: tr' =>
      (m =? minor) && (p =? prio)
      && match ph, tr' with Released, [] => true | _, _ => false end
  end.

(** A value of the wait macro that the [int res] of [do_sleep_wqe] tells
    apart as the macro means it: a signal, an elapsed timeout, or a
    remaining time whose [int] value is neither 0 nor [- ERESTARTSYS]. *)
Definition told_apart (ret : Z) : Prop :=
  ret = - ERESTARTSYS \/ ret = 0
  \/ (0 < ret /\ to_int ret <> 0 /\ to_int ret <> - ERESTARTSYS).

(** The command codes the [switch] of [dev_ioctl] has a case for. *)
Definition known_command (command : Z) : bool :=
  (command =? SET_PRIO) || (command =? SET_BLOCKING) || (command =? SET_OPENCLOSE).

(** The file a call goes through and the calls it issues on the mutex and
    the wait queue. *)
Definition call_file (c : call) : option file :=
  match c with
  | CallWrite filp _ _ | CallRead filp _ _ | CallIoctl filp _ _ => Some filp
  | _ => None
  end.

Definition call_trace (e : env) (c : call) (s : driver) : outcome (list event) :=
  match c with
  | CallWrite filp buff len => '(_, _, tr) ← dev_write e filp buff len s; Ret tr
  | CallRead filp buff len => '(_, _, _, tr) ← dev_read e filp buff len s; Ret tr
  | CallIoctl filp command param =>
      '(_, _, _, tr) ← dev_ioctl e filp command param s; Ret tr
  | _ => Ret []
  end.

Definition is_wake (ev : event) : bool :=
  match ev with EvWake _ _ => true | _ => false end.

Definition is_unlock (ev : event) : bool :=
  match ev with EvUnlock _ _ => true | _ => false end.

Definition is_lock (ev : event) : bool :=
  match ev with EvLock _ _ => true | _ => false end.

Definition count (test : event -> bool) (tr : list event) : nat :=
  length (filter (fun ev => test ev = true) tr).

(** ** Environments, files and states of the examples *)

(** Nothing fails, nothing is contended, nobody else touches the device. *)
Definition calm : env :=
  {| fuel := 64; kmalloc_ok := true; module_get_ok := true;
     wq_alloc_ok := true; wq_data_ok := true; page_budget := 64;
     trylock1 := true; sleep1 := 0; wait_data := 0;
     interfere := fun d => d; trylock2 := true; sleep2 := 0 |}.

(** As [calm], with [kmalloc]/[kzalloc] failing. *)
Definition no_kmalloc : env :=
  {| fuel := 64; kmalloc_ok := false; module_get_ok := true;
     wq_alloc_ok := true; wq_data_ok := true; page_budget := 64;
     trylock1 := true; sleep1 := 0; wait_data := 0;
     interfere := fun d => d; trylock2 := true; sleep2 := 0 |}.

(** As [calm], with no page left for [write_data]. *)
Definition no_pages : env :=
  {| fuel := 64; kmalloc_ok := true; module_get_ok := true;
     wq_alloc_ok := true; wq_data_ok := true; page_budget := 0;
     trylock1 := true; sleep1 := 0; wait_data := 0;
     interfere := fun d => d; trylock2 := true; sleep2 := 0 |}.

(** As [calm], with every sleep ending as the macro value [res] says. *)
Definition sleeping (res : Z) : env :=
  {| fuel := 64; kmalloc_ok := true; module_get_ok := true;
     wq_alloc_ok := true; wq_data_ok := true; page_budget := 64;
     trylock1 := true; sleep1 := res; wait_data := res;
     interfere := fun d => d; trylock2 := true; sleep2 := res |}.

Definition closed_file (minor : Z) : file :=
  {| f_minor := minor; private_data := None |}.

Definition open_file (minor prio tmo : Z) : file :=
  {| f_minor := minor;
     private_data := Some {| priority := prio; timeout := tmo |} |}.

(** The state a call leaves, [s] itself if the call does not return. *)
Definition state_after (s : driver) (r : outcome (Z * driver * list event)) : driver :=
  match r with
  | Ret (_, s', _) => s'
  | _ => s
  end.

Definition letters (n : nat) : list byte := replicate n x41.

(** Endpoint 0 after its high priority flow was filled to capacity. *)
Definition full_high : driver :=
  state_after init_module
    (dev_write calm (open_file 0 1 0) (letters (Z.to_nat 20480)) 20480 init_module).

(** [total_free_bytes[prio]] and [valid_bytes[prio]] of [objects[minor]]. *)
Definition free_of (s : driver) (minor prio : Z) : option Z :=
  total_free_bytes <$> get_flow s minor prio.

Definition valid_of (s : driver) (minor prio : Z) : option Z :=
  valid_bytes <$> get_flow s minor prio.

Definition chain_of (s : driver) (minor prio : Z) : option (list object_content) :=
  list_heads <$> get_flow s minor prio.

(** The state a sleeper finds when it wakes up in [try_wait_for_data]. *)
Definition after_sleep (e : env) (sess : io_sess_info) (minor : Z) (s : driver)
    : driver :=
  with_wait_data (interfere e (with_wait_data s (priority sess) minor 1))
    (priority sess) minor (- 1).

(** ** What a step does to the flows *)

(** The bytes taken from the free count of the low flow of [minor] by the
    works that have not run yet. *)
Fixpoint reserved (l : list packed_data_wq) (minor : Z) : Z :=
  match l with
  | [] => 0
  | w :: l' => (if wq_minor w =? minor then wq_len w else 0) + reserved l' minor
  end.

Definition owed (s : driver) (minor prio : Z) : Z :=
  if prio =? 0 then reserved (pending_work s) minor else 0.

(** The accounting equation of a flow, in the [int] arithmetic of the
    counters. *)
Definition balanced (s : driver) : Prop :=
  forall minor prio f,
    get_flow s minor prio = Some f ->
    to_int (valid_bytes f + total_free_bytes f + owed s minor prio)
    = OBJECT_MAX_SIZE * MAX_PAGES.

(** Only the first node of a chain may have been read from, and a node read
    to its end is gone. *)
Definition head_only (chain : list object_content) : Prop :=
  match chain with
  | [] => True
  | p :: tl =>
      read_offset p <> OBJECT_MAX_SIZE
      /\ Forall (fun q => read_offset q = 0) tl
  end.

Definition heads_only (s : driver) : Prop :=
  forall minor prio f,
    get_flow s minor prio = Some f -> head_only (list_heads f).

(** The steps leave the flows alone or change one of them in one of four
    ways. *)
Definition same_flows (s s' : driver) : Prop :=
  objects s' = objects s /\ pending_work s' = pending_work s.

Inductive effect (s s' : driver) : Prop :=
  | eff_none :
      same_flows s s' -> effect s s'
  | eff_reserve m f n buf :
      get_flow s m 0 = Some f ->
      objects s'
      = objects (put_flow s m 0
                   {| valid_bytes := valid_bytes f;
                      total_free_bytes :=
                        to_int (to_ulong (to_ulong (total_free_bytes f) - n));
                      list_heads := list_heads f |}) ->
      pending_work s'
      = pending_work s ++ [{| wq_data := buf; wq_minor := m; wq_len := n |}] ->
      effect s s'
  | eff_store m f fu bu n buf w chain :
      get_flow s m 1 = Some f ->
      write_pages fu bu n buf (list_heads f) = Ret (w, chain) ->
      objects s'
      = objects (put_flow s m 1
                   {| valid_bytes := to_int (valid_bytes f + to_int w);
                      total_free_bytes := to_int (total_free_bytes f - to_int w);
                      list_heads := chain |}) ->
      pending_work s' = pending_work s ->
      effect s s'
  | eff_drain m p f fu n temp chain temp' total rem chain' :
      get_flow s m p = Some f ->
      read_loop fu (list_heads f) n temp 0 0 = Ret (chain, temp', total, rem) ->
      (if rem >? 0 then free_records (Z.to_nat rem) chain else Ret chain)
      = Ret chain' ->
      objects s'
      = objects (put_flow s m p
                   {| valid_bytes := to_int (valid_bytes f - total);
                      total_free_bytes := to_int (total_free_bytes f + total);
                      list_heads := chain' |}) ->
      pending_work s' = pending_work s ->
      effect s s'
  | eff_work k the_wq f fu bu w chain :
      pending_work s !! k = Some the_wq ->
      get_flow s (wq_minor the_wq) 0 = Some f ->
      write_pages fu bu (wq_len the_wq) (wq_data the_wq) (list_heads f)
      = Ret (w, chain) ->
      objects s'
      = objects (put_flow s (wq_minor the_wq) 0
                   {| valid_bytes :=
                        to_int (to_ulong (to_ulong (valid_bytes f) + wq_len the_wq));
                      total_free_bytes := total_free_bytes f;
                      list_heads := chain |}) ->
      pending_work s' = delete k (pending_work s) ->
      effect s s'.

(** A step starts from the state it is called in, or from the state it
    finds after sleeping for data or space. *)
Definition starts (e : env) (s s0 : driver) : Prop :=
  s0 = s \/ exists sess minor, s0 = after_sleep e sess minor s.

Definition returns {A : Type} (o : outcome A) : bool :=
  match o with
  | Ret _ => true
  | _ => false
  end.

(** The state a step leaves, [s] itself if the step does not return. *)
Definition step_to (e : env) (c : call) (s : driver) : driver :=
  match exec e c s with
  | Ret s' => s'
  | _ => s
  end.

(** A write of the two bytes "hi" through a low priority session on
    endpoint 0. *)
Definition low_write_hi : call := CallWrite (open_file 0 0 0) [x68; x69] 2.

(** The chain of a flow, empty when there is no such flow. *)
Definition the_chain (s : driver) (minor prio : Z) : list object_content :=
  match get_flow s minor prio with
  | Some f => list_heads f
  | None => []
  end.

(** A read of one page through a high priority session on endpoint 0. *)
Definition read_a_page : call :=
  CallRead (open_file 0 1 0) (letters (Z.to_nat 4096)) 4096.

(** ** The bytes a chain holds *)

(** The bytes of a node that were written and not read yet. *)
Definition page_bytes (p : object_content) : list byte :=
  bytes_at (stream_content p) (read_offset p) (record_length p - read_offset p).

(** The bytes of a chain, oldest first. *)
Definition log_bytes (chain : list object_content) : list byte :=
  concat (page_bytes <$> chain).

(** The sum over the nodes of [record_length - read_offset]. *)
Fixpoint stored (chain : list object_content) : Z :=
  match chain with
  | [] => 0
  | p :: tl => (record_length p - read_offset p) + stored tl
  end.

(** A write of 5000 bytes through a low priority session on endpoint 0. *)
Definition low_write_5000 : call :=
  CallWrite (open_file 0 0 0) (letters (Z.to_nat 5000)) 5000.

(** A write of 5000 bytes through a high priority session on endpoint 0. *)
Definition high_write_5000 : call :=
  CallWrite (open_file 0 1 0) (letters (Z.to_nat 5000)) 5000.

(** A write of one full page through a high priority session on
    endpoint 0. *)
Definition high_write_page : call :=
  CallWrite (open_file 0 1 0) (letters (Z.to_nat 4096)) 4096.

(** A chain with a node that is not full. *)
Definition has_room (chain : list object_content) : Prop :=
  Exists (fun p => record_length p <> OBJECT_MAX_SIZE) chain.

(** What lets a write of length 0 go ahead on a flow with free bytes: on
    the low priority flow the work can be queued; on the high priority flow
    [write_data] finds a node that is not full, or no node at all and memory
    for one. *)
Definition can_take_nothing (e : env) (sess : io_sess_info) (f : flow_state)
    : Prop :=
  if priority sess =? 0
  then module_get_ok e = true /\ wq_alloc_ok e = true /\ wq_data_ok e = true
  else has_room (list_heads f) \/ (list_heads f = [] /\ page_budget e <> 0%nat).

Definition counters_ok (s : driver) : Prop :=
  Forall is_ulong (high_data_count s) /\ Forall is_ulong (low_data_count s).

Definition lengths_ok (chain : list object_content) : Prop :=
  Forall (fun p => 0 <= record_length p <= OBJECT_MAX_SIZE) chain.

(** ** Well-formed flows *)

(** A node: the read offset is within the bytes written, these are within
    the page, and the page has its size. *)
Definition page_ok (p : object_content) : Prop :=
  0 <= read_offset p <= record_length p
  /\ record_length p <= OBJECT_MAX_SIZE
  /\ length (stream_content p) = Z.to_nat OBJECT_MAX_SIZE.

(** Every node but the last is full. *)
Fixpoint packed (chain : list object_content) : Prop :=
  match chain with
  | p :: (_ :: _) as tl => record_length p = OBJECT_MAX_SIZE /\ packed tl
  | _ => True
  end.

Definition chain_wf (chain : list object_content) : Prop :=
  Forall page_ok chain /\ packed chain /\ head_only chain.

(** A flow whose counters say what its chain holds. *)
Definition flow_wf (f : flow_state) : Prop :=
  chain_wf (list_heads f)
  /\ valid_bytes f = stored (list_heads f)
  /\ 0 <= total_free_bytes f
  /\ valid_bytes f + total_free_bytes f = OBJECT_MAX_SIZE * MAX_PAGES.

(** Nobody else touches the device during the call. *)
Definition quiet (e : env) : Prop := forall d, interfere e d = d.

(** The mutex is free whenever the call asks for it. *)
Definition uncontended (e : env) : Prop := trylock1 e = true /\ trylock2 e = true.

(** A sequence of writes through [filp], each with its environment, every
    one of which returns the length of its buffer; the result is the state
    they leave, if they all succeed. *)
Fixpoint write_all (filp : file) (ws : list (env * list byte)) (s : driver)
    : option driver :=
  match ws with
  | [] => Some s
  | (e, w) :: rest =>
      match dev_write e filp w (Z.of_nat (length w)) s with
      | Ret (r, s', _) =>
          if r =? Z.of_nat (length w) then write_all filp rest s' else None
      | _ => None
      end
  end.

(** A reader that can run on a chain of [pages] nodes: nothing interferes,
    the mutex is free, the staging buffer is allocated and the loop budget
    covers the chain. *)
Definition able (e : env) (pages : nat) : Prop :=
  quiet e /\ uncontended e /\ kmalloc_ok e = true /\ (pages <= fuel e)%nat.

(** The bytes of a sequence of writes, in the order of the writes. *)
Definition payload (ws : list (env * list byte)) : list byte :=
  concat (snd <$> ws).

(** A sequence of reads through [filp], each with its environment, its
    destination and the length it asks for; the result is the
    concatenation of what the reads deliver, if none of them fails. *)
Fixpoint read_all (filp : file) (rs : list (env * list byte * Z)) (s : driver)
    : option (list byte) :=
  match rs with
  | [] => Some []
  | (e, buff, len) :: rest =>
      match dev_read e filp buff len s with
      | Ret (r, s', buff', _) =>
          if r <? 0 then None
          else
            match read_all filp rest s' with
            | Some out => Some (take (Z.to_nat r) buff' ++ out)
            | None => None
            end
      | _ => None
      end
  end.

(** A read request that can be served on a chain of [pages] nodes. *)
Definition servable (pages : nat) (r : env * list byte * Z) : Prop :=
  able r.1.1 pages /\ 0 <= r.2 < 2 ^ 31 /\ (Z.to_nat r.2 <= length r.1.2)%nat.

(** Two writes through a high priority session on endpoint 0, of 2 and of
    5000 bytes, the state they leave, and two reads of 6000 and of 10
    bytes. *)
Definition two_writes : list (env * list byte) :=
  [(calm, [x68; x69]); (calm, letters (Z.to_nat 5000))].

Definition after_two_writes : driver :=
  default init_module (write_all (open_file 0 1 0) two_writes init_module).

Definition more_reads : list (env * list byte * Z) :=
  [(calm, letters (Z.to_nat 10), 10)].

(** ** Loading the module: the loops of [init_module]

    [init_module] above is the state the loops build when nothing fails.
    What follows runs them allocation by allocation. *)

(** The entries of index [j] of [objects[i]] while [init_module] runs.
    [raw_heads] is [list_heads[j]]: [None] for [NULL] (the array is zeroed
    when the module is loaded), [Some chain] for the node allocated for
    [list_heads[j]], with [chain] at its [next]. *)
Record raw_flow : Type := {
  raw_valid : Z;
  raw_free : Z;
  raw_heads : option (list object_content)
}.

Record raw_object : Type := {
  raw_low : raw_flow;
  raw_high : raw_flow
}.

Definition zeroed : raw_flow :=
  {| raw_valid := 0; raw_free := 0; raw_heads := None |}.

(** The node [first_page] as the loop body links it.  Its page comes from
    [__get_free_page(GFP_KERNEL)], which does not clear it: [page] is the
    bytes it happens to hold. *)
Definition first_page (page : list byte) : object_content :=
  {| record_length := 0; read_offset := 0; stream_content := page |}.

(** The body of the loop over [j] for one flow.  [budget] is the number of
    allocations that succeed from here on, the next one failing; [page] is
    the page [__get_free_page] gives if it is reached.  Returns the flow as
    the body leaves it, the budget left, and whether the body ran to its
    end (otherwise it jumped to [revert_allocation]). *)
Definition init_flow (budget : nat) (page : list byte) : raw_flow * nat * bool :=
  let blank heads :=
    {| raw_valid := 0;
       raw_free := OBJECT_MAX_SIZE * MAX_PAGES;
       raw_heads := heads |} in
  match budget with
  | O => (blank None, O, false)            (* kzalloc of list_heads[j] failed *)
  | S O => (blank (Some []), O, false)     (* kzalloc of first_page failed *)
  | S (S O) => (blank (Some []), O, false) (* __get_free_page failed, first_page freed *)
  | S (S (S more)) => (blank (Some [first_page page]), more, true)
  end.

(** [revert_allocation: for (; i >= 0; i--)] on [objects[i]], ...,
    [objects[0]], in this order; each round reads
    [list_heads[0]->next->stream_content] and
    [list_heads[1]->next->stream_content] before it frees. *)
Fixpoint revert_allocation (rows : list raw_object) : outcome Z :=
  match rows with
  | [] => Ret (- ENOMEM)
  | o :: rest =>
      low ← expect (raw_heads (raw_low o));
      _ ← expect (head low);
      high ← expect (raw_heads (raw_high o));
      _ ← expect (head high);
      revert_allocation rest
  end.

(** [for (i = 0; i < MINORS; i++)] with [todo] rounds to go; [inited] holds
    [objects[i-1]], ..., [objects[0]], so [i] is its length; [pages i j] is
    the page the allocator has for flow [j] of [objects[i]].  Returns what
    [init_module] returns at the end of [revert_allocation], or the objects,
    [objects[0]] first. *)
Fixpoint init_objects (todo : nat) (inited : list raw_object) (budget : nat)
    (pages : nat -> nat -> list byte) : outcome (Z + list raw_object) :=
  match todo with
  | O => Ret (inr (reverse inited))
  | S todo' =>
      let i := length inited in
      let '(low, budget1, ok) := init_flow budget (pages i 0%nat) in
      if negb ok
      then r ← revert_allocation ({| raw_low := low; raw_high := zeroed |} :: inited);
           Ret (inl r)
      else
        let '(high, budget2, ok) := init_flow budget1 (pages i 1%nat) in
        if negb ok
        then r ← revert_allocation ({| raw_low := low; raw_high := high |} :: inited);
             Ret (inl r)
        else init_objects todo' ({| raw_low := low; raw_high := high |} :: inited)
               budget2 pages
  end.

(** [init_module] with [budget] allocations succeeding, the pages [pages]
    and [__register_chrdev] answering [major]. *)
Definition init_module_from (budget : nat) (pages : nat -> nat -> list byte)
    (major : Z) : outcome (Z * list raw_object) :=
  r ← init_objects (Z.to_nat MINORS) [] budget pages;
  match r with
  | inl err => Ret (err, [])
  | inr objs => if major <? 0 then Ret (major, objs) else Ret (0, objs)
  end.

(** A flow and an object as the loops leave them when nothing fails. *)
Definition ready_flow (page : list byte) : raw_flow :=
  {| raw_valid := 0;
     raw_free := OBJECT_MAX_SIZE * MAX_PAGES;
     raw_heads := Some [first_page page] |}.

Definition ready_object (pages : nat -> nat -> list byte) (i : nat) : raw_object :=
  {| raw_low := ready_flow (pages i 0%nat); raw_high := ready_flow (pages i 1%nat) |}.

(** Pages that hold nothing but [x00] bytes. *)
Definition blank_pages : nat -> nat -> list byte :=
  fun _ _ => replicate (Z.to_nat OBJECT_MAX_SIZE) x00.

(** The objects once every [list_heads[j]] is there. *)
Definition settled_flow (r : raw_flow) : option flow_state :=
  chain ← raw_heads r;
  Some {| valid_bytes := raw_valid r;
          total_free_bytes := raw_free r;
          list_heads := chain |}.

Definition settled (r : raw_object) : option object_state :=
  low ← settled_flow (raw_low r);
  high ← settled_flow (raw_high r);
  Some {| low_flow := low; high_flow := high |}.

(** ** What one call does to the state *)

(** The flow a step works on. *)
Definition call_flow (c : call) (s : driver) : option (Z * Z) :=
  match c with
  | CallWrite filp _ _ | CallRead filp _ _ | CallIoctl filp _ _ =>
      sess ← private_data filp; Some (f_minor filp, priority sess)
  | RunWork k =>
      the_wq ← pending_work s !! k; Some (wq_minor the_wq, 0)
  | _ => None
  end.

(** The state a step works on: the state it is called in, the state found
    after the sleep for data or space, or, for the work queue, the state
    without the work that runs. *)
Definition works_on (e : env) (c : call) (s s0 : driver) : Prop :=
  match c with
  | RunWork k =>
      match pending_work s !! k with
      | Some _ => s0 = with_pending s (delete k (pending_work s))
      | None => s0 = s
      end
  | _ => starts e s s0
  end.

(** What a call on flow [p] of minor [m] makes of the state [s0] it works
    on: nothing; a new enable array; a reservation, with a work queued and
    the free count of the low flow changed; or a new flow with its byte
    counter moved by the same [d] as [valid_bytes]. *)
Inductive writes_to (m p : Z) (s0 s' : driver) : Prop :=
  | wt_nothing :
      s' = s0 -> writes_to m p s0 s'
  | wt_enable l :
      s' = with_enable s0 l -> writes_to m p s0 s'
  | wt_defer f free the_wq :
      p = 0 ->
      get_flow s0 m 0 = Some f ->
      s' = with_pending
             (put_flow s0 m 0 {| valid_bytes := valid_bytes f;
                                 total_free_bytes := free;
                                 list_heads := list_heads f |})
             (pending_work s0 ++ [the_wq]) ->
      writes_to m p s0 s'
  | wt_flow f f' d :
      get_flow s0 m p = Some f ->
      valid_bytes f' = to_int (valid_bytes f + d) ->
      s' = with_data_count (put_flow s0 m p f') p m d ->
      writes_to m p s0 s'.

(** The byte counter of a flow: [low_data_count] or [high_data_count]. *)
Definition data_count (s : driver) (prio : Z) : list Z :=
  if prio =? 0 then low_data_count s else high_data_count s.

(** The byte counters say what [valid_bytes] says, as [int]s. *)
Definition counts_agree (s : driver) : Prop :=
  forall minor prio f,
    get_flow s minor prio = Some f ->
    exists c, at_index (data_count s prio) minor = Some c
              /\ to_int c = valid_bytes f.

(** The counters of sleeping threads hold [unsigned long] values. *)
Definition waiters_ok (s : driver) : Prop :=
  Forall is_ulong (high_wait_data s) /\ Forall is_ulong (low_wait_data s).

(** ** Calls that can run *)

(** The allocator gives [write_data] the nodes and pages that [n] bytes may
    need, and the loop budget covers them. *)
Definition pages_for (e : env) (n : Z) : Prop :=
  n + OBJECT_MAX_SIZE <= Z.of_nat (page_budget e) * OBJECT_MAX_SIZE
  /\ n + OBJECT_MAX_SIZE <= Z.of_nat (fuel e) * OBJECT_MAX_SIZE.

(** A writer of [n] bytes that can run: the staging buffer is allocated,
    the mutex is free and there is memory for the bytes. *)
Definition roomy (e : env) (n : Z) : Prop :=
  kmalloc_ok e = true /\ trylock1 e = true /\ pages_for e n.

(** A low priority writer whose work can be queued. *)
Definition queues (e : env) : Prop :=
  kmalloc_ok e = true /\ trylock1 e = true /\ module_get_ok e = true
  /\ wq_alloc_ok e = true /\ wq_data_ok e = true.

(** The room in the last node of a chain (none in an empty chain). *)
Definition room_left (chain : list object_content) : Z :=
  match last chain with
  | Some p => OBJECT_MAX_SIZE - record_length p
  | None => 0
  end.

(** The environment [e] with the mutex free at the first
    [mutex_trylock]. *)
Definition grabbing (e : env) : env :=
  {| fuel := fuel e; kmalloc_ok := kmalloc_ok e; module_get_ok := module_get_ok e;
     wq_alloc_ok := wq_alloc_ok e; wq_data_ok := wq_data_ok e;
     page_budget := page_budget e;
     trylock1 := true; sleep1 := sleep1 e; wait_data := wait_data e;
     interfere := interfere e; trylock2 := trylock2 e; sleep2 := sleep2 e |}.

(** The result [r] of a call with [ev] put before the calls it issued on
    the mutex and the wait queue. *)
Definition preceded {A : Type} (ev : event) (r : outcome (A * list event))
    : outcome (A * list event) :=
  '(a, tr) ← r; Ret (a, ev :: tr).

(** ** A flow used as a stream *)

(** Writes of whole buffers and reads, each with its environment. *)
Inductive stream_op : Type :=
  | Put (e : env) (buff : list byte)
  | Get (e : env) (buff : list byte) (len : Z).

(** Runs the operations through [filp], whatever they return.  The result
    is the state they leave, the bytes the writes took (the first [r] bytes
    of the buffer of a write that returned [r]; nothing for a write that
    returned an error) and the bytes the reads delivered, both in the order
    of the calls; [None] if a call did not return. *)
Fixpoint run_stream (filp : file) (ops : list stream_op) (s : driver)
    : option (driver * list byte * list byte) :=
  match ops with
  | [] => Some (s, [], [])
  | Put e buff :: rest =>
      match dev_write e filp buff (Z.of_nat (length buff)) s with
      | Ret (r, s', _) =>
          '(s2, put, got) ← run_stream filp rest s';
          Some (s2, take (Z.to_nat r) buff ++ put, got)
      | _ => None
      end
  | Get e buff len :: rest =>
      match dev_read e filp buff len s with
      | Ret (r, s', buff', _) =>
          '(s2, put, got) ← run_stream filp rest s';
          Some (s2, put, take (Z.to_nat r) buff' ++ got)
      | _ => None
      end
  end.

(** An operation that can run on a well-formed flow: nobody else touches
    the device, the mutex is free, the memory asked for is given; a write
    has at least one byte. *)
Definition usable (op : stream_op) : Prop :=
  match op with
  | Put e buff =>
      quiet e /\ uncontended e /\ buff <> []
      /\ Z.of_nat (length buff) < 2 ^ 31
      /\ roomy e (Z.of_nat (length buff))
  | Get e buff len =>
      able e (Z.to_nat (MAX_PAGES + 1))
      /\ 0 <= len < 2 ^ 31 /\ (Z.to_nat len <= length buff)%nat
  end.

(** ** More environments and states of the examples *)

(** As [calm], with the mutex held by somebody else. *)
Definition contended : env :=
  {| fuel := 64; kmalloc_ok := true; module_get_ok := true;
     wq_alloc_ok := true; wq_data_ok := true; page_budget := 64;
     trylock1 := false; sleep1 := 0; wait_data := 0;
     interfere := fun d => d; trylock2 := true; sleep2 := 0 |}.

(** As [contended], with a sleep for the mutex that ends with the mutex
    taken. *)
Definition patient : env :=
  {| fuel := 64; kmalloc_ok := true; module_get_ok := true;
     wq_alloc_ok := true; wq_data_ok := true; page_budget := 64;
     trylock1 := false; sleep1 := 3; wait_data := 0;
     interfere := fun d => d; trylock2 := true; sleep2 := 0 |}.

(** As [contended], with a sleep for the mutex that ends at once with the
    mutex taken, 2^32 jiffies of the timeout remaining. *)
Definition overslept : env :=
  {| fuel := 64; kmalloc_ok := true; module_get_ok := true;
     wq_alloc_ok := true; wq_data_ok := true; page_budget := 64;
     trylock1 := false; sleep1 := 2 ^ 32; wait_data := 0;
     interfere := fun d => d; trylock2 := true; sleep2 := 0 |}.

(** As [calm], with the sleeper woken after another thread wrote "hi" to
    the high priority flow of endpoint 0. *)
Definition served : env :=
  {| fuel := 64; kmalloc_ok := true; module_get_ok := true;
     wq_alloc_ok := true; wq_data_ok := true; page_budget := 64;
     trylock1 := true; sleep1 := 1; wait_data := 1;
     interfere :=
       fun d => state_after d (dev_write calm (open_file 0 1 0) [x68; x69] 2 d);
     trylock2 := true; sleep2 := 1 |}.

(** As [calm], with the sleeper woken after the other threads emptied the
    device. *)
Definition drained : env :=
  {| fuel := 64; kmalloc_ok := true; module_get_ok := true;
     wq_alloc_ok := true; wq_data_ok := true; page_budget := 64;
     trylock1 := true; sleep1 := 1; wait_data := 1;
     interfere := fun _ => init_module; trylock2 := true; sleep2 := 1 |}.

(** Endpoint 0 after one full page was written to its high priority flow,
    and that flow. *)
Definition one_page_high : driver := step_to calm high_write_page init_module.

Definition one_page_flow : flow_state :=
  default first_flow (get_flow one_page_high 0 1).

(** Endpoint 0 after a low priority write of 5000 bytes whose work ran with
    no page to be had, and its low priority flow. *)
Definition lost_work : driver :=
  step_to no_pages (RunWork 0) (step_to calm low_write_5000 init_module).

Definition lost_flow : flow_state :=
  default first_flow (get_flow lost_work 0 0).

(** Endpoint 0 after "hi" was written to its high priority flow, and that
    flow. *)
Definition hi_state : driver :=
  state_after init_module (dev_write calm (open_file 0 1 0) [x68; x69] 2 init_module).

Definition hi_flow : flow_state :=
  default first_flow (get_flow hi_state 0 1).

(** The high priority flow of endpoint 0 once it is full. *)
Definition full_flow : flow_state :=
  default first_flow (get_flow full_high 0 1).

(** A read of four bytes through a high priority session on endpoint 0 that
    may sleep for 5 jiffies, and a write of "hi" through a high priority
    session on endpoint 0. *)
Definition blocking_read : call := CallRead (open_file 0 1 5) (letters 8) 4.

Definition high_write_hi : call := CallWrite (open_file 0 1 0) [x68; x69] 2.

(** A write of "hi", a read of one byte, a write of "hi" and a read of up to
    eight bytes. *)
Definition hi_stream : list stream_op :=
  [Put calm [x68; x69]; Get calm (letters 8) 1;
   Put calm [x68; x69]; Get calm (letters 8) 8].

Arguments to_int : simpl never.
Arguments to_long : simpl never.
Arguments to_ulong : simpl never.
Arguments new_record : simpl never.
Arguments at_index : simpl never.
Arguments set_index : simpl never.
Arguments copy_from_user : simpl never.
Arguments clear_user : simpl never.
Arguments copy_to_user : simpl never.
Arguments memcpy_into : simpl never.
Arguments bytes_at : simpl never.

(** * Properties *)

(** ** Machine integers *)

Lemma to_int_small z : is_int z -> to_int z = z.
Proof.
  unfold is_int, to_int. intros H.
  rewrite Z.mod_small; lia.
Qed.

Lemma to_ulong_small z : is_ulong z -> to_ulong z = z.
Proof.
  unfold is_ulong, to_ulong. intros H.
  apply Z.mod_small. lia.
Qed.

Lemma to_long_small z : - 2 ^ 63 <= z < 2 ^ 63 -> to_long z = z.
Proof.
  unfold to_long. intros H.
  rewrite Z.mod_small; lia.
Qed.

Lemma to_int_range z : is_int (to_int z).
Proof.
  unfold is_int, to_int.
  pose proof (Z.mod_pos_bound (z + 2 ^ 31) (2 ^ 32)). lia.
Qed.

Lemma to_ulong_range z : is_ulong (to_ulong z).
Proof.
  unfold is_ulong, to_ulong.
  pose proof (Z.mod_pos_bound z (2 ^ 64)). lia.
Qed.

(** Two integers that differ by a multiple of 2^32 are the same [int]. *)
Lemma to_int_congr a b k : a = b + k * 2 ^ 32 -> to_int a = to_int b.
Proof.
  intros ->. unfold to_int.
  replace (b + k * 2 ^ 32 + 2 ^ 31) with (b + 2 ^ 31 + k * 2 ^ 32) by lia.
  by rewrite Z.mod_add.
Qed.

Lemma to_int_spec a : exists k, to_int a = a + k * 2 ^ 32.
Proof.
  exists (- ((a + 2 ^ 31) / 2 ^ 32)). unfold to_int.
  rewrite Z.mod_eq by lia. lia.
Qed.

Lemma to_ulong_spec a : exists k, to_ulong a = a + k * 2 ^ 32.
Proof.
  exists (- (a / 2 ^ 64) * 2 ^ 32). unfold to_ulong.
  rewrite Z.mod_eq by lia. lia.
Qed.

(** ** Arrays and flows *)

Lemma at_index_set_same {A} (l : list A) i x y :
  at_index l i = Some y -> at_index (set_index l i x) i = Some x.
Proof.
  unfold at_index, set_index. destruct (i <? 0); [done|].
  intros H. apply list_lookup_insert_eq. by eapply lookup_lt_Some.
Qed.

Lemma at_index_set_other {A} (l : list A) i j x :
  i <> j -> at_index (set_index l i x) j = at_index l j.
Proof.
  unfold at_index, set_index. intros Hne.
  destruct (Z.ltb_spec j 0); [done|].
  destruct (Z.ltb_spec i 0); [done|].
  apply list_lookup_insert_ne. lia.
Qed.

Lemma set_index_twice {A} (l : list A) i x y :
  set_index (set_index l i x) i y = set_index l i y.
Proof.
  unfold set_index. destruct (i <? 0); [done|]. apply list_insert_insert_eq.
Qed.

Lemma set_index_id {A} (l : list A) i x :
  at_index l i = Some x -> set_index l i x = l.
Proof.
  unfold at_index, set_index. destruct (i <? 0); [done|]. apply list_insert_id.
Qed.

Lemma flow_at_put_same o p f f0 :
  flow_at o p = Some f0 -> flow_at (flow_put o p f) p = Some f.
Proof.
  unfold flow_at, flow_put.
  destruct (Z.eqb_spec p 0) as [->|]; [done|].
  destruct (Z.eqb_spec p 1) as [->|]; done.
Qed.

Lemma flow_at_put_other o p q f :
  p <> q -> flow_at (flow_put o p f) q = flow_at o q.
Proof.
  unfold flow_at, flow_put. intros Hne.
  destruct (Z.eqb_spec p 0), (Z.eqb_spec p 1); simpl;
    destruct (Z.eqb_spec q 0), (Z.eqb_spec q 1); simpl; congruence || lia.
Qed.

Lemma flow_put_twice o p f g : flow_put (flow_put o p f) p g = flow_put o p g.
Proof.
  unfold flow_put.
  destruct (Z.eqb_spec p 0); [done|]. destruct (Z.eqb_spec p 1); done.
Qed.

Lemma get_put_flow_same s m p f f0 :
  get_flow s m p = Some f0 -> get_flow (put_flow s m p f) m p = Some f.
Proof.
  unfold get_flow, put_flow.
  destruct (at_index (objects s) m) as [o|] eqn:Ho; [|done].
  intros Hf. simpl. erewrite at_index_set_same by done.
  by eapply flow_at_put_same.
Qed.

Lemma get_put_flow_other s m p f m' p' :
  m <> m' \/ p <> p' ->
  get_flow (put_flow s m p f) m' p' = get_flow s m' p'.
Proof.
  unfold get_flow, put_flow. intros Hne.
  destruct (at_index (objects s) m) as [o|] eqn:Ho; [|done]. simpl.
  destruct (Z.eq_dec m m') as [<-|Hm].
  - erewrite at_index_set_same by done. rewrite Ho.
    apply flow_at_put_other. by destruct Hne.
  - by rewrite at_index_set_other.
Qed.

Lemma put_put_flow s m p f g :
  put_flow (put_flow s m p f) m p g = put_flow s m p g.
Proof.
  unfold put_flow.
  destruct (at_index (objects s) m) as [o|] eqn:Ho; simpl; [|by rewrite Ho].
  erewrite at_index_set_same by done.
  unfold with_objects. simpl. by rewrite set_index_twice, flow_put_twice.
Qed.

Lemma pending_put_flow s m p f : pending_work (put_flow s m p f) = pending_work s.
Proof. unfold put_flow. by destruct (at_index (objects s) m). Qed.

Lemma enable_put_flow s m p f :
  enable_disable_array (put_flow s m p f) = enable_disable_array s.
Proof. unfold put_flow. by destruct (at_index (objects s) m). Qed.

Lemma high_count_put_flow s m p f :
  high_data_count (put_flow s m p f) = high_data_count s.
Proof. unfold put_flow. by destruct (at_index (objects s) m). Qed.

Lemma low_count_put_flow s m p f :
  low_data_count (put_flow s m p f) = low_data_count s.
Proof. unfold put_flow. by destruct (at_index (objects s) m). Qed.

Lemma objects_put_flow s s' m p f :
  objects s = objects s' ->
  objects (put_flow s m p f) = objects (put_flow s' m p f).
Proof.
  unfold put_flow. intros H. rewrite <- H. by destruct (at_index (objects s) m).
Qed.

Lemma get_flow_prio s m p f : get_flow s m p = Some f -> p = 0 \/ p = 1.
Proof.
  unfold get_flow, flow_at. destruct (at_index (objects s) m); [|done].
  destruct (Z.eqb_spec p 0); [auto|]. destruct (Z.eqb_spec p 1); [auto|done].
Qed.

Lemma get_flow_same_objects s s' m p :
  objects s' = objects s -> get_flow s' m p = get_flow s m p.
Proof. unfold get_flow. by intros ->. Qed.

(** ** Reading results off the outcome monad *)

Lemma bind_Ret {A B} (m : outcome A) (f : A -> outcome B) (b : B) :
  m ≫= f = Ret b -> exists a, m = Ret a /\ f a = Ret b.
Proof. destruct m as [a| |]; simpl; [eauto|done|done]. Qed.

Lemma expect_Ret {A} (o : option A) (a : A) : expect o = Ret a -> o = Some a.
Proof. destruct o; simpl; congruence. Qed.

(** Splits a hypothesis [m ≫= f = Ret b] into the two runs it stands for. *)
Ltac unbind H :=
  let a := fresh "a" in
  let H1 := fresh H "l" in
  apply bind_Ret in H; destruct H as (a & H1 & H);
  try (apply expect_Ret in H1).

(** ** Opening a device file *)

Section open_device.

Variables (e : env) (filp : file) (s : driver).
Hypothesis enable_length : length (enable_disable_array s) = Z.to_nat MINORS.
Hypothesis minor_nonneg : 0 <= f_minor filp.

Lemma enable_flag_defined :
  f_minor filp < MINORS ->
  exists flag, at_index (enable_disable_array s) (f_minor filp) = Some flag.
Proof using enable_length minor_nonneg.
  intros Hlt. unfold at_index.
  destruct (Z.ltb_spec (f_minor filp) 0); [lia|].
  destruct (lookup_lt_is_Some_2 (enable_disable_array s) (Z.to_nat (f_minor filp)))
    as [flag Hflag]; [|eauto].
  rewrite enable_length. lia.
Qed.

Lemma dev_open_returns : exists r filp', dev_open e filp s = Ret (r, filp').
Proof using enable_length minor_nonneg.
  unfold dev_open.
  destruct (Z.geb_spec (f_minor filp) MINORS) as [Hge|Hlt]; [eauto|].
  destruct (enable_flag_defined Hlt) as [flag ->]. simpl.
  destruct (flag =? 0); simpl; [|eauto].
  destruct (kmalloc_ok e); eauto.
Qed.

End open_device.

(** ** Opening a device file (continued) *)

(** C4, amended: [dev_open] returns 0 exactly when the minor is below 128,
    the enable flag of the minor is 0 and the session could be allocated; a
    minor of 128 or more gives [- ENODEV], a disabled minor gives [- 1] (a
    different value), and on success the session has priority 1 and
    timeout 0. *)
Theorem dev_open_succeeds_iff e filp s :
  length (enable_disable_array s) = Z.to_nat MINORS ->
  0 <= f_minor filp ->
  exists r filp',
    dev_open e filp s = Ret (r, filp')
    /\ (r = 0 <->
        f_minor filp < MINORS
        /\ at_index (enable_disable_array s) (f_minor filp) = Some 0
        /\ kmalloc_ok e = true)
    /\ (MINORS <= f_minor filp -> r = - ENODEV)
    /\ (f_minor filp < MINORS ->
        at_index (enable_disable_array s) (f_minor filp) <> Some 0 -> r = - 1)
    /\ (r = 0 ->
        filp' = {| f_minor := f_minor filp;
                   private_data := Some {| priority := 1; timeout := 0 |} |})
    /\ - ENODEV <> - 1.
Proof.
  intros Hlen Hmin. unfold dev_open.
  destruct (Z.geb_spec (f_minor filp) MINORS) as [Hge|Hlt].
  - eexists _, _. split; [done|].
    unfold ENODEV. intuition (try congruence; try lia).
  - destruct (enable_flag_defined filp s Hlen Hmin Hlt) as [flag Hflag].
    rewrite Hflag. simpl.
    destruct (Z.eqb_spec flag 0) as [->|Hne]; simpl.
    + destruct (kmalloc_ok e) eqn:Hk; eexists _, _; (split; [done|]);
        unfold ENODEV; intuition (try congruence; try lia).
    + eexists _, _. split; [done|].
      unfold ENODEV. intuition (try congruence; try lia).
Qed.

Lemma dev_open_succeeds_iff_witness :
  length (enable_disable_array init_module) = Z.to_nat MINORS
  /\ 0 <= f_minor (closed_file 5)
  /\ exists r filp',
       dev_open calm (closed_file 5) init_module = Ret (r, filp')
       /\ (r = 0 <->
           f_minor (closed_file 5) < MINORS
           /\ at_index (enable_disable_array init_module) (f_minor (closed_file 5))
              = Some 0
           /\ kmalloc_ok calm = true)
       /\ (MINORS <= f_minor (closed_file 5) -> r = - ENODEV)
       /\ (f_minor (closed_file 5) < MINORS ->
           at_index (enable_disable_array init_module) (f_minor (closed_file 5))
           <> Some 0 -> r = - 1)
       /\ (r = 0 ->
           filp' = {| f_minor := f_minor (closed_file 5);
                      private_data := Some {| priority := 1; timeout := 0 |} |})
       /\ - ENODEV <> - 1.
Proof.
  split; [reflexivity|]. split; [simpl; lia|].
  apply (dev_open_succeeds_iff calm (closed_file 5) init_module);
    [reflexivity | simpl; lia].
Defined.

(** C4 as stated fails: minor 0 is below 128 and enabled, and [dev_open]
    still fails when the session cannot be allocated. *)
Lemma dev_open_enabled_can_fail :
  f_minor (closed_file 0) < MINORS
  /\ at_index (enable_disable_array init_module) 0 = Some 0
  /\ dev_open no_kmalloc (closed_file 0) init_module = Ret (- 1, closed_file 0).
Proof. repeat split. Qed.

(** ** Taking the mutex *)

Lemma get_flow_object s m p f :
  get_flow s m p = Some f -> exists o, at_index (objects s) m = Some o.
Proof. unfold get_flow. destruct (at_index (objects s) m); [eauto|done]. Qed.

(** [do_sleep_wqe] answers 1 when the [int] value of the macro is neither 0
    nor [- ERESTARTSYS]. *)
Lemma do_sleep_wqe_one ret :
  (do_sleep_wqe ret =? 1)
  = negb (to_int ret =? 0) && negb (to_int ret =? - ERESTARTSYS).
Proof.
  unfold do_sleep_wqe. cbv zeta.
  destruct (Z.eqb_spec (to_int ret) (- ERESTARTSYS)) as [->|]; [reflexivity|].
  destruct (Z.eqb_spec (to_int ret) 0); reflexivity.
Qed.

Lemma do_sleep_wqe_woken ret :
  to_int ret <> 0 -> to_int ret <> - ERESTARTSYS -> do_sleep_wqe ret = 1.
Proof.
  intros Hz Hs. unfold do_sleep_wqe. cbv zeta.
  destruct (Z.eqb_spec (to_int ret) (- ERESTARTSYS)); [done|].
  by destruct (Z.eqb_spec (to_int ret) 0).
Qed.

Lemma told_apart_answer ret :
  told_apart ret -> (do_sleep_wqe ret =? 1) = condition_met ret.
Proof.
  rewrite do_sleep_wqe_one. unfold condition_met.
  intros [->|[->|(Hpos & Hz & Hs)]]; [reflexivity|reflexivity|].
  destruct (Z.eqb_spec (to_int ret) 0); [done|].
  destruct (Z.eqb_spec (to_int ret) (- ERESTARTSYS)); [done|].
  destruct (Z.ltb_spec 0 ret); [done|lia].
Qed.

(** [try_get_lock] answers what [lock_granted] says. *)
Lemma try_get_lock_answer tl res sess m s got tr :
  try_get_lock tl res sess m s = Ret (got, tr) ->
  got = if lock_granted tl res sess then 1 else 0.
Proof.
  unfold try_get_lock, lock_granted. intros H. unbind H.
  destruct tl; cbn in H; [by injection H as <- _|]. cbn.
  rewrite Z.gtb_ltb, Z.ltb_antisym.
  destruct (timeout sess <=? 0); cbn; [by injection H as <- _|].
  rewrite <- do_sleep_wqe_one.
  destruct (do_sleep_wqe res =? 1); cbn in H; by injection H as <- _.
Qed.

(** When the value of the sleep is told apart, [try_get_lock] answers 1
    with the mutex taken or 0 without it. *)
Lemma try_get_lock_cases tl res sess m s got tr :
  told_apart res ->
  try_get_lock tl res sess m s = Ret (got, tr) ->
  (got = 1 /\ (tr = [EvLock m (priority sess)]
               \/ tr = [EvSleep m (priority sess) WAIT_MUTEX;
                        EvLock m (priority sess)]))
  \/ (got = 0 /\ (tr = [] \/ tr = [EvSleep m (priority sess) WAIT_MUTEX])).
Proof.
  unfold try_get_lock. intros Hres H. unbind H.
  destruct tl; cbn in H.
  - injection H as <- <-. auto.
  - destruct (timeout sess <=? 0); [injection H as <- <-; auto|].
    rewrite (told_apart_answer _ Hres) in H.
    destruct (condition_met res); cbn in H; injection H as <- <-; auto.
Qed.

Lemma try_get_lock_returns tl res sess m s f :
  get_flow s m (priority sess) = Some f ->
  exists got tr, try_get_lock tl res sess m s = Ret (got, tr).
Proof.
  unfold try_get_lock. intros Hf.
  destruct (get_flow_object _ _ _ _ Hf) as [o ->]. simpl.
  destruct tl; simpl; [eauto|].
  destruct (timeout sess <=? 0); [eauto|].
  destruct (do_sleep_wqe res =? 1); simpl; eauto.
Qed.

Lemma try_get_lock_free res sess m s f :
  get_flow s m (priority sess) = Some f ->
  try_get_lock true res sess m s = Ret (1, [EvLock m (priority sess)]).
Proof.
  unfold try_get_lock. intros Hf. by destruct (get_flow_object _ _ _ _ Hf) as [o ->].
Qed.

Lemma try_get_lock_discipline tl res sess m s got tr :
  told_apart res ->
  try_get_lock tl res sess m s = Ret (got, tr) ->
  forall rest,
    discipline m (priority sess) Idle (tr ++ rest)
    = if got =? 1 then discipline m (priority sess) Held rest
      else discipline m (priority sess) Idle rest.
Proof.
  intros Hres H rest.
  destruct (try_get_lock_cases _ _ _ _ _ _ _ Hres H) as [[-> [->| ->]]|[-> [->| ->]]];
    simpl; rewrite ?Z.eqb_refl; done.
Qed.

Lemma leave_discipline m p : discipline m p Held (leave m p) = true.
Proof. simpl. by rewrite !Z.eqb_refl. Qed.

(** ** Control *)

(** C6, amended: an unknown command code fails, with [- 1] when
    [try_get_lock] obtained the flow's mutex and with [- ENODEV] when it
    did not, and leaves the session's priority and timeout and the
    driver's state (so the enable flag) as they were; the argument of a
    known command is not checked: a known command returns 0 for every
    argument when the mutex was obtained ([- ENODEV] when it was not), and
    [SET_PRIO] stores the argument, converted to [int], as the priority. *)
Theorem dev_ioctl_checks_command_only e filp command param s sess f :
  private_data filp = Some sess ->
  get_flow s (f_minor filp) (priority sess) = Some f ->
  exists r filp' s' tr,
    dev_ioctl e filp command param s = Ret (r, filp', s', tr)
    /\ (known_command command = false ->
        r = (if lock_granted (trylock1 e) (sleep1 e) sess then - 1 else - ENODEV)
        /\ filp' = filp /\ s' = s)
    /\ (known_command command = true ->
        r = if lock_granted (trylock1 e) (sleep1 e) sess then 0 else - ENODEV)
    /\ (lock_granted (trylock1 e) (sleep1 e) sess = true -> command = SET_PRIO ->
        private_data filp' = Some {| priority := to_int param;
                                     timeout := timeout sess |}).
Proof.
  intros Hsess Hflow. unfold dev_ioctl, known_command. rewrite Hsess. cbn.
  destruct (try_get_lock_returns (trylock1 e) (sleep1 e) sess (f_minor filp) s f Hflow)
    as (got & tr & Hlock).
  pose proof (try_get_lock_answer _ _ _ _ _ _ _ Hlock) as Hgot.
  rewrite Hlock. cbn.
  destruct (lock_granted (trylock1 e) (sleep1 e) sess); subst got; cbn.
  - destruct (Z.eqb_spec command SET_PRIO) as [->|]; cbn.
    { eexists _, _, _, _. split; [done|]. split_and!; done. }
    destruct (Z.eqb_spec command SET_BLOCKING) as [->|]; cbn.
    { eexists _, _, _, _. split; [done|]. split_and!; done. }
    destruct (Z.eqb_spec command SET_OPENCLOSE) as [->|]; cbn.
    { eexists _, _, _, _. split; [done|]. split_and!; done. }
    eexists _, _, _, _. split; [done|]. split_and!; done.
  - eexists _, _, _, _. split; [done|]. split_and!; done.
Qed.

Lemma dev_ioctl_checks_command_only_witness :
  private_data (open_file 0 1 0) = Some {| priority := 1; timeout := 0 |}
  /\ get_flow init_module (f_minor (open_file 0 1 0)) 1 = Some first_flow
  /\ exists r filp' s' tr,
       dev_ioctl calm (open_file 0 1 0) 2 9 init_module = Ret (r, filp', s', tr)
       /\ (known_command 2 = false ->
           r = (if lock_granted (trylock1 calm) (sleep1 calm)
                     {| priority := 1; timeout := 0 |}
                then - 1 else - ENODEV)
           /\ filp' = open_file 0 1 0 /\ s' = init_module)
       /\ (known_command 2 = true ->
           r = if lock_granted (trylock1 calm) (sleep1 calm)
                    {| priority := 1; timeout := 0 |}
               then 0 else - ENODEV)
       /\ (lock_granted (trylock1 calm) (sleep1 calm)
             {| priority := 1; timeout := 0 |} = true ->
           2 = SET_PRIO ->
           private_data filp' = Some {| priority := to_int 9; timeout := 0 |}).
Proof.
  split; [reflexivity|]. split; [reflexivity|].
  apply (dev_ioctl_checks_command_only calm (open_file 0 1 0) 2 9 init_module
           {| priority := 1; timeout := 0 |} first_flow); reflexivity.
Defined.

(** C6 as stated fails: [SET_PRIO] with the argument 7, which is neither 0
    nor 1, succeeds and makes 7 the session's priority. *)
Lemma dev_ioctl_accepts_priority_7 :
  exists tr,
    dev_ioctl calm (open_file 0 1 0) SET_PRIO 7 init_module
    = Ret (0, open_file 0 7 0, init_module, tr).
Proof. eexists. reflexivity. Qed.

(** ** The calls on the mutex and the wait queue *)

Lemma dev_write_locked_trace e sess m buf len s tr r s' tr' :
  dev_write_locked e sess m buf len s tr = Ret (r, s', tr') ->
  tr' = tr ++ leave m (priority sess).
Proof.
  unfold dev_write_locked. intros H. unbind H.
  destruct (total_free_bytes a =? 0); [by injection H as <- <- <-|].
  destruct (Z.eqb_spec (priority sess) 0) as [Hp|Hp].
  - rewrite Hp.
    destruct (module_get_ok e); cbn in H; [|by injection H as <- <- <-].
    destruct (wq_alloc_ok e); cbn in H; [|by injection H as <- <- <-].
    destruct (wq_data_ok e); cbn in H; by injection H as <- <- <-.
  - destruct (get_flow_prio _ _ _ _ Hl) as [?|Hp1]; [done|]. rewrite Hp1.
    unbind H. destruct a0 as [written s1]. unbind H.
    by injection H as <- <- <-.
Qed.

Lemma dev_read_locked_trace e sess m buf len s tr r s' buf' tr' :
  dev_read_locked e sess m buf len s tr = Ret (r, s', buf', tr') ->
  tr' = tr ++ leave m (priority sess).
Proof.
  unfold dev_read_locked. intros H. unbind H.
  destruct (valid_bytes a =? 0); [by injection H as <- <- <- <-|].
  destruct (kmalloc_ok e); cbn in H; [|by injection H as <- <- <- <-].
  unbind H. destruct a0 as [[[chain temp] total] rem]. unbind H.
  destruct (copy_to_user _ _ _). by injection H as <- <- <- <-.
Qed.

(** A write that finds no free byte, may wait and whose wait does not end
    with the condition true returns [- ENOSPC], having released the mutex
    without a wake-up. *)
Lemma dev_write_sleep_failure e filp buff len s sess :
  private_data filp = Some sess ->
  kmalloc_ok e = true ->
  trylock1 e = true ->
  free_of s (f_minor filp) (priority sess) = Some 0 ->
  0 < timeout sess ->
  do_sleep_wqe (wait_data e) <> 1 ->
  dev_write e filp buff len s
  = Ret (- ENOSPC, after_sleep e sess (f_minor filp) s,
         [EvLock (f_minor filp) (priority sess);
          EvUnlock (f_minor filp) (priority sess);
          EvSleep (f_minor filp) (priority sess) WAIT_WRITE]).
Proof.
  intros Hsess Hk Htl Hfree Htmo Hres. unfold free_of in Hfree.
  destruct (get_flow s (f_minor filp) (priority sess)) as [f|] eqn:Hflow; [|done].
  injection Hfree as Hfree.
  unfold dev_write. rewrite Hsess, Hk, Htl. simpl.
  rewrite (try_get_lock_free _ _ _ _ _ Hflow). simpl.
  rewrite Hflow. simpl. rewrite Hfree. simpl.
  destruct (Z.gtb_spec (timeout sess) 0); [|lia]. simpl.
  destruct (Z.eqb_spec (do_sleep_wqe (wait_data e)) 1); [done|]. done.
Qed.

(** C5: where the claim and the code part.  A signal that interrupts the
    wait for space makes [do_sleep_wqe] answer [- EINTR], and [dev_write]
    turns that answer into [- ENOSPC], the value it also returns when the
    timeout elapses. *)
Theorem dev_write_interrupted_gives_ENOSPC e filp buff len s sess :
  private_data filp = Some sess ->
  kmalloc_ok e = true ->
  trylock1 e = true ->
  free_of s (f_minor filp) (priority sess) = Some 0 ->
  0 < timeout sess ->
  wait_data e = - ERESTARTSYS ->
  do_sleep_wqe (wait_data e) = - EINTR
  /\ exists s' tr, dev_write e filp buff len s = Ret (- ENOSPC, s', tr).
Proof.
  intros Hsess Hk Htl Hfree Htmo Hres. split; [by rewrite Hres|].
  eexists _, _. apply dev_write_sleep_failure; try done.
  by rewrite Hres.
Qed.

Lemma dev_write_interrupted_gives_ENOSPC_witness :
  private_data (open_file 0 1 100) = Some {| priority := 1; timeout := 100 |}
  /\ kmalloc_ok (sleeping (- ERESTARTSYS)) = true
  /\ trylock1 (sleeping (- ERESTARTSYS)) = true
  /\ free_of full_high (f_minor (open_file 0 1 100)) 1 = Some 0
  /\ 0 < 100
  /\ wait_data (sleeping (- ERESTARTSYS)) = - ERESTARTSYS
  /\ do_sleep_wqe (wait_data (sleeping (- ERESTARTSYS))) = - EINTR
  /\ exists s' tr,
       dev_write (sleeping (- ERESTARTSYS)) (open_file 0 1 100) [x41] 1 full_high
       = Ret (- ENOSPC, s', tr).
Proof.
  assert (Hfree : free_of full_high 0 1 = Some 0) by (vm_compute; reflexivity).
  split; [reflexivity|]. split; [reflexivity|]. split; [reflexivity|].
  split; [exact Hfree|]. split; [lia|]. split; [reflexivity|].
  apply (dev_write_interrupted_gives_ENOSPC (sleeping (- ERESTARTSYS))
           (open_file 0 1 100) [x41] 1 full_high {| priority := 1; timeout := 100 |});
    [reflexivity | reflexivity | reflexivity | exact Hfree | simpl; lia | reflexivity].
Defined.

Lemma dev_write_discipline e filp buff len s sess r s' tr :
  told_apart (sleep1 e) ->
  told_apart (sleep2 e) ->
  private_data filp = Some sess ->
  dev_write e filp buff len s = Ret (r, s', tr) ->
  discipline (f_minor filp) (priority sess) Idle tr = true.
Proof.
  intros Hs1 Hs2 Hsess. unfold dev_write. rewrite Hsess. simpl.
  destruct (kmalloc_ok e); simpl; [|by intros [= <- <- <-]].
  destruct (copy_from_user buff len) as [ret temp].
  intros H. unbind H. destruct a as [got tr1].
  pose proof (try_get_lock_discipline _ _ _ _ _ _ _ Hs1 Hl) as D1.
  destruct (Z.eqb_spec got 1) as [->|Hgot]; cbn in H.
  2:{ injection H as <- <- <-. specialize (D1 []). rewrite app_nil_r in D1.
      rewrite D1. by destruct (Z.eqb_spec got 1). }
  unbind H.
  destruct ((total_free_bytes a =? 0) && (timeout sess >? 0)).
  - cbn in H.
    destruct (negb (do_sleep_wqe (wait_data e) =? 1)).
    + injection H as <- <- <-. rewrite D1. simpl. by rewrite !Z.eqb_refl.
    + unbind H. destruct a0 as [got2 tr2].
      pose proof (try_get_lock_discipline _ _ _ _ _ _ _ Hs2 Hl1) as D2.
      destruct (Z.eqb_spec got2 1) as [->|Hgot2]; cbn in H.
      * apply dev_write_locked_trace in H. subst tr.
        rewrite <- !app_assoc. rewrite D1. simpl. rewrite !Z.eqb_refl. simpl.
        rewrite D2. simpl. by rewrite !Z.eqb_refl.
      * injection H as <- <- <-.
        rewrite <- !app_assoc. rewrite D1. simpl. rewrite !Z.eqb_refl. simpl.
        specialize (D2 []). rewrite app_nil_r in D2. rewrite D2.
        by destruct (Z.eqb_spec got2 1).
  - apply dev_write_locked_trace in H. subst tr.
    rewrite D1. simpl. by rewrite !Z.eqb_refl.
Qed.

Lemma dev_read_discipline e filp buff len s sess r s' buff' tr :
  told_apart (sleep1 e) ->
  told_apart (sleep2 e) ->
  private_data filp = Some sess ->
  dev_read e filp buff len s = Ret (r, s', buff', tr) ->
  discipline (f_minor filp) (priority sess) Idle tr = true.
Proof.
  intros Hs1 Hs2 Hsess. unfold dev_read. rewrite Hsess.
  destruct (clear_user buff len) as [ret cleared]. simpl.
  intros H. unbind H. destruct a as [got tr1].
  pose proof (try_get_lock_discipline _ _ _ _ _ _ _ Hs1 Hl) as D1.
  destruct (Z.eqb_spec got 1) as [->|Hgot]; cbn in H.
  2:{ injection H as <- <- <- <-. specialize (D1 []). rewrite app_nil_r in D1.
      rewrite D1. by destruct (Z.eqb_spec got 1). }
  unbind H.
  destruct ((valid_bytes a =? 0) && (timeout sess >? 0)).
  - cbn in H.
    destruct (negb (do_sleep_wqe (wait_data e) =? 1)).
    + injection H as <- <- <- <-. rewrite D1. simpl. by rewrite !Z.eqb_refl.
    + unbind H. destruct a0 as [got2 tr2].
      pose proof (try_get_lock_discipline _ _ _ _ _ _ _ Hs2 Hl1) as D2.
      destruct (Z.eqb_spec got2 1) as [->|Hgot2]; cbn in H.
      * apply dev_read_locked_trace in H. subst tr.
        rewrite <- !app_assoc. rewrite D1. simpl. rewrite !Z.eqb_refl. simpl.
        rewrite D2. simpl. by rewrite !Z.eqb_refl.
      * injection H as <- <- <- <-.
        rewrite <- !app_assoc. rewrite D1. simpl. rewrite !Z.eqb_refl. simpl.
        specialize (D2 []). rewrite app_nil_r in D2. rewrite D2.
        by destruct (Z.eqb_spec got2 1).
  - apply dev_read_locked_trace in H. subst tr.
    rewrite D1. simpl. by rewrite !Z.eqb_refl.
Qed.

Lemma dev_ioctl_discipline e filp command param s sess r filp' s' tr :
  told_apart (sleep1 e) ->
  private_data filp = Some sess ->
  dev_ioctl e filp command param s = Ret (r, filp', s', tr) ->
  discipline (f_minor filp) (priority sess) Idle tr = true.
Proof.
  intros Hs1 Hsess. unfold dev_ioctl. rewrite Hsess. simpl.
  intros H. unbind H. destruct a as [got tr1].
  pose proof (try_get_lock_discipline _ _ _ _ _ _ _ Hs1 Hl) as D1.
  destruct (Z.eqb_spec got 1) as [->|Hgot]; cbn in H.
  2:{ injection H as <- <- <- <-. specialize (D1 []). rewrite app_nil_r in D1.
      rewrite D1. by destruct (Z.eqb_spec got 1). }
  assert (tr = tr1 ++ leave (f_minor filp) (priority sess)) as ->.
  { destruct (command =? SET_PRIO); [by injection H|].
    destruct (command =? SET_BLOCKING); [by injection H|].
    destruct (command =? SET_OPENCLOSE); by injection H. }
  rewrite D1. simpl. by rewrite !Z.eqb_refl.
Qed.

Lemma discipline_one_wake m p ph tr :
  discipline m p ph tr = true -> (count is_wake tr <= 1)%nat.
Proof.
  unfold count. revert ph. induction tr as [|ev tr IH]; intros ph H; [simpl; lia|].
  destruct ev as [m' p'|m' p'|m' p'|m' p' w]; simpl in H;
    rewrite ?filter_cons; simpl.
  - apply andb_prop in H as [_ H]. destruct ph; try done. by eapply IH.
  - apply andb_prop in H as [_ H]. destruct ph; try done. by eapply IH.
  - apply andb_prop in H as [_ H]. destruct ph; try done.
    destruct tr; [simpl; lia|done].
  - destruct w; apply andb_prop in H as [_ H]; destruct ph; try done; by eapply IH.
Qed.

(** C8, amended: in every read, write and control call whose sleeps for
    the mutex end with a value that [do_sleep_wqe] tells apart, each release
    of the flow's mutex is followed at once either by the one wake-up on the
    flow's wait queue that ends the call, or by the sleep for data or space,
    before which nobody is woken; the call does not end holding the mutex,
    issues at most one wake-up, and issues none when it returns without the
    mutex retaken after that sleep. *)
Theorem calls_follow_discipline e c s filp sess tr :
  told_apart (sleep1 e) ->
  told_apart (sleep2 e) ->
  call_file c = Some filp ->
  private_data filp = Some sess ->
  call_trace e c s = Ret tr ->
  discipline (f_minor filp) (priority sess) Idle tr = true
  /\ (count is_wake tr <= 1)%nat.
Proof.
  intros Hs1 Hs2 Hfile Hsess H.
  assert (discipline (f_minor filp) (priority sess) Idle tr = true) as D.
  { destruct c as [f|f|f buff len|f buff len|f command param|k];
      simpl in Hfile; try done; injection Hfile as ->; simpl in H; unbind H.
    - destruct a as [[r s'] tr']. injection H as <-.
      by eapply dev_write_discipline.
    - destruct a as [[[r s'] buff'] tr']. injection H as <-.
      by eapply dev_read_discipline.
    - destruct a as [[[r filp'] s'] tr']. injection H as <-.
      by eapply dev_ioctl_discipline. }
  split; [done|]. by eapply discipline_one_wake.
Qed.

Lemma calls_follow_discipline_witness :
  told_apart (sleep1 calm)
  /\ told_apart (sleep2 calm)
  /\ call_file (CallWrite (open_file 0 1 0) [x68; x69] 2) = Some (open_file 0 1 0)
  /\ private_data (open_file 0 1 0) = Some {| priority := 1; timeout := 0 |}
  /\ call_trace calm (CallWrite (open_file 0 1 0) [x68; x69] 2) init_module
     = Ret [EvLock 0 1; EvUnlock 0 1; EvWake 0 1]
  /\ discipline 0 1 Idle [EvLock 0 1; EvUnlock 0 1; EvWake 0 1] = true
  /\ (count is_wake [EvLock 0 1; EvUnlock 0 1; EvWake 0 1] <= 1)%nat.
Proof.
  split; [right; left; reflexivity|]. split; [right; left; reflexivity|].
  split; [reflexivity|]. split; [reflexivity|].
  split; [vm_compute; reflexivity|].
  apply (calls_follow_discipline calm (CallWrite (open_file 0 1 0) [x68; x69] 2)
           init_module (open_file 0 1 0) {| priority := 1; timeout := 0 |});
    [right; left; reflexivity | right; left; reflexivity
    | reflexivity | reflexivity | vm_compute; reflexivity].
Defined.

(** C8 as stated fails: a write that finds the flow full and may wait takes
    the mutex, releases it and goes to sleep; when the timeout elapses it
    returns, and no wake-up was issued. *)
Lemma dev_write_release_without_wake :
  exists r s' tr,
    dev_write (sleeping 0) (open_file 0 1 100) [x41] 1 full_high = Ret (r, s', tr)
    /\ count is_lock tr = 1%nat
    /\ count is_unlock tr = 1%nat
    /\ count is_wake tr = 0%nat.
Proof.
  eexists _, _, _. split.
  - apply (dev_write_sleep_failure (sleeping 0) (open_file 0 1 100) [x41] 1 full_high
             {| priority := 1; timeout := 100 |});
      [reflexivity | reflexivity | reflexivity | vm_compute; reflexivity
      | simpl; lia | vm_compute; congruence].
  - repeat split.
Qed.

(** ** The destination buffer of a read *)

Lemma read_loop_eq fuel cur len temp total rem :
  read_loop fuel cur len temp total rem
  = if negb (len >? 0) then Ret (cur, temp, total, rem)
    else
      match fuel with
      | O => Spin
      | S fuel' =>
          match cur with
          | [] => Oops
          | p :: tl =>
              let left := to_int (record_length p - read_offset p) in
              let len_to_read := if len >=? to_ulong left then left else to_int len in
              if len_to_read <? 0 then Oops
              else
                let temp' :=
                  memcpy_into temp total
                    (bytes_at (stream_content p) (read_offset p) len_to_read) in
                let p' :=
                  {| record_length := record_length p;
                     read_offset := to_int (read_offset p + len_to_read);
                     stream_content := stream_content p |} in
                let len' := to_ulong (len - len_to_read) in
                let total' := to_int (total + len_to_read) in
                if read_offset p' =? OBJECT_MAX_SIZE
                then '(l, t, n, r) ← read_loop fuel' tl len' temp' total' (rem + 1);
                     Ret (p' :: l, t, n, r)
                else read_loop fuel' (p' :: tl) len' temp' total' rem
          end
      end.
Proof. by destruct fuel. Qed.

(** What one round of the loop of [dev_read] takes from the node: never more
    than is asked for. *)
Lemma len_to_read_bounds len left :
  0 <= len < 2 ^ 31 ->
  let len_to_read := if len >=? to_ulong (to_int left) then to_int left else to_int len in
  0 <= len_to_read -> len_to_read <= len.
Proof.
  intros Hlen. cbn. destruct (Z.geb_spec len (to_ulong (to_int left))) as [Hge|Hlt].
  - intros Hpos. rewrite to_ulong_small in Hge; [done|].
    pose proof (to_int_range left). unfold is_int, is_ulong in *. lia.
  - rewrite to_int_small by (unfold is_int; lia). lia.
Qed.

Lemma read_loop_total fuel : forall cur len temp total rem cur' temp' total' rem',
  0 <= total -> 0 <= len -> total + len < 2 ^ 31 ->
  read_loop fuel cur len temp total rem = Ret (cur', temp', total', rem') ->
  total <= total' <= total + len.
Proof.
  induction fuel as [|fuel IH]; intros cur len temp total rem cur' temp' total' rem'
    Htot Hlen Hsum; rewrite read_loop_eq;
    destruct (Z.gtb_spec len 0) as [Hpos|Hnpos]; cbn;
    try (intros [= <- <- <- <-]; lia); try done.
  destruct cur as [|p tl]; [done|].
  set (left := record_length p - read_offset p).
  pose proof (len_to_read_bounds len left) as Hb. cbn in Hb.
  destruct ((if len >=? to_ulong (to_int left) then to_int left else to_int len) <? 0)
    eqn:Hneg; [done|].
  apply Z.ltb_ge in Hneg. specialize (Hb ltac:(lia) Hneg).
  set (n := if len >=? to_ulong (to_int left) then to_int left else to_int len) in *.
  rewrite (to_ulong_small (len - n)) by (unfold is_ulong; lia).
  rewrite (to_int_small (total + n)) by (unfold is_int; lia).
  destruct (_ =? OBJECT_MAX_SIZE).
  - intros H. unbind H. destruct a as [[[l t] k] r]. injection H as <- <- <- <-.
    apply IH in Hl; lia.
  - intros H. apply IH in H; lia.
Qed.

Lemma clear_user_whole buff len :
  0 <= len -> (Z.to_nat len <= length buff)%nat ->
  clear_user buff len
  = (0, replicate (Z.to_nat len) x00 ++ drop (Z.to_nat len) buff).
Proof.
  intros Hlen Hfit. unfold clear_user.
  rewrite Nat.min_l by done. f_equal. lia.
Qed.

(** Past the bytes delivered, a cleared buffer overwritten at its start is
    still clear. *)
Lemma cleared_tail (moved rest : list byte) (n k : nat) :
  (length moved <= k)%nat ->
  drop k (take n (moved ++ drop (length moved) (replicate n x00 ++ rest)))
  = replicate (n - k) x00.
Proof.
  intros Hk.
  destruct (decide (k <= n)%nat) as [Hkn|Hkn].
  - replace n with (k + (n - k))%nat at 1 by lia.
    rewrite <- take_drop_commute.
    rewrite drop_app_ge by done.
    rewrite drop_drop.
    replace (length moved + (k - length moved))%nat with k by lia.
    rewrite drop_app_le by (rewrite length_replicate; lia).
    rewrite drop_replicate.
    rewrite take_app_le by (rewrite length_replicate; lia).
    rewrite take_replicate. f_equal. lia.
  - replace (n - k)%nat with 0%nat by lia. simpl.
    apply drop_ge. rewrite length_take. lia.
Qed.

Lemma cleared_whole (rest : list byte) (n k : nat) :
  drop k (take n (replicate n x00 ++ rest)) = replicate (n - k) x00.
Proof.
  pose proof (cleared_tail [] rest n k) as H. simpl in H.
  rewrite drop_0 in H. apply H. lia.
Qed.

Lemma dev_read_locked_buffer e sess m rest n len s tr r s' buff' tr' :
  0 <= len < 2 ^ 31 ->
  dev_read_locked e sess m (replicate n x00 ++ rest) len s tr = Ret (r, s', buff', tr') ->
  drop (Z.to_nat r) (take n buff') = replicate (n - Z.to_nat r) x00.
Proof.
  intros Hlen. unfold dev_read_locked. intros H. unbind H.
  destruct (valid_bytes a =? 0); [injection H as <- <- <- <-; apply cleared_whole|].
  destruct (kmalloc_ok e); cbn in H;
    [|injection H as <- <- <- <-; apply cleared_whole].
  unbind H. destruct a0 as [[[chain temp] total] rem]. unbind H.
  set (lenc := if len >? to_ulong (valid_bytes a) then to_ulong (valid_bytes a) else len) in *.
  assert (0 <= lenc <= len) as Hlenc.
  { subst lenc. pose proof (to_ulong_range (valid_bytes a)). unfold is_ulong in *.
    destruct (Z.gtb_spec len (to_ulong (valid_bytes a))); lia. }
  apply read_loop_total in Hl0; [|lia..].
  unfold copy_to_user in H. injection H as <- <- <- <-.
  rewrite (to_ulong_small total) by (unfold is_ulong; lia).
  set (k := (Z.to_nat total `min` length (replicate n x00 ++ rest))%nat).
  rewrite (to_int_small (total - Z.of_nat k)) by (unfold is_int; lia).
  apply cleared_tail. rewrite length_take. lia.
Qed.

(** C10: [dev_read] clears the [len] bytes of the destination first; when
    it returns, whatever it returns, every byte of the destination past the
    bytes delivered is zero: all [len] bytes after an error or a 0, the
    last [len - r] after a read of [r] bytes. *)
Theorem dev_read_zero_fills e filp buff len s r s' buff' tr :
  0 <= len < 2 ^ 31 ->
  (Z.to_nat len <= length buff)%nat ->
  dev_read e filp buff len s = Ret (r, s', buff', tr) ->
  drop (Z.to_nat r) (take (Z.to_nat len) buff')
  = replicate (Z.to_nat len - Z.to_nat r) x00.
Proof.
  intros Hlen Hfit. unfold dev_read.
  rewrite clear_user_whole by lia.
  rewrite Z.sub_0_r. rewrite (to_ulong_small len) by (unfold is_ulong; lia).
  intros H. unbind H. cbn in H. unbind H. destruct a0 as [got tr1].
  destruct (negb (got =? 1)); [injection H as <- <- <- <-; apply cleared_whole|].
  unbind H.
  destruct ((valid_bytes a0 =? 0) && (timeout a >? 0)).
  - cbn in H.
    destruct (negb (do_sleep_wqe (wait_data e) =? 1));
      [injection H as <- <- <- <-; apply cleared_whole|].
    unbind H. destruct a1 as [got2 tr2].
    destruct (negb (got2 =? 1)); [injection H as <- <- <- <-; apply cleared_whole|].
    by eapply dev_read_locked_buffer.
  - by eapply dev_read_locked_buffer.
Qed.

Lemma dev_read_zero_fills_witness :
  0 <= 4 < 2 ^ 31
  /\ (Z.to_nat 4 <= length [x01; x02; x03; x04; x05])%nat
  /\ dev_read calm (open_file 0 1 0) [x01; x02; x03; x04; x05] 4 init_module
     = Ret (0, init_module, [x00; x00; x00; x00; x05], [EvLock 0 1; EvUnlock 0 1; EvWake 0 1])
  /\ drop (Z.to_nat 0) (take (Z.to_nat 4) [x00; x00; x00; x00; x05])
     = replicate (Z.to_nat 4 - Z.to_nat 0) x00.
Proof.
  split; [lia|]. split; [simpl; lia|]. split; [reflexivity|].
  apply (dev_read_zero_fills calm (open_file 0 1 0) [x01; x02; x03; x04; x05] 4
           init_module 0 init_module [x00; x00; x00; x00; x05]
           [EvLock 0 1; EvUnlock 0 1; EvWake 0 1]);
    [lia | simpl; lia | reflexivity].
Defined.

(** ** What the steps do to the flows *)

Lemma same_flows_refl s : same_flows s s.
Proof. done. Qed.

Lemma write_data_Ret fu bu n m buf p s r s1 :
  write_data fu bu n m buf p s = Ret (r, s1) ->
  exists f chain,
    get_flow s m p = Some f
    /\ write_pages fu bu n buf (list_heads f) = Ret (r, chain)
    /\ s1 = put_flow s m p (with_chain f chain).
Proof.
  unfold write_data. intros H. unbind H. unbind H. destruct a0 as [r0 chain].
  injection H as <- <-. eauto.
Qed.

Lemma dev_write_locked_effect e sess m buf len s tr r s' tr' :
  dev_write_locked e sess m buf len s tr = Ret (r, s', tr') -> effect s s'.
Proof.
  unfold dev_write_locked. intros H. unbind H.
  destruct (total_free_bytes a =? 0); [injection H as <- <- <-; by apply eff_none|].
  destruct (Z.eqb_spec (priority sess) 0) as [Hp|Hp].
  - rewrite Hp in Hl.
    destruct (module_get_ok e); cbn in H; [|injection H as <- <- <-; by apply eff_none].
    destruct (wq_alloc_ok e); cbn in H; [|injection H as <- <- <-; by apply eff_none].
    destruct (wq_data_ok e); cbn in H; [|injection H as <- <- <-; by apply eff_none].
    injection H as <- <- <-.
    eapply eff_reserve; [exact Hl|done|cbn; by rewrite ?pending_put_flow].
  - destruct (get_flow_prio _ _ _ _ Hl) as [?|Hp1]; [done|]. rewrite Hp1 in *.
    unbind H. destruct a0 as [written s1].
    apply write_data_Ret in Hl0 as (f & chain & Hf & Hw & ->).
    unbind H. injection H as <- <- <-.
    rewrite (get_put_flow_same _ _ _ _ _ Hf) in Hl0. injection Hl0 as <-.
    eapply eff_store; [exact Hf|exact Hw| |cbn; by rewrite !pending_put_flow].
    cbn. by rewrite put_put_flow.
Qed.

Lemma dev_read_locked_effect e sess m buf len s tr r s' buf' tr' :
  dev_read_locked e sess m buf len s tr = Ret (r, s', buf', tr') -> effect s s'.
Proof.
  unfold dev_read_locked. intros H. unbind H.
  destruct (valid_bytes a =? 0); [injection H as <- <- <- <-; by apply eff_none|].
  destruct (kmalloc_ok e); cbn in H; [|injection H as <- <- <- <-; by apply eff_none].
  unbind H. destruct a0 as [[[chain temp] total] rem]. unbind H.
  destruct (copy_to_user _ _ _) as [ret buff2]. injection H as <- <- <- <-.
  eapply eff_drain; [exact Hl|exact Hl0|exact Hl1|done|cbn; by rewrite ?pending_put_flow].
Qed.

Lemma do_wq_write_effect e k the_wq s s' tr :
  pending_work s !! k = Some the_wq ->
  do_wq_write e the_wq (with_pending s (delete k (pending_work s))) = Ret (s', tr) ->
  effect s s'.
Proof.
  intros Hk. unfold do_wq_write. intros H. unbind H. destruct a as [r s1].
  apply write_data_Ret in Hl as (f & chain & Hf & Hw & ->).
  unbind H. injection H as <- <-.
  rewrite (get_put_flow_same _ _ _ _ _ Hf) in Hl. injection Hl as <-.
  eapply eff_work; [exact Hk|exact Hf|exact Hw| |cbn; by rewrite !pending_put_flow].
  cbn. rewrite put_put_flow. by apply objects_put_flow.
Qed.

Lemma dev_write_effect e filp buff len s r s' tr :
  dev_write e filp buff len s = Ret (r, s', tr) ->
  exists s0, starts e s s0 /\ effect s0 s'.
Proof.
  unfold dev_write. intros H.
  destruct (kmalloc_ok e); cbn in H.
  2:{ injection H as <- <- <-. exists s. split; [by left|by apply eff_none]. }
  destruct (copy_from_user buff len) as [ret temp].
  unbind H. unbind H. destruct a0 as [got tr1].
  destruct (negb (got =? 1)).
  { injection H as <- <- <-. exists s. split; [by left|by apply eff_none]. }
  unbind H.
  destruct ((total_free_bytes a0 =? 0) && (timeout a >? 0)).
  - cbn in H. exists (after_sleep e a (f_minor filp) s).
    split; [right; eauto|].
    destruct (negb (do_sleep_wqe (wait_data e) =? 1));
      [injection H as <- <- <-; by apply eff_none|].
    unbind H. destruct a1 as [got2 tr2].
    destruct (negb (got2 =? 1)); [injection H as <- <- <-; by apply eff_none|].
    by eapply dev_write_locked_effect.
  - exists s. split; [by left|]. by eapply dev_write_locked_effect.
Qed.

Lemma dev_read_effect e filp buff len s r s' buff' tr :
  dev_read e filp buff len s = Ret (r, s', buff', tr) ->
  exists s0, starts e s s0 /\ effect s0 s'.
Proof.
  unfold dev_read. destruct (clear_user buff len) as [ret cleared].
  intros H. unbind H. cbn in H. unbind H. destruct a0 as [got tr1].
  destruct (negb (got =? 1)).
  { injection H as <- <- <- <-. exists s. split; [by left|by apply eff_none]. }
  unbind H.
  destruct ((valid_bytes a0 =? 0) && (timeout a >? 0)).
  - cbn in H. exists (after_sleep e a (f_minor filp) s).
    split; [right; eauto|].
    destruct (negb (do_sleep_wqe (wait_data e) =? 1));
      [injection H as <- <- <- <-; by apply eff_none|].
    unbind H. destruct a1 as [got2 tr2].
    destruct (negb (got2 =? 1)); [injection H as <- <- <- <-; by apply eff_none|].
    by eapply dev_read_locked_effect.
  - exists s. split; [by left|]. by eapply dev_read_locked_effect.
Qed.

Lemma dev_ioctl_effect e filp command param s r filp' s' tr :
  dev_ioctl e filp command param s = Ret (r, filp', s', tr) -> effect s s'.
Proof.
  unfold dev_ioctl. intros H. unbind H. cbn in H. unbind H. destruct a0 as [got tr1].
  destruct (negb (got =? 1)); [injection H as <- <- <- <-; by apply eff_none|].
  destruct (command =? SET_PRIO); [injection H as <- <- <- <-; by apply eff_none|].
  destruct (command =? SET_BLOCKING); [injection H as <- <- <- <-; by apply eff_none|].
  destruct (command =? SET_OPENCLOSE); injection H as <- <- <- <-; by apply eff_none.
Qed.

(** Every step is one effect, from the state of the call or from the state
    found after the sleep. *)
Lemma exec_effect e c s s' :
  exec e c s = Ret s' -> exists s0, starts e s s0 /\ effect s0 s'.
Proof.
  destruct c as [f|f|f buff len|f buff len|f command param|k]; cbn; intros H.
  - unbind H. injection H as <-. exists s. split; [by left|by apply eff_none].
  - injection H as <-. exists s. split; [by left|by apply eff_none].
  - unbind H. destruct a as [[r s1] tr]. injection H as <-.
    by eapply dev_write_effect.
  - unbind H. destruct a as [[[r s1] buff'] tr]. injection H as <-.
    by eapply dev_read_effect.
  - unbind H. destruct a as [[[r filp'] s1] tr]. injection H as <-.
    exists s. split; [by left|]. by eapply dev_ioctl_effect.
  - destruct (pending_work s !! k) as [the_wq|] eqn:Hk.
    + unbind H. destruct a as [s1 tr]. injection H as <-.
      exists s. split; [by left|]. by eapply do_wq_write_effect.
    + injection H as <-. exists s. split; [by left|by apply eff_none].
Qed.

(** ** The accounting equation *)

Lemma to_int_shift a b : (exists k, a = b + k * 2 ^ 32) -> to_int a = to_int b.
Proof. intros [k ->]. by eapply to_int_congr. Qed.

Lemma reserved_app l1 l2 m : reserved (l1 ++ l2) m = reserved l1 m + reserved l2 m.
Proof. induction l1 as [|w l1 IH]; simpl; lia. Qed.

Lemma reserved_delete l : forall k w m,
  l !! k = Some w ->
  reserved (delete k l) m
  = reserved l m - (if wq_minor w =? m then wq_len w else 0).
Proof.
  induction l as [|w0 l IH]; intros k w m Hk; [done|].
  destruct k as [|k]; simpl in *.
  - injection Hk as ->. lia.
  - rewrite (IH _ _ _ Hk). lia.
Qed.

Lemma owed_high s m : owed s m 1 = 0.
Proof. done. Qed.

Lemma balanced_same s s' : same_flows s s' -> balanced s -> balanced s'.
Proof.
  intros [Hobj Hpen] Hb m p f Hget.
  rewrite (get_flow_same_objects _ _ _ _ Hobj) in Hget.
  unfold owed. rewrite Hpen. by apply Hb.
Qed.

Lemma balanced_put s s' m p f fnew :
  get_flow s m p = Some f ->
  objects s' = objects (put_flow s m p fnew) ->
  balanced s ->
  to_int (valid_bytes fnew + total_free_bytes fnew + owed s' m p)
  = to_int (valid_bytes f + total_free_bytes f + owed s m p) ->
  (forall m', m' <> m \/ p <> 0 ->
     reserved (pending_work s') m' = reserved (pending_work s) m') ->
  balanced s'.
Proof.
  intros Hget Hobj Hb Heq Hother m' p' f' Hget'.
  rewrite (get_flow_same_objects _ _ _ _ Hobj) in Hget'.
  destruct (decide (m = m' /\ p = p')) as [[<- <-]|Hne].
  - rewrite (get_put_flow_same _ _ _ _ _ Hget) in Hget'. injection Hget' as <-.
    rewrite Heq. by apply Hb.
  - rewrite get_put_flow_other in Hget' by (destruct (decide (m = m')); tauto).
    rewrite <- (Hb _ _ _ Hget'). f_equal. f_equal.
    unfold owed. destruct (Z.eqb_spec p' 0) as [->|]; [|done].
    apply Hother. destruct (decide (m = m')); [right|left]; [tauto|congruence].
Qed.

Lemma effect_balanced s s' : effect s s' -> balanced s -> balanced s'.
Proof.
  intros [Hsame|m f n buf Hf Hobj Hpen|m f fu bu n buf w chain Hf Hw Hobj Hpen
         |m p f fu n temp chain temp' total rem chain' Hf Hr Hfree Hobj Hpen
         |k the_wq f fu bu w chain Hk Hf Hw Hobj Hpen] Hb.
  - by eapply balanced_same.
  - eapply balanced_put; [exact Hf|exact Hobj|exact Hb| |].
    + cbn. unfold owed. cbn. rewrite Hpen, reserved_app. cbn. rewrite Z.eqb_refl.
      apply to_int_shift.
      destruct (to_ulong_spec (total_free_bytes f)) as [k1 ->].
      destruct (to_ulong_spec (total_free_bytes f + k1 * 2 ^ 32 - n)) as [k2 ->].
      destruct (to_int_spec (total_free_bytes f + k1 * 2 ^ 32 - n + k2 * 2 ^ 32))
        as [k3 ->].
      exists (k1 + k2 + k3). lia.
    + intros m' [Hm|?]; [|done]. rewrite Hpen, reserved_app. cbn.
      destruct (Z.eqb_spec m m'); [congruence|lia].
  - eapply balanced_put; [exact Hf|exact Hobj|exact Hb| |].
    + cbn. rewrite ?owed_high. apply to_int_shift.
      destruct (to_int_spec (valid_bytes f + to_int w)) as [k1 ->].
      destruct (to_int_spec (total_free_bytes f - to_int w)) as [k2 ->].
      exists (k1 + k2). lia.
    + intros m' _. by rewrite Hpen.
  - eapply balanced_put; [exact Hf|exact Hobj|exact Hb| |].
    + cbn. unfold owed. rewrite Hpen. apply to_int_shift.
      destruct (to_int_spec (valid_bytes f - total)) as [k1 ->].
      destruct (to_int_spec (total_free_bytes f + total)) as [k2 ->].
      exists (k1 + k2). lia.
    + intros m' _. by rewrite Hpen.
  - eapply balanced_put; [exact Hf|exact Hobj|exact Hb| |].
    + cbn. unfold owed. cbn. rewrite Hpen, (reserved_delete _ _ _ _ Hk).
      rewrite Z.eqb_refl. apply to_int_shift.
      destruct (to_ulong_spec (valid_bytes f)) as [k1 ->].
      destruct (to_ulong_spec (valid_bytes f + k1 * 2 ^ 32 + wq_len the_wq)) as [k2 ->].
      destruct (to_int_spec (valid_bytes f + k1 * 2 ^ 32 + wq_len the_wq + k2 * 2 ^ 32))
        as [k3 ->].
      exists (k1 + k2 + k3). lia.
    + intros m' [Hm|?]; [|done]. rewrite Hpen, (reserved_delete _ _ _ _ Hk).
      destruct (Z.eqb_spec (wq_minor the_wq) m'); [congruence|lia].
Qed.

Lemma starts_balanced e s s0 :
  starts e s s0 ->
  (forall d, balanced d -> balanced (interfere e d)) ->
  balanced s -> balanced s0.
Proof.
  intros [->|(sess & m & ->)] Hrely Hb; [done|].
  unfold after_sleep.
  eapply balanced_same; [|apply Hrely; eapply balanced_same; [|exact Hb]]; done.
Qed.

Lemma balanced_init : balanced init_module.
Proof.
  intros m p f. unfold get_flow, at_index, init_module. cbn.
  destruct (m <? 0); [done|].
  destruct (replicate _ _ !! _) as [o|] eqn:Ho; [|done].
  apply lookup_replicate in Ho as [-> _].
  unfold flow_at. cbn.
  destruct (p =? 0) eqn:Hp; [intros [= <-]; unfold owed; by rewrite Hp|].
  destruct (p =? 1); [intros [= <-]; unfold owed; by rewrite Hp|done].
Qed.

(** C1, amended: every step keeps, for every endpoint and flow, the equation
    valid_bytes + free_bytes + (bytes reserved by the deferred writes of the
    endpoint that have not run yet, for the low flow; nothing for the high
    flow) == OBJECT_MAX_SIZE * MAX_PAGES, in the [int] arithmetic of the
    counters, hence exactly whenever the left-hand side is within [int]. *)
Theorem steps_keep_balance e c s s' minor prio v fr :
  balanced s ->
  (forall d, balanced d -> balanced (interfere e d)) ->
  exec e c s = Ret s' ->
  valid_of s' minor prio = Some v ->
  free_of s' minor prio = Some fr ->
  to_int (v + fr + owed s' minor prio) = OBJECT_MAX_SIZE * MAX_PAGES
  /\ (is_int (v + fr + owed s' minor prio) ->
      v + fr + owed s' minor prio = OBJECT_MAX_SIZE * MAX_PAGES).
Proof.
  intros Hb Hrely Hexec Hv Hfr.
  apply exec_effect in Hexec as (s0 & Hstart & Heff).
  pose proof (effect_balanced _ _ Heff (starts_balanced _ _ _ Hstart Hrely Hb)) as Hb'.
  unfold valid_of, free_of in *.
  destruct (get_flow s' minor prio) as [f|] eqn:Hf; [|done].
  cbn in Hv, Hfr. injection Hv as <-. injection Hfr as <-.
  specialize (Hb' _ _ _ Hf). split; [done|].
  intros Hint. by rewrite to_int_small in Hb'.
Qed.

Lemma step_to_Ret e c s : returns (exec e c s) = true -> exec e c s = Ret (step_to e c s).
Proof. unfold step_to. by destruct (exec e c s). Qed.

Lemma low_write_hi_runs :
  exec calm low_write_hi init_module = Ret (step_to calm low_write_hi init_module).
Proof. apply step_to_Ret. vm_compute. reflexivity. Qed.

Lemma steps_keep_balance_witness :
  balanced init_module
  /\ (forall d, balanced d -> balanced (interfere calm d))
  /\ exec calm low_write_hi init_module = Ret (step_to calm low_write_hi init_module)
  /\ valid_of (step_to calm low_write_hi init_module) 0 0 = Some 0
  /\ free_of (step_to calm low_write_hi init_module) 0 0 = Some 20478
  /\ to_int (0 + 20478 + owed (step_to calm low_write_hi init_module) 0 0)
     = OBJECT_MAX_SIZE * MAX_PAGES
  /\ (is_int (0 + 20478 + owed (step_to calm low_write_hi init_module) 0 0) ->
      0 + 20478 + owed (step_to calm low_write_hi init_module) 0 0
      = OBJECT_MAX_SIZE * MAX_PAGES).
Proof.
  split; [exact balanced_init|]. split; [intros d Hd; exact Hd|].
  split; [exact low_write_hi_runs|].
  split; [vm_compute; reflexivity|]. split; [vm_compute; reflexivity|].
  apply (steps_keep_balance calm low_write_hi init_module
           (step_to calm low_write_hi init_module) 0 0 0 20478);
    [exact balanced_init | intros d Hd; exact Hd | exact low_write_hi_runs
    | vm_compute; reflexivity | vm_compute; reflexivity].
Defined.

(** C1 as stated fails: after a low priority write of 2 bytes has been
    accepted and before the work queue has run it, the low flow of the
    endpoint has valid_bytes 0 and free_bytes 20478, which do not add up to
    20480. *)
Lemma low_write_breaks_plain_sum :
  exec calm low_write_hi init_module = Ret (step_to calm low_write_hi init_module)
  /\ valid_of (step_to calm low_write_hi init_module) 0 0 = Some 0
  /\ free_of (step_to calm low_write_hi init_module) 0 0 = Some 20478
  /\ 0 + 20478 <> OBJECT_MAX_SIZE * MAX_PAGES.
Proof.
  split; [exact low_write_hi_runs|].
  split; [vm_compute; reflexivity|]. split; [vm_compute; reflexivity|].
  unfold OBJECT_MAX_SIZE, MAX_PAGES. lia.
Qed.

(** ** Read offsets along a chain *)

Lemma copy_loop_eq fuel cur len buffer tot :
  copy_loop fuel cur len buffer tot
  = if negb (len >? 0) then Ret (cur, tot)
    else
      match fuel with
      | O => Spin
      | S fuel' =>
          match cur with
          | [] => Oops
          | p :: tl =>
              let room := to_int (OBJECT_MAX_SIZE - record_length p) in
              let curr_length := if len >? to_ulong room then room else to_int len in
              if curr_length <? 0 then Oops
              else
                let p' :=
                  {| record_length := to_int (record_length p + curr_length);
                     read_offset := read_offset p;
                     stream_content :=
                       memcpy_into (stream_content p) (record_length p)
                         (bytes_at buffer tot curr_length) |} in
                let tot' := to_int (tot + curr_length) in
                let len' := to_ulong (len - curr_length) in
                if (record_length p' =? OBJECT_MAX_SIZE) && (len' >? 0)
                then '(l, t) ← copy_loop fuel' tl len' buffer tot'; Ret (p' :: l, t)
                else copy_loop fuel' (p' :: tl) len' buffer tot'
          end
      end.
Proof. by destruct fuel. Qed.

Lemma copy_loop_offsets fuel : forall cur len buffer tot cur' tot',
  copy_loop fuel cur len buffer tot = Ret (cur', tot') ->
  read_offset <$> cur' = read_offset <$> cur.
Proof.
  induction fuel as [|fuel IH]; intros cur len buffer tot cur' tot';
    rewrite copy_loop_eq; destruct (negb (len >? 0));
    try (by intros [= <- <-]); try done.
  destruct cur as [|p tl]; [done|]. cbn.
  destruct (_ <? 0); [done|].
  destruct (_ && _).
  - intros H. unbind H. destruct a as [l t]. injection H as <- <-.
    cbn. f_equal. by eapply IH.
  - intros H. apply IH in H. by rewrite H.
Qed.

Lemma last_or_room_app l : forall passed rest,
  last_or_room l = (passed, rest) -> l = passed ++ rest.
Proof.
  induction l as [|p tl IH]; intros passed rest; [by intros [= <- <-]|].
  cbn. destruct tl as [|q tl]; [by intros [= <- <-]|].
  destruct (record_length p =? OBJECT_MAX_SIZE); [|by intros [= <- <-]].
  destruct (last_or_room (q :: tl)) as [a b] eqn:E. intros [= <- <-].
  cbn. f_equal. by apply IH.
Qed.

Lemma skip_full_app l : forall passed rest,
  skip_full l = Ret (passed, rest) -> l = passed ++ rest.
Proof.
  induction l as [|p tl IH]; intros passed rest; [done|]. cbn.
  destruct (record_length p =? OBJECT_MAX_SIZE); [|by intros [= <- <-]].
  intros H. unbind H. destruct a as [a b]. injection H as <- <-.
  cbn. f_equal. by apply IH.
Qed.

Lemma grow_chain_fresh budget : forall temp_len ok added,
  grow_chain budget temp_len = (ok, added) ->
  added = replicate (length added) new_record.
Proof.
  induction budget as [|budget IH]; intros temp_len ok added; cbn.
  - by intros [= <- <-].
  - destruct (temp_len >? 0); [|by intros [= <- <-]].
    destruct (grow_chain budget _) as [ok' added'] eqn:E. intros [= <- <-].
    cbn. f_equal. by eapply IH.
Qed.

Lemma head_only_offsets l l' :
  read_offset <$> l' = read_offset <$> l -> head_only l -> head_only l'.
Proof.
  destruct l as [|p tl], l' as [|p' tl']; try done. cbn.
  intros [= Hp Htl] [Hne Hall]. split; [congruence|].
  apply (proj1 (Forall_fmap read_offset (fun x => x = 0) tl')).
  rewrite Htl.
  by apply (proj2 (Forall_fmap read_offset (fun x => x = 0) tl)).
Qed.

Lemma head_only_regrown passed temp_object rest (added : list object_content) :
  head_only (passed ++ temp_object :: rest) ->
  head_only (passed ++ temp_object :: replicate (length added) new_record).
Proof.
  assert (Forall (fun q => read_offset q = 0) (replicate (length added) new_record)) as Hnew.
  { apply Forall_forall. intros q Hq. by apply elem_of_replicate in Hq as [-> _]. }
  destruct passed as [|p passed]; cbn.
  - intros [Hne _]. done.
  - intros [Hne Hall]. split; [done|].
    apply Forall_app in Hall as [Ha Hb]. apply Forall_app. split; [done|].
    apply Forall_cons in Hb as [Ht _]. by apply Forall_cons.
Qed.

Lemma write_pages_head_only fu bu n buf chain r chain' :
  write_pages fu bu n buf chain = Ret (r, chain') ->
  head_only chain -> head_only chain'.
Proof.
  unfold write_pages. intros H Hhead.
  set (first := match chain with
                | [] => match bu with O => None | S b => Some ([new_record], b) end
                | _ => Some (chain, bu)
                end) in H.
  assert (forall c1 b1, first = Some (c1, b1) -> head_only c1) as Hfirst.
  { subst first. intros c1 b1. destruct chain as [|p tl].
    - destruct bu; [done|]. intros [= <- <-]. cbn. done.
    - by intros [= <- <-]. }
  destruct first as [[chain1 budget1]|]; [|by injection H as <- <-].
  specialize (Hfirst _ _ eq_refl).
  destruct (last_or_room chain1) as [passed rest] eqn:Hsplit.
  apply last_or_room_app in Hsplit.
  destruct rest as [|temp_object after]; [done|].
  set (grown := if to_int (to_int (OBJECT_MAX_SIZE - record_length temp_object) - to_int n) <? 0
                then let '(ok, added) :=
                       grow_chain budget1
                         (to_int (to_int n - to_int (OBJECT_MAX_SIZE - record_length temp_object))) in
                     (ok, match added with
                          | [] => chain1
                          | _ => passed ++ temp_object :: added
                          end)
                else (true, chain1)) in H.
  assert (head_only grown.2) as Hgrown.
  { subst grown. destruct (_ <? 0); [|done].
    destruct (grow_chain budget1 _) as [ok added] eqn:Hg.
    apply grow_chain_fresh in Hg. cbn. destruct added as [|q added]; [done|].
    rewrite Hg. eapply head_only_regrown. by rewrite <- Hsplit. }
  destruct grown as [ok chain2]. cbn in Hgrown.
  destruct ok; cbn in H; [|by injection H as <- <-].
  unbind H. destruct a as [full cur]. apply skip_full_app in Hl.
  unbind H. destruct a as [cur' tot]. injection H as <- <-.
  apply copy_loop_offsets in Hl0.
  eapply head_only_offsets; [|exact Hgrown].
  rewrite Hl, !fmap_app. by rewrite Hl0.
Qed.

Lemma free_records_drop n : forall chain chain',
  free_records n chain = Ret chain' -> chain' = drop n chain.
Proof.
  induction n as [|n IH]; intros chain chain'; cbn; [by intros [= <-]|].
  destruct chain as [|p tl]; [done|]. apply IH.
Qed.

Lemma head_only_tail p tl : head_only (p :: tl) -> head_only tl.
Proof.
  intros [_ Hall]. destruct tl as [|q tl]; [done|].
  apply Forall_cons in Hall as [Hq Htl]. split; [|done].
  rewrite Hq. unfold OBJECT_MAX_SIZE. lia.
Qed.

Lemma read_loop_head_only fuel : forall cur len temp total rem cur' temp' total' rem',
  read_loop fuel cur len temp total rem = Ret (cur', temp', total', rem') ->
  head_only cur ->
  rem <= rem' /\ head_only (drop (Z.to_nat (rem' - rem)) cur').
Proof.
  induction fuel as [|fuel IH]; intros cur len temp total rem cur' temp' total' rem';
    rewrite read_loop_eq; destruct (negb (len >? 0));
    try (intros [= <- <- <- <-] Hh; rewrite Z.sub_diag; by split); try done.
  destruct cur as [|p tl]; [done|]. cbn.
  destruct (_ <? 0); [done|].
  match goal with |- context [?x =? OBJECT_MAX_SIZE] => destruct (Z.eqb_spec x OBJECT_MAX_SIZE) as [Heq|Hne] end.
  - intros H Hh. unbind H. destruct a as [[[l t] k] r]. injection H as <- <- <- <-.
    apply IH in Hl as [Hle Hd]; [|by eapply head_only_tail].
    split; [lia|].
    replace (Z.to_nat (r - rem)) with (S (Z.to_nat (r - (rem + 1)))) by lia.
    done.
  - intros H Hh. apply IH in H; [done|].
    destruct Hh as [_ Hall]. by split.
Qed.

Lemma read_then_free_head_only fu chain n temp cur temp' total rem chain' :
  read_loop fu chain n temp 0 0 = Ret (cur, temp', total, rem) ->
  (if rem >? 0 then free_records (Z.to_nat rem) cur else Ret cur) = Ret chain' ->
  head_only chain -> head_only chain'.
Proof.
  intros Hr Hf Hh. apply read_loop_head_only in Hr as [Hle Hd]; [|done].
  rewrite Z.sub_0_r in Hd.
  destruct (Z.gtb_spec rem 0).
  - apply free_records_drop in Hf. by subst.
  - injection Hf as <-. replace rem with 0 in Hd by lia. done.
Qed.

Lemma heads_only_same s s' : same_flows s s' -> heads_only s -> heads_only s'.
Proof.
  intros [Hobj _] Hh m p f Hget.
  rewrite (get_flow_same_objects _ _ _ _ Hobj) in Hget. by eapply Hh.
Qed.

Lemma heads_only_put s s' m p f fnew :
  get_flow s m p = Some f ->
  objects s' = objects (put_flow s m p fnew) ->
  heads_only s ->
  head_only (list_heads fnew) ->
  heads_only s'.
Proof.
  intros Hget Hobj Hh Hnew m' p' f' Hget'.
  rewrite (get_flow_same_objects _ _ _ _ Hobj) in Hget'.
  destruct (decide (m = m' /\ p = p')) as [[<- <-]|Hne].
  - rewrite (get_put_flow_same _ _ _ _ _ Hget) in Hget'. by injection Hget' as <-.
  - rewrite get_put_flow_other in Hget' by (destruct (decide (m = m')); tauto).
    by eapply Hh.
Qed.

Lemma effect_heads_only s s' : effect s s' -> heads_only s -> heads_only s'.
Proof.
  intros [Hsame|m f n buf Hf Hobj Hpen|m f fu bu n buf w chain Hf Hw Hobj Hpen
         |m p f fu n temp chain temp' total rem chain' Hf Hr Hfree Hobj Hpen
         |k the_wq f fu bu w chain Hk Hf Hw Hobj Hpen] Hh.
  - by eapply heads_only_same.
  - eapply heads_only_put; [exact Hf|exact Hobj|exact Hh|]. cbn. by eapply Hh.
  - eapply heads_only_put; [exact Hf|exact Hobj|exact Hh|]. cbn.
    eapply write_pages_head_only; [exact Hw|]. by eapply Hh.
  - eapply heads_only_put; [exact Hf|exact Hobj|exact Hh|]. cbn.
    eapply read_then_free_head_only; [exact Hr|exact Hfree|]. by eapply Hh.
  - eapply heads_only_put; [exact Hf|exact Hobj|exact Hh|]. cbn.
    eapply write_pages_head_only; [exact Hw|]. by eapply Hh.
Qed.

Lemma starts_heads_only e s s0 :
  starts e s s0 ->
  (forall d, heads_only d -> heads_only (interfere e d)) ->
  heads_only s -> heads_only s0.
Proof.
  intros [->|(sess & m & ->)] Hrely Hh; [done|].
  unfold after_sleep.
  eapply heads_only_same; [|apply Hrely; eapply heads_only_same; [|exact Hh]]; done.
Qed.

Lemma heads_only_init : heads_only init_module.
Proof.
  intros m p f. unfold get_flow, at_index, init_module. cbn.
  destruct (m <? 0); [done|].
  destruct (replicate _ _ !! _) as [o|] eqn:Ho; [|done].
  apply lookup_replicate in Ho as [-> _].
  unfold flow_at. cbn.
  destruct (p =? 0); [by intros [= <-]|].
  destruct (p =? 1); [by intros [= <-]|done].
Qed.

(** C9: every step keeps, for every endpoint and flow, the chain of nodes
    such that no node other than the first has a read offset above 0 (they
    are all 0) and the first node's read offset is not [OBJECT_MAX_SIZE]: a
    node read to its end has been unlinked by the read that got there. *)
Theorem steps_keep_heads e c s s' minor prio chain :
  heads_only s ->
  (forall d, heads_only d -> heads_only (interfere e d)) ->
  exec e c s = Ret s' ->
  chain_of s' minor prio = Some chain ->
  match chain with
  | [] => True
  | p :: tl =>
      read_offset p <> OBJECT_MAX_SIZE
      /\ Forall (fun q => read_offset q = 0) tl
  end.
Proof.
  intros Hh Hrely Hexec Hchain.
  apply exec_effect in Hexec as (s0 & Hstart & Heff).
  pose proof (effect_heads_only _ _ Heff (starts_heads_only _ _ _ Hstart Hrely Hh)) as Hh'.
  unfold chain_of in Hchain.
  destruct (get_flow s' minor prio) as [f|] eqn:Hf; [|done].
  injection Hchain as <-. by apply (Hh' _ _ _ Hf).
Qed.

Lemma chain_of_the_chain s m p :
  (match get_flow s m p with Some _ => true | None => false end) = true ->
  chain_of s m p = Some (the_chain s m p).
Proof. unfold chain_of, the_chain. by destruct (get_flow s m p). Qed.

Lemma state_after_heads_only e filp buff len s :
  (forall d, heads_only d -> heads_only (interfere e d)) ->
  heads_only s ->
  heads_only (state_after s (dev_write e filp buff len s)).
Proof.
  intros Hrely Hh.
  destruct (dev_write e filp buff len s) as [[[r s'] tr]| |] eqn:E; cbn; try done.
  apply dev_write_effect in E as (s0 & Hstart & Heff).
  eapply effect_heads_only; [exact Heff|]. by eapply starts_heads_only.
Qed.

Lemma heads_only_full_high : heads_only full_high.
Proof.
  apply state_after_heads_only; [done|]. apply heads_only_init.
Qed.

Lemma read_a_page_runs :
  exec calm read_a_page full_high = Ret (step_to calm read_a_page full_high).
Proof. apply step_to_Ret. vm_compute. reflexivity. Qed.

Lemma steps_keep_heads_witness :
  heads_only full_high
  /\ (forall d, heads_only d -> heads_only (interfere calm d))
  /\ exec calm read_a_page full_high = Ret (step_to calm read_a_page full_high)
  /\ chain_of (step_to calm read_a_page full_high) 0 1
     = Some (the_chain (step_to calm read_a_page full_high) 0 1)
  /\ length (the_chain full_high 0 1) = 5%nat
  /\ length (the_chain (step_to calm read_a_page full_high) 0 1) = 4%nat
  /\ match the_chain (step_to calm read_a_page full_high) 0 1 with
     | [] => True
     | p :: tl =>
         read_offset p <> OBJECT_MAX_SIZE
         /\ Forall (fun q => read_offset q = 0) tl
     end.
Proof.
  assert (chain_of (step_to calm read_a_page full_high) 0 1
          = Some (the_chain (step_to calm read_a_page full_high) 0 1)) as Hchain.
  { apply chain_of_the_chain. vm_compute. reflexivity. }
  split; [exact heads_only_full_high|]. split; [intros d Hd; exact Hd|].
  split; [exact read_a_page_runs|]. split; [exact Hchain|].
  split; [vm_compute; reflexivity|]. split; [vm_compute; reflexivity|].
  apply (steps_keep_heads calm read_a_page full_high
           (step_to calm read_a_page full_high) 0 1
           (the_chain (step_to calm read_a_page full_high) 0 1));
    [exact heads_only_full_high | intros d Hd; exact Hd | exact read_a_page_runs
    | exact Hchain].
Defined.

(** ** The byte count of a flow and the bytes in its chain *)

(** C2: where the claim and the code part.  A low priority write of 5000
    bytes is accepted; the work queue runs it when no page can be allocated,
    [write_data] returns [- ENOMEM] having appended nothing, and
    [do_wq_write], which does not look at that result, adds the 5000 bytes
    to [valid_bytes]: the flow counts 5000 valid bytes and its chain holds
    none. *)
Theorem worker_counts_bytes_not_appended :
  exec calm low_write_5000 init_module
  = Ret (step_to calm low_write_5000 init_module)
  /\ exec no_pages (RunWork 0) (step_to calm low_write_5000 init_module)
     = Ret (step_to no_pages (RunWork 0) (step_to calm low_write_5000 init_module))
  /\ valid_of (step_to no_pages (RunWork 0) (step_to calm low_write_5000 init_module)) 0 0
     = Some 5000
  /\ stored (the_chain (step_to no_pages (RunWork 0)
                         (step_to calm low_write_5000 init_module)) 0 0) = 0.
Proof.
  split; [apply step_to_Ret; vm_compute; reflexivity|].
  split; [apply step_to_Ret; vm_compute; reflexivity|].
  split; vm_compute; reflexivity.
Qed.

(** The same allocation failure in the synchronous path: [dev_write] adds
    the [- ENOMEM] that [write_data] returns to the counters. *)
Lemma high_write_counts_the_error :
  exec no_pages high_write_5000 init_module
  = Ret (step_to no_pages high_write_5000 init_module)
  /\ valid_of (step_to no_pages high_write_5000 init_module) 0 1 = Some (- ENOMEM)
  /\ stored (the_chain (step_to no_pages high_write_5000 init_module) 0 1) = 0.
Proof.
  split; [apply step_to_Ret; vm_compute; reflexivity|].
  split; vm_compute; reflexivity.
Qed.

(** ** A write of length 0 *)

Lemma add_at_zero l m : Forall is_ulong l -> add_at l m 0 = l.
Proof.
  intros Hall. unfold add_at.
  destruct (at_index l m) as [c|] eqn:Hc; [|done].
  rewrite Z.add_0_r, to_ulong_small; [by apply set_index_id|].
  unfold at_index in Hc. destruct (m <? 0); [done|].
  eapply Forall_lookup_1 in Hall; done.
Qed.

Lemma copy_from_user_nothing buff : copy_from_user buff 0 = (0, []).
Proof. done. Qed.

Lemma page_bytes_new_record : page_bytes new_record = [].
Proof. done. Qed.

Lemma lengths_ok_new_record : lengths_ok [new_record].
Proof.
  apply Forall_cons. split; [|done].
  change (record_length new_record) with 0. unfold OBJECT_MAX_SIZE. lia.
Qed.

Lemma write_pages_zero fu bu buf chain w chain' :
  lengths_ok chain ->
  write_pages fu bu 0 buf chain = Ret (w, chain') ->
  (w = - ENOMEM /\ chain' = chain)
  \/ (w = 0 /\ log_bytes chain' = log_bytes chain).
Proof.
  intros Hok. unfold write_pages.
  set (first := match chain with
                | [] => match bu with O => None | S b => Some ([new_record], b) end
                | _ => Some (chain, bu)
                end).
  assert (forall c1 b1, first = Some (c1, b1) ->
            lengths_ok c1 /\ log_bytes c1 = log_bytes chain) as Hfirst.
  { subst first. intros c1 b1. destruct chain as [|p tl].
    - destruct bu; [done|]. intros [= <- <-]. split; [apply lengths_ok_new_record|done].
    - by intros [= <- <-]. }
  destruct first as [[chain1 budget1]|]; [|intros [= <- <-]; by left].
  destruct (Hfirst _ _ eq_refl) as [Hok1 Hbytes].
  destruct (last_or_room chain1) as [passed rest] eqn:Hsplit.
  apply last_or_room_app in Hsplit.
  destruct rest as [|temp_object after]; [done|].
  assert (0 <= record_length temp_object <= OBJECT_MAX_SIZE) as Hrl.
  { unfold lengths_ok in Hok1. rewrite Hsplit in Hok1.
    apply Forall_app in Hok1 as [_ Hok1]. by apply Forall_cons in Hok1 as [? _]. }
  unfold OBJECT_MAX_SIZE in *.
  rewrite (to_int_small 0) by (unfold is_int; lia).
  rewrite (to_int_small (4096 - record_length temp_object)) by (unfold is_int; lia).
  rewrite Z.sub_0_r.
  rewrite (to_int_small (4096 - record_length temp_object)) by (unfold is_int; lia).
  destruct (Z.ltb_spec (4096 - record_length temp_object) 0) as [Hneg|Hpos]; [lia|].
  cbn. intros H. unbind H. destruct a as [full cur]. apply skip_full_app in Hl.
  rewrite copy_loop_eq in H. cbn in H. injection H as <- <-.
  right. split; [done|]. by rewrite <- Hl.
Qed.

Lemma dev_write_locked_zero e sess m buf s tr f r s' tr' :
  get_flow s m (priority sess) = Some f ->
  is_int (valid_bytes f) ->
  is_int (total_free_bytes f) ->
  lengths_ok (list_heads f) ->
  counters_ok s ->
  dev_write_locked e sess m buf 0 s tr = Ret (r, s', tr') ->
  (total_free_bytes f = 0 -> r = - ENOSPC)
  /\ (r = 0 \/ r = - ENOSPC ->
      total_free_bytes f = 0 <-> r = - ENOSPC)
  /\ (r = 0 \/ r = - ENOSPC ->
      exists f',
        get_flow s' m (priority sess) = Some f'
        /\ valid_bytes f' = valid_bytes f
        /\ total_free_bytes f' = total_free_bytes f
        /\ log_bytes (list_heads f') = log_bytes (list_heads f)
        /\ high_data_count s' = high_data_count s
        /\ low_data_count s' = low_data_count s).
Proof.
  intros Hf Hv Hfr Hok [Hhigh Hlow]. unfold dev_write_locked. rewrite Hf. cbn.
  destruct (Z.eqb_spec (total_free_bytes f) 0) as [Hz|Hnz].
  { intros [= <- <- <-]. split_and!; [done|done|]. intros _. by exists f. }
  assert ((if 0 >? to_ulong (total_free_bytes f)
           then to_ulong (total_free_bytes f) else 0) = 0) as ->.
  { pose proof (to_ulong_range (total_free_bytes f)). unfold is_ulong in *.
    destruct (Z.gtb_spec 0 (to_ulong (total_free_bytes f))); lia. }
  unfold ENOSPC, ENODEV, ENOMEM.
  destruct (Z.eqb_spec (priority sess) 0) as [Hp|Hp].
  - rewrite Hp in *.
    destruct (module_get_ok e); cbn; [|intros [= <- <- <-]; split_and!; intros; lia].
    destruct (wq_alloc_ok e); cbn; [|intros [= <- <- <-]; split_and!; intros; lia].
    destruct (wq_data_ok e); cbn; [|intros [= <- <- <-]; split_and!; intros; lia].
    intros [= <- <- <-]. rewrite to_long_small by lia.
    split_and!; [done|intros; lia|]. intros _.
    eexists. split; [by eapply get_put_flow_same|]. cbn.
    rewrite Z.sub_0_r, high_count_put_flow, low_count_put_flow.
    split_and!; try done.
    rewrite <- (to_int_small (total_free_bytes f)) at 2 by done.
    apply to_int_shift.
    destruct (to_ulong_spec (total_free_bytes f)) as [k1 ->].
    destruct (to_ulong_spec (total_free_bytes f + k1 * 2 ^ 32)) as [k2 ->].
    exists (k1 + k2). lia.
  - destruct (get_flow_prio _ _ _ _ Hf) as [?|Hp1]; [done|]. rewrite Hp1 in *.
    intros H. unbind H. destruct a as [written s1].
    apply write_data_Ret in Hl as (f0 & chain & Hf0 & Hw & ->).
    rewrite Hf in Hf0. injection Hf0 as <-.
    rewrite (get_put_flow_same _ _ _ _ _ Hf) in H. cbn in H.
    injection H as <- <- <-.
    apply write_pages_zero in Hw as [[-> ->]|[-> Hbytes]]; [| |done].
    + replace (to_int (- ENOMEM)) with (-12) by reflexivity.
      split_and!; intros; lia.
    + rewrite (to_int_small 0) by (unfold is_int; lia).
      split_and!; [done|intros; lia|]. intros _.
      rewrite put_put_flow.
      eexists. split; [by eapply get_put_flow_same|]. cbn.
      rewrite Z.add_0_r, Z.sub_0_r, !to_int_small by done.
      rewrite high_count_put_flow, low_count_put_flow, add_at_zero by done.
      done.
Qed.

Lemma Forall_add_at l m d : Forall is_ulong l -> Forall is_ulong (add_at l m d).
Proof.
  intros Hall. unfold add_at. destruct (at_index l m); [|done].
  unfold set_index. destruct (m <? 0); [done|].
  apply Forall_insert; [done|apply to_ulong_range].
Qed.

Lemma try_get_lock_granted tl res sess m s f :
  get_flow s m (priority sess) = Some f ->
  lock_granted tl res sess = true ->
  exists tr, try_get_lock tl res sess m s = Ret (1, tr).
Proof.
  intros Hf Hg. destruct (try_get_lock_returns tl res sess m s f Hf) as (got & tr & H).
  pose proof (try_get_lock_answer _ _ _ _ _ _ _ H) as Hgot. rewrite Hg in Hgot.
  subst got. by exists tr.
Qed.

Lemma skip_full_room l :
  has_room l -> exists passed rest, skip_full l = Ret (passed, rest).
Proof.
  unfold has_room. induction l as [|p tl IH]; intros Hroom.
  - by apply Exists_nil in Hroom.
  - cbn. destruct (Z.eqb_spec (record_length p) OBJECT_MAX_SIZE) as [Hfull|_];
      [|by eexists _, _].
    apply Exists_cons in Hroom as [Hp|Htl]; [done|].
    destruct (IH Htl) as (passed & rest & ->). cbn. by eexists _, _.
Qed.

Lemma last_or_room_rest l : forall passed,
  l <> [] -> last_or_room l <> (passed, []).
Proof.
  induction l as [|p tl IH]; intros passed Hne; [done|].
  destruct tl as [|q tl']; [done|].
  change (last_or_room (p :: q :: tl'))
    with (if record_length p =? OBJECT_MAX_SIZE
          then let '(passed, rest) := last_or_room (q :: tl') in (p :: passed, rest)
          else ([], p :: q :: tl')).
  destruct (record_length p =? OBJECT_MAX_SIZE); [|done].
  destruct (last_or_room (q :: tl')) as [a b] eqn:E.
  intros [= <- ->]. by eapply (IH a).
Qed.

(** [write_data] of no byte returns 0 when it finds a node that is not
    full, or no node and memory for one. *)
Lemma write_pages_zero_runs fu bu buf chain :
  lengths_ok chain ->
  has_room chain \/ (chain = [] /\ bu <> 0%nat) ->
  exists chain', write_pages fu bu 0 buf chain = Ret (0, chain').
Proof.
  intros Hok Hroom. unfold write_pages.
  set (first := match chain with
                | [] => match bu with O => None | S b => Some ([new_record], b) end
                | _ => Some (chain, bu)
                end).
  assert (exists c1 b1, first = Some (c1, b1) /\ lengths_ok c1 /\ has_room c1)
    as (chain1 & budget1 & -> & Hok1 & Hroom1).
  { subst first. destruct chain as [|p tl].
    - destruct Hroom as [Hroom|[_ Hbu]]; [by apply Exists_nil in Hroom|].
      destruct bu; [done|]. eexists _, _. split; [done|].
      split; [apply lengths_ok_new_record|]. apply Exists_cons. by left.
    - destruct Hroom as [Hroom|[? _]]; [|done]. by eexists _, _. }
  destruct (last_or_room chain1) as [passed rest] eqn:Hsplit.
  destruct rest as [|temp_object after].
  { exfalso. apply (last_or_room_rest chain1 passed); [|done].
    intros ->. by apply Exists_nil in Hroom1. }
  apply last_or_room_app in Hsplit.
  assert (0 <= record_length temp_object <= OBJECT_MAX_SIZE) as Hrl.
  { unfold lengths_ok in Hok1. rewrite Hsplit in Hok1.
    apply Forall_app in Hok1 as [_ Hok1]. by apply Forall_cons in Hok1 as [? _]. }
  unfold OBJECT_MAX_SIZE in Hrl |- *.
  rewrite (to_int_small 0) by (unfold is_int; lia).
  rewrite (to_int_small (4096 - record_length temp_object)) by (unfold is_int; lia).
  rewrite Z.sub_0_r.
  rewrite (to_int_small (4096 - record_length temp_object)) by (unfold is_int; lia).
  destruct (Z.ltb_spec (4096 - record_length temp_object) 0) as [Hneg|Hpos]; [lia|].
  cbn. destruct (skip_full_room _ Hroom1) as (full & cur & ->). cbn.
  rewrite copy_loop_eq. cbn. by eexists.
Qed.

(** C7, amended: for a write of length 0, on a flow whose nodes hold
    between 0 and [OBJECT_MAX_SIZE] bytes and while no other thread touches
    the device.  With the staging buffer allocated and the mutex obtained,
    it returns [- ENOSPC] when free_bytes == 0, and returns 0 when the flow
    has a free byte and the write can go ahead (on the low priority flow the
    work can be queued; on the high priority flow the chain has a node that
    is not full, or no node and memory for one).  It returns 0 only if the
    flow has a free byte, and whenever it returns 0 or [- ENOSPC], the
    flow's valid_bytes, free_bytes and stored bytes and the per-minor byte
    counters are as before. *)
Theorem dev_write_of_nothing e filp buff s sess f :
  private_data filp = Some sess ->
  get_flow s (f_minor filp) (priority sess) = Some f ->
  (forall d, interfere e d = d) ->
  is_int (valid_bytes f) ->
  is_int (total_free_bytes f) ->
  lengths_ok (list_heads f) ->
  counters_ok s ->
  (total_free_bytes f = 0 -> kmalloc_ok e = true ->
   lock_granted (trylock1 e) (sleep1 e) sess = true ->
   lock_granted (trylock2 e) (sleep2 e) sess = true ->
   exists s' tr, dev_write e filp buff 0 s = Ret (- ENOSPC, s', tr))
  /\ (total_free_bytes f <> 0 -> kmalloc_ok e = true ->
      lock_granted (trylock1 e) (sleep1 e) sess = true ->
      can_take_nothing e sess f ->
      exists s' tr, dev_write e filp buff 0 s = Ret (0, s', tr))
  /\ (forall r s' tr,
        dev_write e filp buff 0 s = Ret (r, s', tr) ->
        (total_free_bytes f = 0 -> r < 0)
        /\ (r = 0 \/ r = - ENOSPC ->
            exists f',
              get_flow s' (f_minor filp) (priority sess) = Some f'
              /\ valid_bytes f' = valid_bytes f
              /\ total_free_bytes f' = total_free_bytes f
              /\ log_bytes (list_heads f') = log_bytes (list_heads f)
              /\ high_data_count s' = high_data_count s
              /\ low_data_count s' = low_data_count s)).
Proof.
  intros Hsess Hf Hquiet Hv Hfr Hok Hcnt.
  set (s1 := with_wait_data (with_wait_data s (priority sess) (f_minor filp) 1)
               (priority sess) (f_minor filp) (-1)).
  assert (get_flow s1 (f_minor filp) (priority sess) = Some f) as Hf1 by done.
  split_and!.
  - intros Hz Hk Hg1 Hg2. unfold dev_write. rewrite Hsess, Hk. cbn.
    rewrite copy_from_user_nothing. cbn.
    destruct (try_get_lock_granted _ _ _ _ _ _ Hf Hg1) as [tr1 ->]. cbn.
    rewrite Hf. cbn. rewrite Hz. cbn.
    destruct (timeout sess >? 0); cbn.
    + rewrite Hquiet. fold s1.
      destruct (negb (do_sleep_wqe (wait_data e) =? 1)); [by eexists _, _|].
      destruct (try_get_lock_granted _ _ _ _ _ _ Hf1 Hg2) as [tr2 ->]. cbn.
      unfold dev_write_locked. rewrite Hf1. cbn. rewrite Hz. cbn. by eexists _, _.
    + unfold dev_write_locked. rewrite Hf. cbn. rewrite Hz. cbn. by eexists _, _.
  - intros Hnz Hk Hg1 Hcan. unfold dev_write. rewrite Hsess, Hk. cbn.
    rewrite copy_from_user_nothing. cbn.
    destruct (try_get_lock_granted _ _ _ _ _ _ Hf Hg1) as [tr1 ->]. cbn.
    rewrite Hf. cbn.
    destruct (Z.eqb_spec (total_free_bytes f) 0) as [?|_]; [done|]. cbn.
    replace (to_ulong (0 - 0)) with 0 by reflexivity.
    unfold dev_write_locked. rewrite Hf. cbn.
    destruct (Z.eqb_spec (total_free_bytes f) 0) as [?|_]; [done|].
    assert ((if 0 >? to_ulong (total_free_bytes f)
             then to_ulong (total_free_bytes f) else 0) = 0) as ->.
    { pose proof (to_ulong_range (total_free_bytes f)). unfold is_ulong in *.
      destruct (Z.gtb_spec 0 (to_ulong (total_free_bytes f))); lia. }
    unfold can_take_nothing in Hcan.
    destruct (Z.eqb_spec (priority sess) 0) as [Hp|Hp].
    + destruct Hcan as (-> & -> & ->). cbn. by eexists _, _.
    + destruct (get_flow_prio _ _ _ _ Hf) as [?|Hp1]; [done|]. rewrite Hp1 in *.
      unfold write_data. rewrite Hf. cbn.
      destruct (write_pages_zero_runs (fuel e) (page_budget e) [] (list_heads f) Hok Hcan)
        as [chain' ->]. cbn.
      rewrite (get_put_flow_same _ _ _ _ _ Hf). cbn. by eexists _, _.
  - intros r s' tr. unfold dev_write. rewrite Hsess. cbn.
    unfold ENOSPC, ENOMEM.
    destruct (kmalloc_ok e); cbn; [|intros [= <- <- <-]; split_and!; intros; (done || lia)].
    rewrite copy_from_user_nothing. cbn.
    replace (to_ulong (0 - 0)) with 0 by reflexivity.
    intros H. unbind H. destruct a as [got tr1].
    destruct (Z.eqb_spec got 1) as [->|Hgot]; cbn in H.
    2:{ injection H as <- <- <-. split_and!; intros; lia. }
    rewrite Hf in H. cbn in H.
    destruct ((total_free_bytes f =? 0) && (timeout sess >? 0)) eqn:Hwait.
    + apply andb_prop in Hwait as [Hz _]. apply Z.eqb_eq in Hz.
      rewrite Hquiet in H. fold s1 in H.
      destruct (negb (do_sleep_wqe (wait_data e) =? 1)).
      { injection H as <- <- <-. split_and!; try (intros; lia). intros _. by exists f. }
      unbind H. destruct a as [got2 tr2].
      destruct (Z.eqb_spec got2 1) as [->|Hgot2]; cbn in H.
      2:{ injection H as <- <- <-. split_and!; intros; lia. }
      eapply dev_write_locked_zero in H as (H1 & _ & H3); [|exact Hf1|done..].
      unfold ENOSPC in *. split_and!; [intros; lia|done].
    + eapply dev_write_locked_zero in H as (H1 & _ & H3); [|exact Hf|done..].
      unfold ENOSPC in *. split_and!; [intros Hz; specialize (H1 Hz); lia|done].
Qed.

Lemma counters_ok_init : counters_ok init_module.
Proof.
  split; apply Forall_replicate; unfold is_ulong; lia.
Qed.

Lemma is_int_capacity : is_int (OBJECT_MAX_SIZE * MAX_PAGES).
Proof. unfold is_int, OBJECT_MAX_SIZE, MAX_PAGES. lia. Qed.

Lemma dev_write_of_nothing_witness :
  private_data (open_file 0 1 0) = Some {| priority := 1; timeout := 0 |}
  /\ get_flow init_module (f_minor (open_file 0 1 0)) 1 = Some first_flow
  /\ (forall d, interfere calm d = d)
  /\ is_int (valid_bytes first_flow)
  /\ is_int (total_free_bytes first_flow)
  /\ lengths_ok (list_heads first_flow)
  /\ counters_ok init_module
  /\ (total_free_bytes first_flow = 0 -> kmalloc_ok calm = true ->
      lock_granted (trylock1 calm) (sleep1 calm) {| priority := 1; timeout := 0 |} = true ->
      lock_granted (trylock2 calm) (sleep2 calm) {| priority := 1; timeout := 0 |} = true ->
      exists s' tr,
        dev_write calm (open_file 0 1 0) [] 0 init_module = Ret (- ENOSPC, s', tr))
  /\ (total_free_bytes first_flow <> 0 -> kmalloc_ok calm = true ->
      lock_granted (trylock1 calm) (sleep1 calm) {| priority := 1; timeout := 0 |} = true ->
      can_take_nothing calm {| priority := 1; timeout := 0 |} first_flow ->
      exists s' tr,
        dev_write calm (open_file 0 1 0) [] 0 init_module = Ret (0, s', tr))
  /\ (forall r s' tr,
        dev_write calm (open_file 0 1 0) [] 0 init_module = Ret (r, s', tr) ->
        (total_free_bytes first_flow = 0 -> r < 0)
        /\ (r = 0 \/ r = - ENOSPC ->
            exists f',
              get_flow s' (f_minor (open_file 0 1 0)) 1 = Some f'
              /\ valid_bytes f' = valid_bytes first_flow
              /\ total_free_bytes f' = total_free_bytes first_flow
              /\ log_bytes (list_heads f') = log_bytes (list_heads first_flow)
              /\ high_data_count s' = high_data_count init_module
              /\ low_data_count s' = low_data_count init_module)).
Proof.
  split; [reflexivity|]. split; [reflexivity|]. split; [reflexivity|].
  split; [unfold is_int; simpl; lia|]. split; [exact is_int_capacity|].
  split; [exact lengths_ok_new_record|]. split; [exact counters_ok_init|].
  apply (dev_write_of_nothing calm (open_file 0 1 0) [] init_module
           {| priority := 1; timeout := 0 |} first_flow);
    [reflexivity | reflexivity | reflexivity | unfold is_int; simpl; lia
    | exact is_int_capacity | exact lengths_ok_new_record | exact counters_ok_init].
Defined.

(** A write that finds no free byte and may not wait returns [- ENOSPC] and
    leaves the state as it is, whatever its length. *)
Lemma dev_write_full_nonblocking e filp buff len s sess :
  private_data filp = Some sess ->
  kmalloc_ok e = true ->
  trylock1 e = true ->
  free_of s (f_minor filp) (priority sess) = Some 0 ->
  timeout sess <= 0 ->
  dev_write e filp buff len s
  = Ret (- ENOSPC, s,
         [EvLock (f_minor filp) (priority sess);
          EvUnlock (f_minor filp) (priority sess);
          EvWake (f_minor filp) (priority sess)]).
Proof.
  intros Hsess Hk Htl Hfree Htmo. unfold free_of in Hfree.
  destruct (get_flow s (f_minor filp) (priority sess)) as [f|] eqn:Hflow; [|done].
  injection Hfree as Hfree.
  unfold dev_write. rewrite Hsess, Hk, Htl. cbn.
  destruct (copy_from_user buff len) as [ret temp].
  rewrite (try_get_lock_free _ _ _ _ _ Hflow). cbn.
  rewrite Hflow. cbn. rewrite Hfree. cbn.
  destruct (Z.gtb_spec (timeout sess) 0); [lia|]. cbn.
  unfold dev_write_locked. rewrite Hflow. cbn. by rewrite Hfree.
Qed.

(** C7 as stated fails: with free_bytes == 0 and timeout == 0 a write of
    length 0 returns [- ENOSPC], not 0. *)
Lemma zero_write_on_full_flow_is_ENOSPC :
  free_of full_high 0 1 = Some 0
  /\ dev_write calm (open_file 0 1 0) [] 0 full_high
     = Ret (- ENOSPC, full_high, [EvLock 0 1; EvUnlock 0 1; EvWake 0 1]).
Proof.
  assert (free_of full_high 0 1 = Some 0) as Hfree by (vm_compute; reflexivity).
  split; [exact Hfree|].
  apply (dev_write_full_nonblocking calm (open_file 0 1 0) [] 0 full_high
           {| priority := 1; timeout := 0 |});
    [reflexivity | reflexivity | reflexivity | exact Hfree | simpl; lia].
Qed.

(** Outside the amended claim: when the last node of the chain is exactly
    full and the flow has free bytes, the second search loop of
    [write_data] runs off the end of the chain for a write of length 0. *)
Lemma zero_write_after_full_page_oops :
  exec calm high_write_page init_module
  = Ret (step_to calm high_write_page init_module)
  /\ free_of (step_to calm high_write_page init_module) 0 1 = Some 16384
  /\ dev_write calm (open_file 0 1 0) [] 0 (step_to calm high_write_page init_module)
     = Oops.
Proof.
  split; [apply step_to_Ret; vm_compute; reflexivity|].
  split; vm_compute; reflexivity.
Qed.

(** ** Bytes in pages *)

Lemma bytes_at_length src from n :
  0 <= from -> 0 <= n -> (Z.to_nat (from + n) <= length src)%nat ->
  length (bytes_at src from n) = Z.to_nat n.
Proof.
  intros Hf Hn Hfit. unfold bytes_at. rewrite length_take, length_drop. lia.
Qed.

Lemma bytes_at_split src from a b :
  0 <= from -> 0 <= a -> 0 <= b ->
  bytes_at src from (a + b) = bytes_at src from a ++ bytes_at src (from + a) b.
Proof.
  intros Hf Ha Hb. unfold bytes_at.
  rewrite Z2Nat.inj_add by done. rewrite <- take_take_drop. f_equal.
  rewrite drop_drop. f_equal. f_equal. lia.
Qed.

Lemma bytes_at_nothing src from : bytes_at src from 0 = [].
Proof. done. Qed.

Lemma bytes_at_whole src : bytes_at src 0 (Z.of_nat (length src)) = src.
Proof. unfold bytes_at. rewrite Nat2Z.id. cbn. by rewrite take_ge. Qed.

Lemma memcpy_into_length dst at_ src :
  0 <= at_ -> (Z.to_nat at_ + length src <= length dst)%nat ->
  length (memcpy_into dst at_ src) = length dst.
Proof.
  intros Hat Hfit. unfold memcpy_into.
  rewrite !length_app, length_take, length_drop. lia.
Qed.

(** The bytes written and not read of a node after [memcpy] of [src] at
    [record_length]. *)
Lemma page_bytes_memcpy p src c :
  page_ok p -> 0 <= c -> record_length p + c <= OBJECT_MAX_SIZE ->
  length src = Z.to_nat c ->
  page_bytes {| record_length := record_length p + c;
                read_offset := read_offset p;
                stream_content := memcpy_into (stream_content p) (record_length p) src |}
  = page_bytes p ++ src.
Proof.
  intros (Hro & Hrl & Hlen) Hc Hfit Hsrc.
  unfold page_bytes, bytes_at, memcpy_into. cbn.
  set (ro := Z.to_nat (read_offset p)). set (rl := Z.to_nat (record_length p)).
  assert (ro <= rl)%nat by lia.
  assert (rl + length src <= length (stream_content p))%nat by lia.
  rewrite drop_app_le by (rewrite length_take; lia).
  replace (Z.to_nat (record_length p + c - read_offset p))
    with ((rl - ro) + length src)%nat by lia.
  rewrite take_app_ge by (rewrite length_drop, length_take; lia).
  rewrite length_drop, length_take.
  replace (rl - ro + length src - (rl `min` length (stream_content p) - ro))%nat
    with (length src) by lia.
  rewrite take_app_length. f_equal.
  replace (Z.to_nat (record_length p - read_offset p)) with (rl - ro)%nat by lia.
  rewrite take_drop_commute. by replace (ro + (rl - ro))%nat with rl by lia.
Qed.

Lemma page_ok_memcpy p src c :
  page_ok p -> 0 <= c -> record_length p + c <= OBJECT_MAX_SIZE ->
  length src = Z.to_nat c ->
  page_ok {| record_length := record_length p + c;
             read_offset := read_offset p;
             stream_content := memcpy_into (stream_content p) (record_length p) src |}.
Proof.
  intros (Hro & Hrl & Hlen) Hc Hfit Hsrc. unfold page_ok. cbn.
  split_and!; [lia..|].
  rewrite memcpy_into_length; [done|lia|]. unfold OBJECT_MAX_SIZE in *. lia.
Qed.

Lemma page_ok_new_record : page_ok new_record.
Proof.
  unfold page_ok. change (read_offset new_record) with 0.
  change (record_length new_record) with 0. unfold OBJECT_MAX_SIZE.
  split_and!; [lia..|]. unfold new_record. cbn [stream_content].
  by rewrite length_replicate.
Qed.

(** What is left in a node after [n] of its bytes were read. *)
Lemma page_bytes_read p n :
  page_ok p -> 0 <= n <= record_length p - read_offset p ->
  page_bytes p
  = bytes_at (stream_content p) (read_offset p) n
    ++ page_bytes {| record_length := record_length p;
                     read_offset := read_offset p + n;
                     stream_content := stream_content p |}.
Proof.
  intros (Hro & Hrl & Hlen) Hn. unfold page_bytes. cbn.
  replace (record_length p - read_offset p)
    with (n + (record_length p - (read_offset p + n))) at 1 by lia.
  apply bytes_at_split; lia.
Qed.

Lemma log_bytes_cons p tl : log_bytes (p :: tl) = page_bytes p ++ log_bytes tl.
Proof. done. Qed.

Lemma log_bytes_app l1 l2 : log_bytes (l1 ++ l2) = log_bytes l1 ++ log_bytes l2.
Proof. unfold log_bytes. by rewrite fmap_app, concat_app. Qed.

Lemma stored_app l1 l2 : stored (l1 ++ l2) = stored l1 + stored l2.
Proof. induction l1 as [|p l1 IH]; cbn; lia. Qed.

Lemma page_bytes_length p :
  page_ok p -> length (page_bytes p) = Z.to_nat (record_length p - read_offset p).
Proof.
  intros (Hro & Hrl & Hlen). unfold page_bytes.
  apply bytes_at_length; lia.
Qed.

Lemma log_bytes_length chain :
  Forall page_ok chain -> Z.of_nat (length (log_bytes chain)) = stored chain.
Proof.
  induction 1 as [|p tl Hp Htl IH]; [done|].
  rewrite log_bytes_cons, length_app, page_bytes_length by done. cbn.
  destruct Hp as (? & ? & ?). lia.
Qed.

Lemma stored_nonneg chain : Forall page_ok chain -> 0 <= stored chain.
Proof. intros H. rewrite <- (log_bytes_length _ H). lia. Qed.

(** ** Appending to a chain *)

Lemma packed_app_full full rest :
  Forall (fun p => record_length p = OBJECT_MAX_SIZE) full ->
  packed rest -> packed (full ++ rest).
Proof.
  induction 1 as [|p full Hp Hfull IH]; intros Hrest; [done|].
  specialize (IH Hrest). cbn.
  destruct (full ++ rest) as [|q l] eqn:E; [done|]. by split.
Qed.

Lemma packed_split chain :
  packed chain -> chain <> [] ->
  exists full last,
    chain = full ++ [last]
    /\ Forall (fun p => record_length p = OBJECT_MAX_SIZE) full.
Proof.
  induction chain as [|p tl IH]; intros Hp Hne; [done|].
  destruct tl as [|q tl].
  - exists [], p. by split.
  - destruct Hp as [Hfull Hp].
    destruct (IH Hp ltac:(done)) as (full & last & Heq & Hall).
    exists (p :: full), last. rewrite Heq. split; [done|]. by apply Forall_cons.
Qed.

Lemma packed_tail p tl : packed (p :: tl) -> packed tl.
Proof. destruct tl as [|q tl]; [done|]. by intros [_ ?]. Qed.

Lemma last_or_room_packed full last :
  Forall (fun p => record_length p = OBJECT_MAX_SIZE) full ->
  last_or_room (full ++ [last]) = (full, [last]).
Proof.
  induction 1 as [|p full Hp Hfull IH]; [done|].
  cbn. destruct (full ++ [last]) as [|q l] eqn:E.
  { by destruct full. }
  rewrite Hp, Z.eqb_refl. by rewrite IH.
Qed.

Lemma skip_full_packed full p rest :
  Forall (fun p => record_length p = OBJECT_MAX_SIZE) full ->
  record_length p <> OBJECT_MAX_SIZE ->
  skip_full (full ++ p :: rest) = Ret (full, p :: rest).
Proof.
  intros Hfull Hp. induction Hfull as [|q full Hq Hfull IH]; cbn.
  - by destruct (Z.eqb_spec (record_length p) OBJECT_MAX_SIZE).
  - rewrite Hq, Z.eqb_refl, IH. done.
Qed.

(** The pages [write_data] links for [temp_len] bytes that do not fit. *)
Lemma grow_chain_count budget : forall temp_len added,
  grow_chain budget temp_len = (true, added) ->
  temp_len < 2 ^ 31 ->
  (temp_len <= 0 /\ added = [])
  \/ (0 < temp_len
      /\ (Z.of_nat (length added) - 1) * OBJECT_MAX_SIZE < temp_len
         <= Z.of_nat (length added) * OBJECT_MAX_SIZE).
Proof.
  induction budget as [|budget IH]; intros temp_len added; cbn.
  - destruct (Z.gtb_spec temp_len 0); [done|]. intros [= <-] _. by left.
  - destruct (Z.gtb_spec temp_len 0) as [Hpos|Hnpos]; [|intros [= <-] _; by left].
    destruct (grow_chain budget _) as [ok added'] eqn:E. intros [= -> <-] Hlt.
    right. split; [done|].
    unfold OBJECT_MAX_SIZE in *.
    rewrite to_int_small in E by (unfold is_int; lia).
    apply IH in E; [|lia].
    destruct E as [[Hle ->]|[Hgt Hb]]; cbn [length]; lia.
Qed.

Lemma copy_loop_done fuel cur buffer tot :
  copy_loop fuel cur 0 buffer tot = Ret (cur, tot).
Proof. by rewrite copy_loop_eq. Qed.

(** The copy loop of [write_data] on a node followed by [k] new nodes, for
    a length that needs all of them and no more. *)
Lemma copy_loop_fills (k : nat) : forall fuel p n buf tot cur' tot',
  page_ok p -> 0 <= n -> 0 <= tot -> tot + n < 2 ^ 31 ->
  (Z.to_nat (tot + n) <= length buf)%nat ->
  n <= OBJECT_MAX_SIZE - record_length p + Z.of_nat k * OBJECT_MAX_SIZE ->
  ((1 <= k)%nat ->
   OBJECT_MAX_SIZE - record_length p + (Z.of_nat k - 1) * OBJECT_MAX_SIZE < n) ->
  copy_loop fuel (p :: replicate k new_record) n buf tot = Ret (cur', tot') ->
  tot' = tot + n
  /\ Forall page_ok cur'
  /\ packed cur'
  /\ log_bytes cur' = page_bytes p ++ bytes_at buf tot n
  /\ stored cur' = record_length p - read_offset p + n.
Proof.
  induction k as [|k IH]; intros fuel p n buf tot cur' tot' Hp Hn Htot Hsum Hbuf Hup Hlow;
    pose proof Hp as (Hro & Hrl & Hlen); unfold OBJECT_MAX_SIZE in *;
    rewrite copy_loop_eq; destruct (Z.gtb_spec n 0) as [Hpos|Hzero]; cbn [negb].
  - (* the last node takes the n bytes *)
    destruct fuel as [|fuel]; [done|]. cbn zeta.
    unfold OBJECT_MAX_SIZE.
    rewrite (to_int_small (4096 - record_length p)) by (unfold is_int; lia).
    rewrite (to_ulong_small (4096 - record_length p)) by (unfold is_ulong; lia).
    destruct (Z.gtb_spec n (4096 - record_length p)) as [Hc1|Hc1]; [lia|].
    rewrite (to_int_small n) by (unfold is_int; lia).
    destruct (Z.ltb_spec n 0) as [Hc3|Hc3]; [lia|].
    rewrite Z.sub_diag. replace (to_ulong 0) with 0 by reflexivity.
    rewrite andb_false_r, copy_loop_done.
    rewrite (to_int_small (record_length p + n)) by (unfold is_int; lia).
    rewrite (to_int_small (tot + n)) by (unfold is_int; lia).
    intros [= <- <-].
    assert (length (bytes_at buf tot n) = Z.to_nat n) as Hsrc
      by (apply bytes_at_length; lia).
    split_and!; [done| |done| |cbn; lia].
    + apply Forall_cons. split; [|done]. apply page_ok_memcpy; unfold OBJECT_MAX_SIZE; done || lia.
    + rewrite log_bytes_cons, page_bytes_memcpy by (unfold OBJECT_MAX_SIZE; done || lia).
      by rewrite app_nil_r.
  - intros [= <- <-]. assert (n = 0) as -> by lia.
    split_and!; [lia|by apply Forall_cons|done| |cbn; lia].
    by rewrite log_bytes_cons, app_nil_r, app_nil_r.
  - destruct fuel as [|fuel]; [done|]. cbn zeta. cbn [replicate].
    unfold OBJECT_MAX_SIZE.
    rewrite (to_int_small (4096 - record_length p)) by (unfold is_int; lia).
    rewrite (to_ulong_small (4096 - record_length p)) by (unfold is_ulong; lia).
    specialize (Hlow ltac:(lia)).
    destruct (Z.gtb_spec n (4096 - record_length p)) as [Hc2|Hc2]; [|lia].
    destruct (Z.ltb_spec (4096 - record_length p) 0) as [Hc4|Hc4]; [lia|].
    replace (record_length p + (4096 - record_length p)) with 4096 by lia.
    rewrite (to_int_small 4096) by (unfold is_int; lia).
    rewrite (to_ulong_small (n - (4096 - record_length p))) by (unfold is_ulong; lia).
    rewrite (to_int_small (tot + (4096 - record_length p))) by (unfold is_int; lia).
    rewrite Z.eqb_refl.
    destruct (Z.gtb_spec (n - (4096 - record_length p)) 0) as [Hc5|Hc5]; [|lia].
    cbn [andb]. intros H. unbind H. destruct a as [l t]. injection H as <- <-.
    pose proof page_ok_new_record as Hnew.
    apply IH in Hl as (-> & Hall & Hpacked & Hbytes & Hstored);
      unfold OBJECT_MAX_SIZE; change (record_length new_record) with 0;
      [|done|lia..].
    assert (length (bytes_at buf tot (4096 - record_length p))
            = Z.to_nat (4096 - record_length p)) as Hsrc
      by (apply bytes_at_length; lia).
    pose proof (page_ok_memcpy p _ (4096 - record_length p) Hp ltac:(lia)
                  ltac:(unfold OBJECT_MAX_SIZE; lia) Hsrc) as Hp'.
    pose proof (page_bytes_memcpy p _ (4096 - record_length p) Hp ltac:(lia)
                  ltac:(unfold OBJECT_MAX_SIZE; lia) Hsrc) as Hb'.
    replace (record_length p + (4096 - record_length p)) with 4096 in Hp', Hb' by lia.
    split_and!; [lia|by apply Forall_cons| | |].
    + destruct l as [|q l]; [done|]. split; [done|done].
    + rewrite log_bytes_cons, Hb', Hbytes, page_bytes_new_record. cbn [app].
      rewrite <- app_assoc. f_equal.
      replace n with ((4096 - record_length p) + (n - (4096 - record_length p))) at 2 by lia.
      rewrite bytes_at_split by lia. done.
    + cbn [stored record_length read_offset]. rewrite Hstored.
      change (record_length new_record) with 0. change (read_offset new_record) with 0. lia.
  - specialize (Hlow ltac:(lia)). lia.
Qed.

Lemma skip_full_all_full l :
  Forall (fun p => record_length p = OBJECT_MAX_SIZE) l -> skip_full l = Oops.
Proof.
  induction 1 as [|p l Hp Hl IH]; [done|]. cbn. by rewrite Hp, Z.eqb_refl, IH.
Qed.

Lemma chain_wf_new_record : chain_wf [new_record].
Proof.
  split_and!; [|done|done].
  apply Forall_cons. split; [apply page_ok_new_record|done].
Qed.

(** [write_data] either fails for lack of memory, or appends the [n] bytes
    of the buffer to the chain and returns [n]. *)
Lemma write_pages_appends fu bu n buf chain w chain' :
  chain_wf chain ->
  0 <= n < 2 ^ 31 ->
  (Z.to_nat n <= length buf)%nat ->
  write_pages fu bu n buf chain = Ret (w, chain') ->
  w = - ENOMEM
  \/ (w = n
      /\ chain_wf chain'
      /\ log_bytes chain' = log_bytes chain ++ bytes_at buf 0 n
      /\ stored chain' = stored chain + n).
Proof.
  intros Hwf Hn Hbuf Hrun.
  assert (head_only chain -> head_only chain') as Hhead
    by (by eapply write_pages_head_only).
  revert Hrun. unfold write_pages.
  set (first := match chain with
                | [] => match bu with O => None | S b => Some ([new_record], b) end
                | _ => Some (chain, bu)
                end).
  assert (forall c1 b1, first = Some (c1, b1) ->
            chain_wf c1 /\ log_bytes c1 = log_bytes chain
            /\ stored c1 = stored chain /\ c1 <> []) as Hfirst.
  { subst first. intros c1 b1. destruct chain as [|p tl].
    - destruct bu; [done|]. intros [= <- <-].
      split_and!; [apply chain_wf_new_record|done..].
    - by intros [= <- <-]. }
  destruct first as [[chain1 budget1]|]; [|intros [= <- <-]; by left].
  destruct (Hfirst _ _ eq_refl) as ((Hok1 & Hpacked1 & _) & Hbytes1 & Hstored1 & Hne1).
  destruct (packed_split _ Hpacked1 Hne1) as (full & last & -> & Hfull).
  rewrite (last_or_room_packed _ _ Hfull).
  apply Forall_app in Hok1 as [Hokfull Hoklast].
  apply Forall_cons in Hoklast as [Hlast _].
  pose proof Hlast as (Hro & Hrl & Hlen). unfold OBJECT_MAX_SIZE in Hrl.
  unfold OBJECT_MAX_SIZE at 1 2.
  rewrite (to_int_small n) by (unfold is_int; lia).
  rewrite (to_int_small (4096 - record_length last)) by (unfold is_int; lia).
  rewrite (to_int_small (4096 - record_length last - n)) by (unfold is_int; lia).
  rewrite (to_int_small (n - (4096 - record_length last))) by (unfold is_int; lia).
  (* the chain after the allocation loop *)
  assert (forall ok chain2,
            (if 4096 - record_length last - n <? 0
             then let '(ok, added) := grow_chain budget1 (n - (4096 - record_length last)) in
                  (ok, match added with
                       | [] => full ++ [last]
                       | _ => full ++ last :: added
                       end)
             else (true, full ++ [last])) = (ok, chain2) ->
            ok = true ->
            exists k : nat,
              chain2 = full ++ last :: replicate k new_record
              /\ n <= 4096 - record_length last + Z.of_nat k * 4096
              /\ ((1 <= k)%nat -> 4096 - record_length last + (Z.of_nat k - 1) * 4096 < n))
    as Hgrown.
  { intros ok chain2.
    destruct (Z.ltb_spec (4096 - record_length last - n) 0) as [Hlt|Hge].
    - destruct (grow_chain budget1 _) as [ok' added] eqn:Hg. intros [= -> <-] ->.
      pose proof (grow_chain_fresh _ _ _ _ Hg) as Hadded.
      apply grow_chain_count in Hg as [[? _]|[_ Hcount]]; [lia| |lia].
      unfold OBJECT_MAX_SIZE in Hcount.
      exists (length added). rewrite <- Hadded.
      split; [by destruct added|]. lia.
    - intros [= <- <-] _. exists 0%nat. split; [done|]. lia. }
  destruct (if 4096 - record_length last - n <? 0 then _ else _) as [ok chain2] eqn:Hg.
  destruct ok; cbn [negb]; [|intros [= <- <-]; by left].
  destruct (Hgrown _ _ eq_refl eq_refl) as (k & -> & Hup & Hlow).
  clear Hg Hgrown.
  intros H. right. unbind H. destruct a as [passed cur].
  destruct (decide (record_length last = OBJECT_MAX_SIZE)) as [Hfullast|Hroom].
  - (* the last node is full: the bytes go to the new nodes *)
    unfold OBJECT_MAX_SIZE in Hfullast.
    destruct k as [|k].
    { rewrite skip_full_all_full in Hl; [done|].
      apply Forall_app. split; [done|]. by apply Forall_cons. }
    cbn [replicate] in Hl.
    replace (full ++ last :: new_record :: replicate k new_record)
      with ((full ++ [last]) ++ new_record :: replicate k new_record) in Hl
      by (by rewrite <- app_assoc).
    rewrite skip_full_packed in Hl;
      [|apply Forall_app; split; [done|by apply Forall_cons]|done].
    injection Hl as <- <-.
    unbind H. destruct a as [cur' tot]. injection H as <- <-.
    apply copy_loop_fills in Hl as (-> & Hall & Hpacked & Hbytes & Hstored);
      unfold OBJECT_MAX_SIZE; change (record_length new_record) with 0;
      [|apply page_ok_new_record|lia..].
    split_and!; [lia| | |].
    + split_and!.
      * apply Forall_app. split; [|done]. apply Forall_app. split; [done|].
        by apply Forall_cons.
      * apply packed_app_full; [|done].
        apply Forall_app. split; [done|]. by apply Forall_cons.
      * apply Hhead, Hwf.
    + rewrite log_bytes_app, Hbytes, page_bytes_new_record, <- Hbytes1. done.
    + rewrite stored_app, Hstored, <- Hstored1.
      change (record_length new_record) with 0. change (read_offset new_record) with 0.
      lia.
  - rewrite skip_full_packed in Hl by done. injection Hl as <- <-.
    unbind H. destruct a as [cur' tot]. injection H as <- <-.
    apply copy_loop_fills in Hl as (-> & Hall & Hpacked & Hbytes & Hstored);
      unfold OBJECT_MAX_SIZE; [|done|lia..].
    split_and!; [lia| | |].
    + split_and!.
      * apply Forall_app. by split.
      * by apply packed_app_full.
      * apply Hhead, Hwf.
    + rewrite log_bytes_app, Hbytes, <- Hbytes1, log_bytes_app.
      rewrite log_bytes_cons. cbn. rewrite app_nil_r, <- app_assoc. done.
    + rewrite stored_app, Hstored, <- Hstored1, stored_app. cbn. lia.
Qed.

(** ** Consuming from a chain *)

Lemma take_memcpy_into dst at_ src :
  0 <= at_ -> (Z.to_nat at_ + length src <= length dst)%nat ->
  take (Z.to_nat at_ + length src) (memcpy_into dst at_ src)
  = take (Z.to_nat at_) dst ++ src.
Proof.
  intros Hat Hfit. unfold memcpy_into.
  rewrite take_app_ge by (rewrite length_take; lia).
  rewrite length_take. replace (Z.to_nat at_ `min` length dst)%nat with (Z.to_nat at_) by lia.
  replace (Z.to_nat at_ + length src - Z.to_nat at_)%nat with (length src) by lia.
  by rewrite take_app_length.
Qed.

Lemma read_loop_done fuel cur temp total rem :
  read_loop fuel cur 0 temp total rem = Ret (cur, temp, total, rem).
Proof. by rewrite read_loop_eq. Qed.

Lemma packed_same_length p p' tl :
  record_length p' = record_length p -> packed (p :: tl) -> packed (p' :: tl).
Proof. destruct tl as [|q tl]; [done|]. cbn. by intros ->. Qed.

(** The copy loop of [dev_read] takes the first [n] bytes of the chain and
    counts the nodes it emptied. *)
Lemma read_loop_takes chain : forall fuel n temp total rem,
  chain_wf chain ->
  0 <= n <= stored chain ->
  0 <= total -> total + n < 2 ^ 31 ->
  (Z.to_nat (total + n) <= length temp)%nat ->
  (length chain <= fuel)%nat ->
  exists cur temp' rem',
    read_loop fuel chain n temp total rem = Ret (cur, temp', total + n, rem')
    /\ 0 <= rem' - rem
    /\ length cur = length chain
    /\ (Z.to_nat (rem' - rem) <= length cur)%nat
    /\ take (Z.to_nat (total + n)) temp'
       = take (Z.to_nat total) temp ++ take (Z.to_nat n) (log_bytes chain)
    /\ length temp' = length temp
    /\ chain_wf (drop (Z.to_nat (rem' - rem)) cur)
    /\ log_bytes (drop (Z.to_nat (rem' - rem)) cur) = drop (Z.to_nat n) (log_bytes chain)
    /\ stored (drop (Z.to_nat (rem' - rem)) cur) = stored chain - n.
Proof.
  induction chain as [|p tl IH]; intros fuel n temp total rem Hwf Hn Htot Hsum Htemp Hfuel.
  { cbn in Hn. assert (n = 0) as -> by lia.
    exists [], temp, rem. rewrite read_loop_done, Z.add_0_r, Z.sub_diag.
    split_and!; try done; try (cbn; lia); by rewrite app_nil_r. }
  destruct (decide (n = 0)) as [->|Hnz].
  { exists (p :: tl), temp, rem. rewrite read_loop_done, Z.add_0_r, Z.sub_diag.
    split_and!; try done; try (by rewrite app_nil_r); try (cbn; lia).
    change (Z.to_nat 0) with 0%nat. rewrite drop_0. lia. }
  destruct Hwf as (Hok & Hpacked & Hhead).
  apply Forall_cons in Hok as [Hp Hoktl].
  pose proof Hp as (Hro & Hrl & Hlen). unfold OBJECT_MAX_SIZE in Hrl, Hlen.
  pose proof (stored_nonneg _ Hoktl) as Htlpos.
  cbn [stored] in Hn.
  destruct fuel as [|fuel]; [cbn in Hfuel; lia|]. cbn [length] in Hfuel.
  rewrite read_loop_eq.
  destruct (Z.gtb_spec n 0) as [Hpos|?]; [|lia]. cbn [negb]. cbn zeta.
  rewrite (to_int_small (record_length p - read_offset p)) by (unfold is_int; lia).
  rewrite (to_ulong_small (record_length p - read_offset p)) by (unfold is_ulong; lia).
  rewrite (to_int_small n) by (unfold is_int; lia).
  set (left := record_length p - read_offset p) in *.
  destruct (Z.geb_spec n left) as [Hge|Hlt].
  - (* the node is read to the end of what it holds *)
    destruct (Z.ltb_spec left 0) as [?|_]; [lia|].
    replace (read_offset p + left) with (record_length p) by (subst left; lia).
    rewrite (to_int_small (record_length p)) by (unfold is_int; lia).
    rewrite (to_ulong_small (n - left)) by (unfold is_ulong; lia).
    rewrite (to_int_small (total + left)) by (unfold is_int; lia).
    assert (length (bytes_at (stream_content p) (read_offset p) left) = Z.to_nat left)
      as Hsrc by (apply bytes_at_length; subst left; lia).
    set (temp1 := memcpy_into temp total (bytes_at (stream_content p) (read_offset p) left)).
    assert (length temp1 = length temp) as Hlen1
      by (apply memcpy_into_length; lia).
    assert (take (Z.to_nat (total + left)) temp1
            = take (Z.to_nat total) temp ++ page_bytes p) as Htake1.
    { replace (Z.to_nat (total + left))
        with (Z.to_nat total + length (bytes_at (stream_content p) (read_offset p) left))%nat
        by lia.
      unfold temp1. by rewrite take_memcpy_into by lia. }
    assert (length (page_bytes p) = Z.to_nat left) as Hpb by (by apply page_bytes_length).
    cbn [read_offset].
    destruct (Z.eqb_spec (record_length p) OBJECT_MAX_SIZE) as [Hfull|Hpart].
    + (* a full node: on to the next *)
      destruct (IH fuel (n - left) temp1 (total + left) (rem + 1))
        as (cur & temp' & rem' & Hrun & Hrem & Hcurlen & Hremle & Htake & Hlen' & Hwf' & Hbytes & Hstored);
        [split_and!; [done|by eapply packed_tail|by eapply head_only_tail]
        |lia|lia|lia|lia|lia|].
      rewrite Hrun. unfold mbind, outcome_bind. cbn beta iota.
      replace (total + left + (n - left)) with (total + n) in * by lia.
      eexists _, temp', rem'. split; [done|].
      replace (Z.to_nat (rem' - rem)) with (S (Z.to_nat (rem' - (rem + 1)))) by lia.
      cbn [drop].
      split_and!; [lia|cbn [length]; lia|cbn [length]; lia| |lia|done| |cbn [stored]; fold left; lia].
      * rewrite Htake. rewrite Htake1, log_bytes_cons, <- app_assoc. f_equal.
        rewrite take_app_ge by lia. f_equal. f_equal. lia.
      * rewrite Hbytes, log_bytes_cons, drop_app_ge by lia. f_equal. lia.
    + (* a node that is not full is the last one *)
      assert (tl = []) as ->.
      { destruct tl as [|q tl]; [done|]. by destruct Hpacked as [? _]. }
      cbn [stored] in Hn. assert (n = left) as -> by lia.
      rewrite Z.sub_diag, read_loop_done.
      eexists _, temp1, rem. split; [done|]. rewrite Z.sub_diag. change (Z.to_nat 0) with 0%nat. rewrite !drop_0.
      split_and!; [done|done|cbn; lia| |done| | |cbn; subst left; lia].
      * rewrite Htake1, log_bytes_cons. change (log_bytes []) with (@nil byte).
        rewrite app_nil_r. by rewrite (take_ge (page_bytes p)) by (rewrite Hpb; lia).
      * split_and!; [|done|by split].
        apply Forall_cons. split; [|done]. unfold page_ok. cbn.
        unfold OBJECT_MAX_SIZE. lia.
      * rewrite !log_bytes_cons. change (log_bytes []) with (@nil byte).
        rewrite !app_nil_r. rewrite drop_ge by (rewrite Hpb; lia).
        unfold page_bytes. cbn [record_length read_offset stream_content].
        by rewrite Z.sub_diag.
  - (* the node holds more than is asked for *)
    destruct (Z.ltb_spec n 0) as [?|_]; [lia|].
    rewrite (to_int_small (read_offset p + n)) by (unfold is_int; lia).
    rewrite Z.sub_diag. replace (to_ulong 0) with 0 by reflexivity.
    rewrite (to_int_small (total + n)) by (unfold is_int; lia).
    cbn [read_offset].
    destruct (Z.eqb_spec (read_offset p + n) OBJECT_MAX_SIZE) as [?|_];
      [unfold OBJECT_MAX_SIZE in *; lia|].
    rewrite read_loop_done.
    assert (length (bytes_at (stream_content p) (read_offset p) n) = Z.to_nat n)
      as Hsrc by (apply bytes_at_length; subst left; lia).
    pose proof (page_bytes_read p n Hp ltac:(lia)) as Hsplit.
    eexists _, _, rem. split; [done|]. rewrite Z.sub_diag. change (Z.to_nat 0) with 0%nat. rewrite !drop_0.
    split_and!; [done|done|cbn; lia| | | | |cbn; lia].
    + replace (Z.to_nat (total + n))
        with (Z.to_nat total + length (bytes_at (stream_content p) (read_offset p) n))%nat
        by lia.
      rewrite take_memcpy_into by lia. f_equal.
      rewrite log_bytes_cons, Hsplit, <- app_assoc.
      by rewrite take_app_length' by lia.
    + apply memcpy_into_length; lia.
    + split_and!.
      * apply Forall_cons. split; [|done]. unfold page_ok. cbn.
        unfold OBJECT_MAX_SIZE. lia.
      * by eapply packed_same_length.
      * destruct Hhead as [_ Hall]. split; [|done]. cbn.
        unfold OBJECT_MAX_SIZE. lia.
    + rewrite !log_bytes_cons, Hsplit, <- app_assoc.
      by rewrite drop_app_length' by lia.
Qed.

(** ** Writes followed by reads *)

Lemma flow_wf_bounds f :
  flow_wf f ->
  0 <= valid_bytes f <= OBJECT_MAX_SIZE * MAX_PAGES
  /\ 0 <= total_free_bytes f <= OBJECT_MAX_SIZE * MAX_PAGES.
Proof.
  intros ((Hok & _ & _) & Hv & Hfr & Hsum).
  pose proof (stored_nonneg _ Hok). lia.
Qed.

Lemma free_records_ok n : forall chain,
  (n <= length chain)%nat -> free_records n chain = Ret (drop n chain).
Proof.
  induction n as [|n IH]; intros chain Hn; [done|].
  destruct chain as [|p tl]; [cbn in Hn; lia|]. cbn. apply IH. cbn in Hn. lia.
Qed.

Lemma copy_from_user_whole buff :
  copy_from_user buff (Z.of_nat (length buff)) = (0, buff).
Proof.
  unfold copy_from_user. rewrite Nat2Z.id, take_ge by done. f_equal. lia.
Qed.

Lemma dev_write_locked_appends e sess m buf s tr f s' tr' :
  priority sess = 1 ->
  get_flow s m 1 = Some f ->
  flow_wf f ->
  Z.of_nat (length buf) < 2 ^ 31 ->
  dev_write_locked e sess m buf (Z.of_nat (length buf)) s tr
  = Ret (Z.of_nat (length buf), s', tr') ->
  exists f',
    get_flow s' m 1 = Some f'
    /\ flow_wf f'
    /\ log_bytes (list_heads f') = log_bytes (list_heads f) ++ buf.
Proof.
  intros Hp Hf Hwf Hlen. pose proof (flow_wf_bounds _ Hwf) as [Hvb Hfb].
  destruct Hwf as (Hchain & Hv & Hfr & Hsum).
  unfold OBJECT_MAX_SIZE, MAX_PAGES in *.
  unfold dev_write_locked. rewrite Hp, Hf. cbn.
  unfold ENOSPC.
  destruct (Z.eqb_spec (total_free_bytes f) 0) as [Hz|Hnz]; [intros [= ? _ _]; lia|].
  rewrite (to_ulong_small (total_free_bytes f)) by (unfold is_ulong; lia).
  set (n := if Z.of_nat (length buf) >? total_free_bytes f
            then total_free_bytes f else Z.of_nat (length buf)).
  assert (0 <= n <= Z.of_nat (length buf) /\ n <= total_free_bytes f) as Hn.
  { subst n. destruct (Z.gtb_spec (Z.of_nat (length buf)) (total_free_bytes f)); lia. }
  intros H. unbind H. destruct a as [written s1].
  apply write_data_Ret in Hl as (f0 & chain & Hf0 & Hw & ->).
  rewrite Hf in Hf0. injection Hf0 as <-.
  rewrite (get_put_flow_same _ _ _ _ _ Hf) in H. cbn in H.
  injection H as Hret <- <-.
  apply write_pages_appends in Hw as [->|(-> & Hchain' & Hbytes & Hstored)];
    [| |done|lia|lia].
  { replace (to_int (- ENOMEM)) with (-12) in Hret by reflexivity. lia. }
  rewrite (to_int_small n) in Hret |- * by (unfold is_int; lia).
  rewrite put_put_flow.
  eexists. split; [by eapply get_put_flow_same|].
  rewrite !to_int_small by (unfold is_int; lia).
  split.
  - split_and!; cbn; unfold OBJECT_MAX_SIZE, MAX_PAGES; [done|lia|lia|lia].
  - cbn [list_heads]. rewrite Hbytes, Hret. by rewrite bytes_at_whole.
Qed.

Lemma dev_write_appends e filp buff s sess f s' tr :
  private_data filp = Some sess ->
  priority sess = 1 ->
  get_flow s (f_minor filp) 1 = Some f ->
  flow_wf f ->
  quiet e ->
  Z.of_nat (length buff) < 2 ^ 31 ->
  dev_write e filp buff (Z.of_nat (length buff)) s
  = Ret (Z.of_nat (length buff), s', tr) ->
  exists f',
    get_flow s' (f_minor filp) 1 = Some f'
    /\ flow_wf f'
    /\ log_bytes (list_heads f') = log_bytes (list_heads f) ++ buff.
Proof.
  intros Hsess Hp Hf Hwf Hquiet Hlen. unfold dev_write. rewrite Hsess. cbn.
  unfold ENOMEM, ENOSPC.
  destruct (kmalloc_ok e); cbn; [|intros [= ? _ _]; lia].
  rewrite copy_from_user_whole. cbn.
  rewrite Z.sub_0_r, to_ulong_small by (unfold is_ulong; lia).
  intros H. unbind H. destruct a as [got tr1].
  destruct (negb (got =? 1)); [injection H as ? _ _; lia|].
  rewrite Hp, Hf in H. cbn in H.
  destruct ((total_free_bytes f =? 0) && (timeout sess >? 0)).
  - rewrite Hquiet in H.
    destruct (negb (do_sleep_wqe (wait_data e) =? 1)); [injection H as ? _ _; lia|].
    unbind H. destruct a as [got2 tr2].
    destruct (negb (got2 =? 1)); [injection H as ? _ _; lia|].
    eapply dev_write_locked_appends in H; [done|done| |done..].
    by rewrite <- Hf.
  - by eapply dev_write_locked_appends in H.
Qed.

Lemma log_bytes_empty chain :
  Forall page_ok chain -> stored chain = 0 -> log_bytes chain = [].
Proof.
  intros Hok Hz. apply length_zero_iff_nil.
  apply Nat2Z.inj. by rewrite log_bytes_length.
Qed.

Lemma dev_read_locked_all e sess m buff len s tr f :
  get_flow s m (priority sess) = Some f ->
  flow_wf f ->
  kmalloc_ok e = true ->
  (length (list_heads f) <= fuel e)%nat ->
  0 <= len < 2 ^ 31 ->
  valid_bytes f <= len ->
  (Z.to_nat len <= length buff)%nat ->
  exists s' buff' f',
    dev_read_locked e sess m buff len s tr
    = Ret (valid_bytes f, s', buff', tr ++ leave m (priority sess))
    /\ take (Z.to_nat (valid_bytes f)) buff' = log_bytes (list_heads f)
    /\ get_flow s' m (priority sess) = Some f'
    /\ flow_wf f'
    /\ valid_bytes f' = 0
    /\ (length (list_heads f') <= length (list_heads f))%nat.
Proof.
  intros Hf Hwf Hk Hfuel Hlen Hall Hbuf.
  pose proof (flow_wf_bounds _ Hwf) as [Hvb Hfb].
  pose proof Hwf as (Hchain & Hv & Hfr & Hsum).
  pose proof (log_bytes_length _ (proj1 Hchain)) as Hloglen.
  unfold OBJECT_MAX_SIZE, MAX_PAGES in *.
  unfold dev_read_locked. rewrite Hf, Hk. cbn.
  destruct (Z.eqb_spec (valid_bytes f) 0) as [Hz|Hnz].
  { exists s, buff, f. rewrite Hz. split; [done|].
    split; [|done]. cbn. symmetry. apply log_bytes_empty; [apply Hchain|lia]. }
  rewrite (to_ulong_small (valid_bytes f)) by (unfold is_ulong; lia).
  assert ((if len >? valid_bytes f then valid_bytes f else len) = valid_bytes f) as ->
    by (destruct (Z.gtb_spec len (valid_bytes f)); lia).
  destruct (read_loop_takes (list_heads f) (fuel e) (valid_bytes f)
              (replicate (Z.to_nat (valid_bytes f)) x00) 0 0)
    as (cur & temp' & rem' & Hrun & Hrem & Hcurlen & Hremle & Htake & Hlen' & Hwf' & Hbytes & Hstored);
    [done|lia|lia|lia|rewrite length_replicate; lia|done|].
  rewrite Z.add_0_l in Hrun, Htake. rewrite Z.sub_0_r in *.
  rewrite Hrun. cbn.
  assert ((if rem' >? 0 then free_records (Z.to_nat rem') cur else Ret cur)
          = Ret (drop (Z.to_nat rem') cur)) as ->.
  { destruct (Z.gtb_spec rem' 0); [by apply free_records_ok|].
    by replace rem' with 0 by lia. }
  cbn. unfold copy_to_user.
  rewrite (to_ulong_small (valid_bytes f)) by (unfold is_ulong; lia).
  replace (Z.to_nat (valid_bytes f) `min` length buff)%nat
    with (Z.to_nat (valid_bytes f)) by lia.
  replace (valid_bytes f - Z.of_nat (Z.to_nat (valid_bytes f))) with 0 by lia.
  replace (to_int 0) with 0 by reflexivity. rewrite Z.sub_0_r.
  assert (take (Z.to_nat (valid_bytes f)) temp' = log_bytes (list_heads f)) as Hmoved.
  { rewrite Htake. cbn. apply take_ge. lia. }
  rewrite Hmoved.
  eexists _, _, _. split; [done|].
  split; [apply take_app_length'; lia|].
  split; [by eapply get_put_flow_same|].
  rewrite Z.sub_diag. replace (to_int 0) with 0 by reflexivity.
  rewrite to_int_small by (unfold is_int; lia).
  split; [split_and!; cbn; unfold OBJECT_MAX_SIZE, MAX_PAGES; [done|lia|lia|lia]|].
  split; [done|]. cbn. rewrite length_drop. lia.
Qed.

Lemma dev_read_all e filp buff len s sess f :
  private_data filp = Some sess ->
  get_flow s (f_minor filp) (priority sess) = Some f ->
  flow_wf f ->
  able e (length (list_heads f)) ->
  0 <= len < 2 ^ 31 ->
  valid_bytes f <= len ->
  (Z.to_nat len <= length buff)%nat ->
  exists s' buff' tr f',
    dev_read e filp buff len s = Ret (valid_bytes f, s', buff', tr)
    /\ take (Z.to_nat (valid_bytes f)) buff' = log_bytes (list_heads f)
    /\ get_flow s' (f_minor filp) (priority sess) = Some f'
    /\ flow_wf f'
    /\ valid_bytes f' = 0
    /\ (length (list_heads f') <= length (list_heads f))%nat.
Proof.
  intros Hsess Hf Hwf (Hquiet & [Htl1 Htl2] & Hk & Hfuel) Hlen Hall Hbuf.
  unfold dev_read. rewrite clear_user_whole by lia.
  rewrite Hsess, Htl1, Htl2. cbn.
  rewrite Z.sub_0_r, (to_ulong_small len) by (unfold is_ulong; lia).
  rewrite (try_get_lock_free _ _ _ _ _ Hf). cbn. rewrite Hf. cbn.
  set (cleared := replicate (Z.to_nat len) x00 ++ drop (Z.to_nat len) buff).
  assert (Z.to_nat len <= length cleared)%nat as Hcl.
  { subst cleared. rewrite length_app, length_replicate. lia. }
  destruct ((valid_bytes f =? 0) && (timeout sess >? 0)) eqn:Hwait.
  - apply andb_prop in Hwait as [Hz _]. apply Z.eqb_eq in Hz.
    rewrite Hquiet.
    set (s1 := with_wait_data (with_wait_data s (priority sess) (f_minor filp) 1)
                 (priority sess) (f_minor filp) (-1)).
    assert (get_flow s1 (f_minor filp) (priority sess) = Some f) as Hf1 by done.
    destruct (negb (do_sleep_wqe (wait_data e) =? 1)).
    + eexists s1, cleared, _, f. rewrite Hz. split; [done|].
      split; [|done]. cbn. symmetry. apply log_bytes_empty; [apply Hwf|].
      destruct Hwf as (_ & Hv & _). lia.
    + rewrite (try_get_lock_free _ _ _ _ _ Hf1). cbn.
      destruct (dev_read_locked_all e sess (f_minor filp) cleared len s1
                  (([EvLock (f_minor filp) (priority sess)]
                    ++ [EvUnlock (f_minor filp) (priority sess);
                        EvSleep (f_minor filp) (priority sess) WAIT_READ])
                   ++ [EvLock (f_minor filp) (priority sess)]) f)
        as (s' & buff' & f' & Hrun & Hrest); [done..|].
      eexists s', buff', _, f'. split; [exact Hrun|done].
  - destruct (dev_read_locked_all e sess (f_minor filp) cleared len s
                [EvLock (f_minor filp) (priority sess)] f)
      as (s' & buff' & f' & Hrun & Hrest); [done..|].
    eexists s', buff', _, f'. split; [exact Hrun|done].
Qed.

Lemma payload_cons e w ws : payload ((e, w) :: ws) = w ++ payload ws.
Proof. done. Qed.

(** Successful writes append their buffers, in order. *)
Lemma write_all_appends filp sess ws : forall s f s1,
  private_data filp = Some sess ->
  priority sess = 1 ->
  get_flow s (f_minor filp) 1 = Some f ->
  flow_wf f ->
  Forall (fun ew => quiet ew.1) ws ->
  Z.of_nat (length (payload ws)) < 2 ^ 31 ->
  write_all filp ws s = Some s1 ->
  exists f1,
    get_flow s1 (f_minor filp) 1 = Some f1
    /\ flow_wf f1
    /\ log_bytes (list_heads f1) = log_bytes (list_heads f) ++ payload ws.
Proof.
  induction ws as [|[e w] ws IH]; intros s f s1 Hsess Hp Hf Hwf Hq Hlen.
  { intros [= <-]. exists f. by rewrite app_nil_r. }
  apply Forall_cons in Hq as [Hqe Hq]. cbn in Hqe.
  rewrite payload_cons, length_app in Hlen.
  cbn [write_all].
  destruct (dev_write e filp w (Z.of_nat (length w)) s) as [[[r s'] tr]| |] eqn:Hw;
    [|done..].
  destruct (Z.eqb_spec r (Z.of_nat (length w))) as [->|]; [|done].
  intros Hrest.
  eapply dev_write_appends in Hw as (f' & Hf' & Hwf' & Hbytes); [|done..|lia].
  eapply IH in Hrest as (f1 & Hf1 & Hwf1 & Hbytes1); [|done..|lia].
  exists f1. split_and!; [done..|].
  by rewrite Hbytes1, Hbytes, payload_cons, app_assoc.
Qed.

(** Reads of an empty flow deliver nothing. *)
Lemma read_all_empty filp sess rs : forall s f,
  private_data filp = Some sess ->
  get_flow s (f_minor filp) (priority sess) = Some f ->
  flow_wf f ->
  valid_bytes f = 0 ->
  Forall (servable (length (list_heads f))) rs ->
  read_all filp rs s = Some [].
Proof.
  induction rs as [|[[e buff] len] rs IH]; intros s f Hsess Hf Hwf Hz Hrs; [done|].
  apply Forall_cons in Hrs as [(Hable & Hlen & Hbuf) Hrs]. cbn in Hable, Hlen, Hbuf.
  destruct (dev_read_all e filp buff len s sess f)
    as (s' & buff' & tr & f' & Hrun & Htake & Hf' & Hwf' & Hz' & Hshorter);
    [done..|lia|done|].
  cbn [read_all]. rewrite Hrun, Hz. cbn.
  erewrite IH; [done|done|exact Hf'|done|done|].
  eapply Forall_impl; [exact Hrs|].
  intros [[e2 b2] l2] ((Hq & Hu & Hk & Hfuel) & ? & ?).
  split; [|done]. split_and!; try done. cbn in *. lia.
Qed.

(** C3: through a high priority session on a flow that is well formed and
    empty, let the writes [ws] all succeed, each returning the length of its
    buffer, with a total of at most [OBJECT_MAX_SIZE * MAX_PAGES] bytes and
    nobody else touching the device.  Then successive reads, the first
    asking for at least the total and the others for anything, each able to
    run, deliver, concatenated, exactly the buffers of the writes in the
    order of the writes; the first read alone returns them all. *)
Theorem writes_then_reads_round_trip filp sess s f ws s1 e buff len rs :
  private_data filp = Some sess ->
  priority sess = 1 ->
  get_flow s (f_minor filp) 1 = Some f ->
  flow_wf f ->
  valid_bytes f = 0 ->
  Forall (fun ew => quiet ew.1) ws ->
  Z.of_nat (length (payload ws)) <= OBJECT_MAX_SIZE * MAX_PAGES ->
  write_all filp ws s = Some s1 ->
  Forall (servable (length (the_chain s1 (f_minor filp) 1))) ((e, buff, len) :: rs) ->
  Z.of_nat (length (payload ws)) <= len ->
  read_all filp ((e, buff, len) :: rs) s1 = Some (payload ws)
  /\ exists s2 buff' tr,
       dev_read e filp buff len s1
       = Ret (Z.of_nat (length (payload ws)), s2, buff', tr)
       /\ take (length (payload ws)) buff' = payload ws.
Proof.
  intros Hsess Hp Hf Hwf Hz Hq Htotal Hws Hrs Hlen.
  unfold OBJECT_MAX_SIZE, MAX_PAGES in Htotal.
  eapply write_all_appends in Hws as (f1 & Hf1 & Hwf1 & Hbytes); [|done..|lia].
  assert (log_bytes (list_heads f) = []) as Hempty.
  { apply log_bytes_empty; [apply Hwf|]. destruct Hwf as (_ & Hv & _). lia. }
  rewrite Hempty, app_nil_l in Hbytes.
  assert (valid_bytes f1 = Z.of_nat (length (payload ws))) as Hv1.
  { destruct Hwf1 as ((Hok & _) & Hv & _).
    by rewrite Hv, <- (log_bytes_length _ Hok), Hbytes. }
  unfold the_chain in Hrs. rewrite Hf1 in Hrs.
  apply Forall_cons in Hrs as [(Hable & Hl & Hbuf) Hrs]. cbn in Hable, Hl, Hbuf.
  rewrite <- Hp in Hf1.
  destruct (dev_read_all e filp buff len s1 sess f1)
    as (s2 & buff' & tr & f2 & Hrun & Htake & Hf2 & Hwf2 & Hz2 & Hshorter);
    [done..|lia|done|].
  rewrite Hv1, Nat2Z.id, Hbytes in Htake. rewrite Hv1 in Hrun.
  split; [|by eexists _, _, _].
  cbn [read_all]. rewrite Hrun.
  destruct (Z.ltb_spec (Z.of_nat (length (payload ws))) 0); [lia|].
  erewrite read_all_empty; [|done|exact Hf2|done|done|].
  - by rewrite Nat2Z.id, Htake, app_nil_r.
  - eapply Forall_impl; [exact Hrs|].
    intros [[e2 b2] l2] ((Hq2 & Hu & Hk & Hfuel) & ? & ?).
    split; [|done]. split_and!; try done. cbn in *. lia.
Qed.

Lemma flow_wf_first_flow : flow_wf first_flow.
Proof.
  split_and!; [apply chain_wf_new_record|done|..];
    cbn; unfold OBJECT_MAX_SIZE, MAX_PAGES; lia.
Qed.

Lemma write_all_default filp ws s :
  (match write_all filp ws s with Some _ => true | None => false end) = true ->
  write_all filp ws s = Some (default s (write_all filp ws s)).
Proof. by destruct (write_all filp ws s). Qed.

Lemma able_calm pages : (pages <=? 64)%nat = true -> able calm pages.
Proof.
  intros H. apply Nat.leb_le in H. split_and!; try done.
Qed.

Lemma writes_then_reads_round_trip_witness :
  private_data (open_file 0 1 0) = Some {| priority := 1; timeout := 0 |}
  /\ get_flow init_module (f_minor (open_file 0 1 0)) 1 = Some first_flow
  /\ flow_wf first_flow
  /\ valid_bytes first_flow = 0
  /\ Forall (fun ew => quiet ew.1) two_writes
  /\ Z.of_nat (length (payload two_writes)) <= OBJECT_MAX_SIZE * MAX_PAGES
  /\ write_all (open_file 0 1 0) two_writes init_module = Some after_two_writes
  /\ Forall (servable (length (the_chain after_two_writes (f_minor (open_file 0 1 0)) 1)))
       ((calm, letters (Z.to_nat 6000), 6000) :: more_reads)
  /\ Z.of_nat (length (payload two_writes)) <= 6000
  /\ read_all (open_file 0 1 0) ((calm, letters (Z.to_nat 6000), 6000) :: more_reads)
       after_two_writes
     = Some (payload two_writes)
  /\ exists s2 buff' tr,
       dev_read calm (open_file 0 1 0) (letters (Z.to_nat 6000)) 6000 after_two_writes
       = Ret (Z.of_nat (length (payload two_writes)), s2, buff', tr)
       /\ take (length (payload two_writes)) buff' = payload two_writes.
Proof.
  assert (Forall (fun ew : env * list byte => quiet ew.1) two_writes) as Hquiet.
  { repeat apply Forall_cons_2; done. }
  assert (Z.of_nat (length (payload two_writes)) <= OBJECT_MAX_SIZE * MAX_PAGES) as Htotal.
  { apply Z.leb_le. vm_compute. reflexivity. }
  assert (write_all (open_file 0 1 0) two_writes init_module = Some after_two_writes)
    as Hwrites.
  { apply write_all_default. vm_compute. reflexivity. }
  assert (Forall (servable (length (the_chain after_two_writes
                                      (f_minor (open_file 0 1 0)) 1)))
            ((calm, letters (Z.to_nat 6000), 6000) :: more_reads)) as Hreads.
  { repeat apply Forall_cons_2; [| |done].
    - split_and!; [apply able_calm; vm_compute; reflexivity|cbn; lia|cbn; lia|].
      apply Nat.leb_le. vm_compute. reflexivity.
    - split_and!; [apply able_calm; vm_compute; reflexivity|cbn; lia|cbn; lia|].
      apply Nat.leb_le. vm_compute. reflexivity. }
  assert (Z.of_nat (length (payload two_writes)) <= 6000) as Hlen.
  { apply Z.leb_le. vm_compute. reflexivity. }
  split; [reflexivity|]. split; [reflexivity|]. split; [exact flow_wf_first_flow|].
  split; [reflexivity|]. split; [exact Hquiet|]. split; [exact Htotal|].
  split; [exact Hwrites|]. split; [exact Hreads|]. split; [exact Hlen|].
  apply (writes_then_reads_round_trip (open_file 0 1 0) {| priority := 1; timeout := 0 |}
           init_module first_flow two_writes after_two_writes
           calm (letters (Z.to_nat 6000)) 6000 more_reads);
    [reflexivity | reflexivity | reflexivity | exact flow_wf_first_flow | reflexivity
    | exact Hquiet | exact Htotal | exact Hwrites | exact Hreads | exact Hlen].
Defined.

(** * More of the driver *)

(** ** Loading the module *)

Lemma revert_allocation_partial o rest :
  raw_heads (raw_low o) = None \/ raw_heads (raw_low o) = Some []
  \/ raw_heads (raw_high o) = None \/ raw_heads (raw_high o) = Some [] ->
  revert_allocation (o :: rest) = Oops.
Proof.
  cbn. destruct (raw_heads (raw_low o)) as [[|p l]|], (raw_heads (raw_high o)) as [[|q h]|];
    cbn; intros [?|[?|[?|?]]]; done.
Qed.

Lemma init_objects_short pages todo : forall inited budget,
  (budget < 6 * todo)%nat -> init_objects todo inited budget pages = Oops.
Proof.
  induction todo as [|todo IH]; intros inited budget Hlt; [lia|].
  destruct budget as [|[|[|[|[|[|budget]]]]]]; try done.
  cbn. apply IH. lia.
Qed.

Lemma init_objects_enough pages todo : forall inited budget,
  (6 * todo <= budget)%nat ->
  init_objects todo inited budget pages
  = Ret (inr (reverse inited ++ (ready_object pages <$> seq (length inited) todo))).
Proof.
  induction todo as [|todo IH]; intros inited budget Hle.
  { cbn. by rewrite app_nil_r. }
  destruct budget as [|[|[|[|[|[|budget]]]]]]; try lia.
  cbn. rewrite IH by lia. rewrite reverse_cons, <- app_assoc. done.
Qed.

(** X1: when each of the 6 * MINORS allocations of [init_module] succeeds,
    it returns 0, or the negative number that [__register_chrdev] answered,
    and leaves MINORS objects; each of the two flows of [objects[i]] has no
    valid byte, OBJECT_MAX_SIZE * MAX_PAGES free bytes and a chain of one
    node with nothing written and nothing read, on the page the allocator
    gave for it, with the bytes that page holds.  When these pages hold
    [x00] bytes only, the objects are those of the state [init_module]. *)
Theorem init_module_from_builds_init budget pages major :
  (6 * Z.to_nat MINORS <= budget)%nat ->
  exists objs,
    init_module_from budget pages major
    = Ret (if major <? 0 then major else 0, objs)
    /\ length objs = Z.to_nat MINORS
    /\ (forall i, (i < Z.to_nat MINORS)%nat ->
        objs !! i = Some (ready_object pages i))
    /\ (pages = blank_pages -> settled <$> objs = Some <$> objects init_module).
Proof.
  intros Hle. unfold init_module_from.
  rewrite init_objects_enough by done. cbn [mbind outcome_bind reverse app length].
  exists (ready_object pages <$> seq 0 (Z.to_nat MINORS)).
  split; [by destruct (major <? 0)|].
  split; [by rewrite length_fmap, length_seq|].
  split.
  - intros i Hi. rewrite list_lookup_fmap, lookup_seq_lt by done. done.
  - intros ->. unfold init_module. cbn [objects]. rewrite fmap_replicate.
    rewrite <- list_fmap_compose.
    apply list_eq. intros i. rewrite list_lookup_fmap.
    destruct (decide (i < Z.to_nat MINORS)%nat) as [Hi|Hi].
    + rewrite lookup_seq_lt, lookup_replicate_2 by done. done.
    + rewrite lookup_seq_ge by lia. symmetry. apply lookup_replicate_None. lia.
Qed.

Lemma init_module_from_builds_init_witness :
  (6 * Z.to_nat MINORS <= 1000)%nat
  /\ exists objs,
       init_module_from 1000 blank_pages 250 = Ret (0, objs)
       /\ length objs = Z.to_nat MINORS
       /\ (forall i, (i < Z.to_nat MINORS)%nat ->
           objs !! i = Some (ready_object blank_pages i))
       /\ (blank_pages = blank_pages ->
           settled <$> objs = Some <$> objects init_module).
Proof.
  split; [unfold MINORS; lia|].
  apply (init_module_from_builds_init 1000 blank_pages 250). unfold MINORS. lia.
Defined.

(** X2: when one of the allocations of [init_module] fails, whichever it
    is, [init_module] does not return [- ENOMEM]: the first round of
    [revert_allocation] reads through [list_heads[j]] or through its [next]
    for the flow that is not complete, and that pointer is [NULL]. *)
Theorem init_module_from_failure_oops budget pages major :
  (budget < 6 * Z.to_nat MINORS)%nat ->
  init_module_from budget pages major = Oops.
Proof.
  intros Hlt. unfold init_module_from. by rewrite init_objects_short.
Qed.

Lemma init_module_from_failure_oops_witness :
  (767 < 6 * Z.to_nat MINORS)%nat /\ init_module_from 767 blank_pages 250 = Oops.
Proof.
  split; [unfold MINORS; lia|].
  apply (init_module_from_failure_oops 767 blank_pages 250). unfold MINORS. lia.
Defined.

(** ** A mutex that is not free *)

Lemma try_get_lock_busy e sess m s f :
  get_flow s m (priority sess) = Some f ->
  trylock1 e = false ->
  timeout sess <= 0 \/ sleep1 e = 0 \/ sleep1 e = - ERESTARTSYS ->
  try_get_lock (trylock1 e) (sleep1 e) sess m s
  = Ret (0, if timeout sess <=? 0 then []
            else [EvSleep m (priority sess) WAIT_MUTEX]).
Proof.
  intros Hf -> Hwhy. unfold try_get_lock.
  destruct (get_flow_object _ _ _ _ Hf) as [o ->]. cbn.
  destruct (Z.leb_spec (timeout sess) 0) as [?|Hpos]; [done|].
  destruct Hwhy as [?|[-> | ->]]; [lia|done..].
Qed.

(** X3: when [mutex_trylock] fails and the session may not sleep (timeout
    <= 0), or sleeps and the sleep ends with the timeout or a signal, a
    write and a read return -1 and an ioctl returns [- ENODEV]; the state
    and the session are as before, no unlock and no wake-up is issued, and
    the read has cleared the destination all the same. *)
Theorem busy_mutex_refuses e filp sess s f buff len command param :
  private_data filp = Some sess ->
  get_flow s (f_minor filp) (priority sess) = Some f ->
  trylock1 e = false ->
  timeout sess <= 0 \/ sleep1 e = 0 \/ sleep1 e = - ERESTARTSYS ->
  kmalloc_ok e = true ->
  exists tr,
    tr = (if timeout sess <=? 0 then []
          else [EvSleep (f_minor filp) (priority sess) WAIT_MUTEX])
    /\ dev_write e filp buff len s = Ret (- 1, s, tr)
    /\ dev_read e filp buff len s = Ret (- 1, s, (clear_user buff len).2, tr)
    /\ dev_ioctl e filp command param s = Ret (- ENODEV, filp, s, tr).
Proof.
  intros Hsess Hf Htl Hwhy Hk.
  pose proof (try_get_lock_busy e sess (f_minor filp) s f Hf Htl Hwhy) as Hlock.
  eexists. split; [done|]. split_and!.
  - unfold dev_write. rewrite Hk, Hsess. cbn.
    destruct (copy_from_user buff len) as [ret temp]. cbn. by rewrite Hlock.
  - unfold dev_read. destruct (clear_user buff len) as [ret cleared].
    rewrite Hsess. cbn. by rewrite Hlock.
  - unfold dev_ioctl. rewrite Hsess. cbn. by rewrite Hlock.
Qed.

Lemma busy_mutex_refuses_witness :
  private_data (open_file 0 1 0) = Some {| priority := 1; timeout := 0 |}
  /\ get_flow init_module 0 1 = Some first_flow
  /\ trylock1 contended = false
  /\ kmalloc_ok contended = true
  /\ exists tr,
       tr = []
       /\ dev_write contended (open_file 0 1 0) [x68; x69] 2 init_module
          = Ret (- 1, init_module, tr)
       /\ dev_read contended (open_file 0 1 0) [x68; x69] 2 init_module
          = Ret (- 1, init_module, [x00; x00], tr)
       /\ dev_ioctl contended (open_file 0 1 0) SET_PRIO 0 init_module
          = Ret (- ENODEV, open_file 0 1 0, init_module, tr).
Proof.
  split; [reflexivity|]. split; [reflexivity|]. split; [reflexivity|].
  split; [reflexivity|].
  apply (busy_mutex_refuses contended (open_file 0 1 0) {| priority := 1; timeout := 0 |}
           init_module first_flow [x68; x69] 2 SET_PRIO 0);
    [reflexivity | reflexivity | reflexivity | left; simpl; lia | reflexivity].
Defined.

(** ** A write of length 0 after a page was filled *)

Lemma all_full_split chain :
  chain <> [] ->
  Forall (fun p => record_length p = OBJECT_MAX_SIZE) chain ->
  exists full last,
    chain = full ++ [last]
    /\ Forall (fun p => record_length p = OBJECT_MAX_SIZE) full
    /\ record_length last = OBJECT_MAX_SIZE.
Proof.
  intros Hne Hall.
  destruct (exists_last Hne) as (full & last & ->).
  apply Forall_app in Hall as [Hfull Hlast].
  apply Forall_cons in Hlast as [Hlast _]. eauto.
Qed.

Lemma write_pages_nothing_oops fu bu buf chain :
  chain <> [] ->
  Forall (fun p => record_length p = OBJECT_MAX_SIZE) chain ->
  write_pages fu bu 0 buf chain = Oops.
Proof.
  intros Hne Hall.
  destruct (all_full_split _ Hne Hall) as (full & last & -> & Hfull & Hlast).
  unfold write_pages.
  destruct (full ++ [last]) as [|q l] eqn:E; [by destruct full|]. rewrite <- E.
  rewrite (last_or_room_packed _ _ Hfull), Hlast, Z.sub_diag.
  replace (to_int 0) with 0 by reflexivity. cbn.
  rewrite skip_full_all_full; [done|].
  apply Forall_app. split; [done|]. by apply Forall_cons.
Qed.

(** X4: a write of length 0 through a high priority session, on a flow with
    free bytes whose nodes are all full (the last write ended exactly at the
    end of a page), dereferences [NULL]: with nothing to allocate,
    [write_data] looks for the node to write to past the last node. *)
Theorem zero_write_past_full_pages_oops e filp sess s f buff :
  private_data filp = Some sess ->
  priority sess = 1 ->
  get_flow s (f_minor filp) 1 = Some f ->
  total_free_bytes f <> 0 ->
  list_heads f <> [] ->
  Forall (fun p => record_length p = OBJECT_MAX_SIZE) (list_heads f) ->
  kmalloc_ok e = true ->
  trylock1 e = true ->
  dev_write e filp buff 0 s = Oops.
Proof.
  intros Hsess Hp Hf Hfree Hne Hall Hk Htl.
  unfold dev_write. rewrite Hk, Hsess, Htl, copy_from_user_nothing. cbn.
  replace (to_ulong (0 - 0)) with 0 by reflexivity.
  rewrite Hp, (try_get_lock_free _ _ _ _ _ (eq_ind_r (fun p => get_flow _ _ p = _) Hf Hp)).
  cbn. rewrite Hf. cbn.
  destruct (Z.eqb_spec (total_free_bytes f) 0) as [?|_]; [done|]. cbn.
  unfold dev_write_locked. rewrite Hp, Hf. cbn.
  destruct (Z.eqb_spec (total_free_bytes f) 0) as [?|_]; [done|].
  assert ((if 0 >? to_ulong (total_free_bytes f)
           then to_ulong (total_free_bytes f) else 0) = 0) as ->.
  { pose proof (to_ulong_range (total_free_bytes f)). unfold is_ulong in *.
    destruct (Z.gtb_spec 0 (to_ulong (total_free_bytes f))); lia. }
  unfold write_data. rewrite Hf. cbn.
  by rewrite write_pages_nothing_oops.
Qed.

Lemma zero_write_past_full_pages_oops_witness :
  private_data (open_file 0 1 0) = Some {| priority := 1; timeout := 0 |}
  /\ get_flow one_page_high 0 1 = Some one_page_flow
  /\ total_free_bytes one_page_flow <> 0
  /\ list_heads one_page_flow <> []
  /\ Forall (fun p => record_length p = OBJECT_MAX_SIZE) (list_heads one_page_flow)
  /\ dev_write calm (open_file 0 1 0) [] 0 one_page_high = Oops.
Proof.
  assert (get_flow one_page_high 0 1 = Some one_page_flow) as Hf
    by (vm_compute; reflexivity).
  assert (total_free_bytes one_page_flow <> 0) as Hfree
    by (vm_compute; discriminate).
  assert (list_heads one_page_flow <> []) as Hne
    by (vm_compute; discriminate).
  assert (Forall (fun p => record_length p = OBJECT_MAX_SIZE) (list_heads one_page_flow))
    as Hall.
  { assert (record_length <$> list_heads one_page_flow = [OBJECT_MAX_SIZE]) as Hrl
      by (vm_compute; reflexivity).
    destruct (list_heads one_page_flow) as [|q [|q' l]];
      [discriminate Hrl| |discriminate Hrl].
    injection Hrl as Hrl. apply Forall_cons. split; [exact Hrl|constructor]. }
  split; [reflexivity|]. split; [exact Hf|]. split; [exact Hfree|].
  split; [exact Hne|]. split; [exact Hall|].
  apply (zero_write_past_full_pages_oops calm (open_file 0 1 0)
           {| priority := 1; timeout := 0 |} one_page_high one_page_flow []);
    [reflexivity | reflexivity | exact Hf | exact Hfree | exact Hne | exact Hall
    | reflexivity | reflexivity].
Defined.

(** ** A read of bytes that are not there *)

Lemma read_loop_spins fuel : forall p tl n temp total rem,
  read_offset p = record_length p ->
  record_length p <> OBJECT_MAX_SIZE ->
  is_int (read_offset p) ->
  0 < n < 2 ^ 64 ->
  read_loop fuel (p :: tl) n temp total rem = Spin.
Proof.
  induction fuel as [|fuel IH]; intros p tl n temp total rem Hro Hrl Hint Hn;
    rewrite read_loop_eq; destruct (Z.gtb_spec n 0) as [_|?]; try lia; cbn [negb];
    [done|].
  cbn zeta. rewrite <- Hro, Z.sub_diag.
  replace (to_int 0) with 0 by reflexivity. replace (to_ulong 0) with 0 by reflexivity.
  destruct (Z.geb_spec n 0) as [_|?]; [|lia].
  cbn [Z.ltb Z.compare]. rewrite Z.add_0_r, Z.sub_0_r.
  rewrite (to_int_small (read_offset p)) by done.
  rewrite (to_ulong_small n) by (unfold is_ulong; lia).
  cbn [read_offset].
  destruct (Z.eqb_spec (read_offset p) OBJECT_MAX_SIZE) as [?|_]; [congruence|].
  apply IH; cbn; [done|congruence|done|done].
Qed.

(** X5: a read of at least one byte on a flow that counts valid bytes while
    the first node of its chain has none left and is not full (the state a
    deferred write leaves when its pages could not be allocated) does not
    return, whatever the iteration budget: each round of the copy loop
    copies 0 bytes and stays on the node, with the mutex held. *)
Theorem dev_read_of_missing_bytes_spins e filp sess s f p tl buff len :
  private_data filp = Some sess ->
  get_flow s (f_minor filp) (priority sess) = Some f ->
  0 < valid_bytes f < 2 ^ 31 ->
  list_heads f = p :: tl ->
  read_offset p = record_length p ->
  record_length p <> OBJECT_MAX_SIZE ->
  is_int (read_offset p) ->
  0 < len < 2 ^ 31 ->
  (Z.to_nat len <= length buff)%nat ->
  kmalloc_ok e = true ->
  trylock1 e = true ->
  dev_read e filp buff len s = Spin.
Proof.
  intros Hsess Hf Hv Hchain Hro Hrl Hint Hlen Hbuf Hk Htl.
  unfold dev_read. rewrite clear_user_whole by lia.
  rewrite Hsess, Htl. cbn.
  rewrite Z.sub_0_r, (to_ulong_small len) by (unfold is_ulong; lia).
  rewrite (try_get_lock_free _ _ _ _ _ Hf). cbn. rewrite Hf. cbn.
  destruct (Z.eqb_spec (valid_bytes f) 0) as [?|_]; [lia|]. cbn.
  unfold dev_read_locked. rewrite Hf, Hk. cbn.
  destruct (Z.eqb_spec (valid_bytes f) 0) as [?|_]; [lia|].
  rewrite (to_ulong_small (valid_bytes f)) by (unfold is_ulong; lia).
  rewrite Hchain, read_loop_spins; [done..|].
  destruct (Z.gtb_spec len (valid_bytes f)); lia.
Qed.

Lemma dev_read_of_missing_bytes_spins_witness :
  private_data (open_file 0 0 0) = Some {| priority := 0; timeout := 0 |}
  /\ get_flow lost_work 0 0 = Some lost_flow
  /\ 0 < valid_bytes lost_flow < 2 ^ 31
  /\ list_heads lost_flow = [new_record]
  /\ dev_read calm (open_file 0 0 0) [x68; x69] 1 lost_work = Spin.
Proof.
  assert (get_flow lost_work 0 0 = Some lost_flow) as Hf by (vm_compute; reflexivity).
  assert (valid_bytes lost_flow = 5000) as Hv by (vm_compute; reflexivity).
  assert (list_heads lost_flow = [new_record]) as Hchain by (vm_compute; reflexivity).
  split; [reflexivity|]. split; [exact Hf|]. split; [rewrite Hv; lia|].
  split; [exact Hchain|].
  apply (dev_read_of_missing_bytes_spins calm (open_file 0 0 0)
           {| priority := 0; timeout := 0 |} lost_work lost_flow new_record []
           [x68; x69] 1);
    [reflexivity | exact Hf | rewrite Hv; lia | exact Hchain | reflexivity
    | discriminate | unfold is_int; simpl; lia | lia | simpl; lia
    | reflexivity | reflexivity].
Defined.

(** ** Writes that run to their end *)

Lemma grow_chain_enough budget : forall temp_len,
  temp_len <= Z.of_nat budget * OBJECT_MAX_SIZE ->
  temp_len < 2 ^ 31 ->
  exists added, grow_chain budget temp_len = (true, added).
Proof.
  unfold OBJECT_MAX_SIZE.
  induction budget as [|budget IH]; intros temp_len Hle Hlt; cbn.
  - destruct (Z.gtb_spec temp_len 0); [lia|]. by exists [].
  - destruct (Z.gtb_spec temp_len 0) as [Hpos|_]; [|by exists []].
    unfold OBJECT_MAX_SIZE.
    rewrite to_int_small by (unfold is_int; lia).
    destruct (IH (temp_len - 4096)) as [added ->]; [lia..|]. by eexists.
Qed.

(** The copy loop of [write_data] runs to its end within [k + 1] rounds. *)
Lemma copy_loop_runs (k : nat) : forall fuel p n buf tot,
  page_ok p -> 0 <= n -> 0 <= tot -> tot + n < 2 ^ 31 ->
  n <= OBJECT_MAX_SIZE - record_length p + Z.of_nat k * OBJECT_MAX_SIZE ->
  ((1 <= k)%nat ->
   OBJECT_MAX_SIZE - record_length p + (Z.of_nat k - 1) * OBJECT_MAX_SIZE < n) ->
  (k < fuel)%nat ->
  exists cur', copy_loop fuel (p :: replicate k new_record) n buf tot = Ret (cur', tot + n).
Proof.
  induction k as [|k IH]; intros fuel p n buf tot Hp Hn Htot Hsum Hup Hlow Hfuel;
    pose proof Hp as (Hro & Hrl & Hlen); unfold OBJECT_MAX_SIZE in *;
    rewrite copy_loop_eq; destruct (Z.gtb_spec n 0) as [Hpos|Hzero]; cbn [negb].
  - destruct fuel as [|fuel]; [lia|]. cbn zeta.
    unfold OBJECT_MAX_SIZE.
    rewrite (to_int_small (4096 - record_length p)) by (unfold is_int; lia).
    rewrite (to_ulong_small (4096 - record_length p)) by (unfold is_ulong; lia).
    destruct (Z.gtb_spec n (4096 - record_length p)) as [Hc1|Hc1]; [lia|].
    rewrite (to_int_small n) by (unfold is_int; lia).
    destruct (Z.ltb_spec n 0) as [Hc3|Hc3]; [lia|].
    rewrite Z.sub_diag. replace (to_ulong 0) with 0 by reflexivity.
    rewrite andb_false_r, copy_loop_done.
    rewrite (to_int_small (tot + n)) by (unfold is_int; lia).
    by eexists.
  - assert (n = 0) as -> by lia. rewrite Z.add_0_r. by eexists.
  - destruct fuel as [|fuel]; [lia|]. cbn zeta. cbn [replicate].
    unfold OBJECT_MAX_SIZE.
    rewrite (to_int_small (4096 - record_length p)) by (unfold is_int; lia).
    rewrite (to_ulong_small (4096 - record_length p)) by (unfold is_ulong; lia).
    specialize (Hlow ltac:(lia)).
    destruct (Z.gtb_spec n (4096 - record_length p)) as [Hc2|Hc2]; [|lia].
    destruct (Z.ltb_spec (4096 - record_length p) 0) as [Hc4|Hc4]; [lia|].
    replace (record_length p + (4096 - record_length p)) with 4096 by lia.
    rewrite (to_int_small 4096) by (unfold is_int; lia).
    rewrite (to_ulong_small (n - (4096 - record_length p))) by (unfold is_ulong; lia).
    rewrite (to_int_small (tot + (4096 - record_length p))) by (unfold is_int; lia).
    rewrite Z.eqb_refl.
    destruct (Z.gtb_spec (n - (4096 - record_length p)) 0) as [Hc5|Hc5]; [|lia].
    cbn [andb].
    destruct (IH fuel new_record (n - (4096 - record_length p)) buf
                (tot + (4096 - record_length p))) as [cur' ->];
      unfold OBJECT_MAX_SIZE; change (record_length new_record) with 0;
      [apply page_ok_new_record|lia..|].
    cbn. eexists. f_equal. f_equal. lia.
  - specialize (Hlow ltac:(lia)). lia.
Qed.

(** With the memory it needs, [write_data] returns the length it was
    given. *)
Lemma write_pages_runs fu bu n buf chain :
  chain_wf chain ->
  0 < n < 2 ^ 31 ->
  (Z.to_nat n <= length buf)%nat ->
  n + OBJECT_MAX_SIZE <= Z.of_nat bu * OBJECT_MAX_SIZE ->
  n + OBJECT_MAX_SIZE <= Z.of_nat fu * OBJECT_MAX_SIZE ->
  exists chain', write_pages fu bu n buf chain = Ret (n, chain').
Proof.
  intros Hwf Hn Hbuf Hbu Hfu. unfold OBJECT_MAX_SIZE in Hbu, Hfu.
  unfold write_pages.
  set (first := match chain with
                | [] => match bu with O => None | S b => Some ([new_record], b) end
                | _ => Some (chain, bu)
                end).
  assert (exists c1 b1, first = Some (c1, b1) /\ chain_wf c1 /\ c1 <> []
                        /\ n <= Z.of_nat b1 * 4096) as (chain1 & budget1 & -> & Hwf1 & Hne1 & Hb1).
  { subst first. destruct chain as [|p tl].
    - destruct bu as [|b]; [lia|]. exists [new_record], b.
      split_and!; [done|apply chain_wf_new_record|done|lia].
    - exists (p :: tl), bu. split_and!; [done|done|done|lia]. }
  destruct Hwf1 as (Hok1 & Hpacked1 & _).
  destruct (packed_split _ Hpacked1 Hne1) as (full & last & -> & Hfull).
  rewrite (last_or_room_packed _ _ Hfull).
  apply Forall_app in Hok1 as [Hokfull Hoklast].
  apply Forall_cons in Hoklast as [Hlast _].
  pose proof Hlast as (Hro & Hrl & Hlen). unfold OBJECT_MAX_SIZE in Hrl.
  unfold OBJECT_MAX_SIZE at 1 2.
  rewrite (to_int_small n) by (unfold is_int; lia).
  rewrite (to_int_small (4096 - record_length last)) by (unfold is_int; lia).
  rewrite (to_int_small (4096 - record_length last - n)) by (unfold is_int; lia).
  rewrite (to_int_small (n - (4096 - record_length last))) by (unfold is_int; lia).
  assert (exists k : nat,
            (if 4096 - record_length last - n <? 0
             then let '(ok, added) := grow_chain budget1 (n - (4096 - record_length last)) in
                  (ok, match added with
                       | [] => full ++ [last]
                       | _ => full ++ last :: added
                       end)
             else (true, full ++ [last]))
            = (true, full ++ last :: replicate k new_record)
            /\ n <= 4096 - record_length last + Z.of_nat k * 4096
            /\ ((1 <= k)%nat -> 4096 - record_length last + (Z.of_nat k - 1) * 4096 < n))
    as (k & -> & Hup & Hlow).
  { destruct (Z.ltb_spec (4096 - record_length last - n) 0) as [Hlt|Hge].
    - destruct (grow_chain_enough budget1 (n - (4096 - record_length last)))
        as [added Hg]; [unfold OBJECT_MAX_SIZE; lia|lia|].
      rewrite Hg.
      pose proof (grow_chain_fresh _ _ _ _ Hg) as Hadded.
      apply grow_chain_count in Hg as [[? _]|[_ Hcount]]; [lia| |lia].
      unfold OBJECT_MAX_SIZE in Hcount.
      exists (length added). rewrite <- Hadded.
      split; [by destruct added|]. lia.
    - exists 0%nat. split; [done|]. lia. }
  cbn [negb].
  assert (k < fu)%nat as Hk by (destruct k; lia).
  destruct (decide (record_length last = OBJECT_MAX_SIZE)) as [Hfullast|Hroom].
  - unfold OBJECT_MAX_SIZE in Hfullast.
    destruct k as [|k]; [lia|]. cbn [replicate].
    replace (full ++ last :: new_record :: replicate k new_record)
      with ((full ++ [last]) ++ new_record :: replicate k new_record)
      by (by rewrite <- app_assoc).
    rewrite skip_full_packed;
      [|apply Forall_app; split; [done|by apply Forall_cons]|done].
    cbn.
    destruct (copy_loop_runs k fu new_record n buf 0) as [cur' Hrun];
      unfold OBJECT_MAX_SIZE; change (record_length new_record) with 0;
      [apply page_ok_new_record|lia..|].
    rewrite Hrun. cbn. by eexists.
  - rewrite skip_full_packed by done. cbn.
    destruct (copy_loop_runs k fu last n buf 0) as [cur' Hrun];
      unfold OBJECT_MAX_SIZE; [done|lia..|].
    rewrite Hrun. cbn. by eexists.
Qed.

Lemma pages_for_less e n n' : pages_for e n -> n' <= n -> pages_for e n'.
Proof. unfold pages_for. lia. Qed.

(** [dev_write] from the comment "Got the lock" on, through a high
    priority session on a flow with free bytes: the first bytes of the
    buffer, as many as fit, are appended. *)
Lemma dev_write_locked_stores e sess m buf len s tr f :
  priority sess = 1 ->
  get_flow s m 1 = Some f ->
  flow_wf f ->
  0 < total_free_bytes f ->
  0 < len < 2 ^ 31 ->
  (Z.to_nat len <= length buf)%nat ->
  pages_for e len ->
  exists f',
    dev_write_locked e sess m buf len s tr
    = Ret (Z.min len (total_free_bytes f),
           with_data_count (put_flow s m 1 f') 1 m (Z.min len (total_free_bytes f)),
           tr ++ leave m 1)
    /\ flow_wf f'
    /\ log_bytes (list_heads f')
       = log_bytes (list_heads f) ++ take (Z.to_nat (Z.min len (total_free_bytes f))) buf
    /\ valid_bytes f' = valid_bytes f + Z.min len (total_free_bytes f)
    /\ total_free_bytes f' = total_free_bytes f - Z.min len (total_free_bytes f).
Proof.
  intros Hp Hf Hwf Hfree Hlen Hbuf Hpages.
  pose proof (flow_wf_bounds _ Hwf) as [Hvb Hfb].
  destruct Hwf as (Hchain & Hv & Hfr & Hsum).
  unfold OBJECT_MAX_SIZE, MAX_PAGES in Hvb, Hfb, Hsum.
  unfold dev_write_locked. rewrite Hp, Hf. cbn.
  destruct (Z.eqb_spec (total_free_bytes f) 0) as [?|_]; [lia|].
  rewrite (to_ulong_small (total_free_bytes f)) by (unfold is_ulong; lia).
  assert ((if len >? total_free_bytes f then total_free_bytes f else len)
          = Z.min len (total_free_bytes f)) as ->
    by (destruct (Z.gtb_spec len (total_free_bytes f)); lia).
  set (n := Z.min len (total_free_bytes f)).
  assert (0 < n <= len /\ n <= total_free_bytes f) as Hn by (subst n; lia).
  destruct Hpages as [Hbu Hfu].
  destruct (write_pages_runs (fuel e) (page_budget e) n buf (list_heads f))
    as [chain' Hrun]; [done|lia|lia|lia|lia|].
  unfold write_data. rewrite Hf. cbn. rewrite Hrun. cbn.
  rewrite (get_put_flow_same _ _ _ _ _ Hf). cbn.
  apply write_pages_appends in Hrun as [Hneg|(_ & Hchain' & Hbytes & Hstored)];
    [unfold ENOMEM in Hneg; lia| |done|lia|lia].
  rewrite (to_int_small n) by (unfold is_int; lia).
  rewrite !to_int_small by (unfold is_int; lia).
  rewrite put_put_flow.
  eexists. split; [done|]. cbn [list_heads valid_bytes total_free_bytes].
  split_and!; [| |done|done].
  - split_and!; cbn; unfold OBJECT_MAX_SIZE, MAX_PAGES; [done|lia|lia|lia].
  - rewrite Hbytes. unfold bytes_at. change (Z.to_nat 0) with 0%nat. by rewrite drop_0.
Qed.

Lemma copy_from_user_fits buff len :
  0 <= len -> (Z.to_nat len <= length buff)%nat ->
  copy_from_user buff len = (0, take (Z.to_nat len) buff).
Proof.
  intros Hlen Hfit. unfold copy_from_user. rewrite length_take. f_equal. lia.
Qed.

Lemma get_flow_with_data_count s p m d m' p' :
  get_flow (with_data_count s p m d) m' p' = get_flow s m' p'.
Proof. done. Qed.

(** [dev_write] through a high priority session on a flow with free
    bytes. *)
Lemma dev_write_stores e filp sess buff len s f :
  private_data filp = Some sess ->
  priority sess = 1 ->
  get_flow s (f_minor filp) 1 = Some f ->
  flow_wf f ->
  0 < total_free_bytes f ->
  0 < len < 2 ^ 31 ->
  (Z.to_nat len <= length buff)%nat ->
  roomy e len ->
  exists s' f',
    dev_write e filp buff len s
    = Ret (Z.min len (total_free_bytes f), s',
           [EvLock (f_minor filp) 1; EvUnlock (f_minor filp) 1; EvWake (f_minor filp) 1])
    /\ get_flow s' (f_minor filp) 1 = Some f'
    /\ flow_wf f'
    /\ log_bytes (list_heads f')
       = log_bytes (list_heads f) ++ take (Z.to_nat (Z.min len (total_free_bytes f))) buff
    /\ valid_bytes f' = valid_bytes f + Z.min len (total_free_bytes f)
    /\ total_free_bytes f' = total_free_bytes f - Z.min len (total_free_bytes f)
    /\ enable_disable_array s' = enable_disable_array s.
Proof.
  intros Hsess Hp Hf Hwf Hfree Hlen Hbuf (Hk & Htl & Hpages).
  unfold dev_write. rewrite Hk, Hsess, Htl. cbn.
  rewrite copy_from_user_fits by lia. cbn.
  rewrite Z.sub_0_r, (to_ulong_small len) by (unfold is_ulong; lia).
  rewrite Hp, (try_get_lock_free _ _ _ _ _ (eq_ind_r (fun p => get_flow _ _ p = _) Hf Hp)).
  cbn. rewrite Hf. cbn.
  destruct (Z.eqb_spec (total_free_bytes f) 0) as [?|_]; [lia|]. cbn. rewrite ?Hp.
  destruct (dev_write_locked_stores e sess (f_minor filp) (take (Z.to_nat len) buff) len s
              [EvLock (f_minor filp) 1] f)
    as (f' & Hrun & Hwf' & Hbytes & Hv' & Hfr');
    [done..|rewrite length_take; lia|done|].
  rewrite Hrun. eexists _, f'. split; [done|].
  split; [rewrite get_flow_with_data_count; by eapply get_put_flow_same|].
  split; [done|]. split; [|split; [done|split; [done|]]].
  - rewrite Hbytes, take_take. do 2 f_equal. lia.
  - cbn [enable_disable_array with_data_count]. by rewrite enable_put_flow.
Qed.

(** X6: a write of [len] bytes (at least one) through a high priority
    session, on a well-formed flow with free bytes, with the mutex free and
    the memory it asks for given, returns the smaller of [len] and the free
    bytes, whatever the timeout of the session; that many bytes from the
    start of the buffer are appended to the bytes of the flow, the free
    count goes down and the valid count up by as much, and the flow is
    well formed again. *)
Theorem dev_write_takes_what_fits e filp sess buff len s f :
  private_data filp = Some sess ->
  priority sess = 1 ->
  get_flow s (f_minor filp) 1 = Some f ->
  flow_wf f ->
  0 < total_free_bytes f ->
  0 < len < 2 ^ 31 ->
  (Z.to_nat len <= length buff)%nat ->
  roomy e len ->
  exists s' f',
    dev_write e filp buff len s
    = Ret (Z.min len (total_free_bytes f), s',
           [EvLock (f_minor filp) 1; EvUnlock (f_minor filp) 1; EvWake (f_minor filp) 1])
    /\ get_flow s' (f_minor filp) 1 = Some f'
    /\ flow_wf f'
    /\ log_bytes (list_heads f')
       = log_bytes (list_heads f) ++ take (Z.to_nat (Z.min len (total_free_bytes f))) buff
    /\ valid_bytes f' = valid_bytes f + Z.min len (total_free_bytes f)
    /\ total_free_bytes f' = total_free_bytes f - Z.min len (total_free_bytes f).
Proof.
  intros Hsess Hp Hf Hwf Hfree Hlen Hbuf Hroomy.
  destruct (dev_write_stores e filp sess buff len s f)
    as (s' & f' & Hrun & Hf' & Hwf' & Hbytes & Hv & Hfr & _); [done..|].
  by exists s', f'.
Qed.

Lemma roomy_calm n : n <= 63 * OBJECT_MAX_SIZE -> roomy calm n.
Proof.
  unfold roomy, pages_for, OBJECT_MAX_SIZE. cbn. lia.
Qed.

Lemma dev_write_takes_what_fits_witness :
  private_data (open_file 0 1 0) = Some {| priority := 1; timeout := 0 |}
  /\ get_flow init_module (f_minor (open_file 0 1 0)) 1 = Some first_flow
  /\ flow_wf first_flow
  /\ 0 < total_free_bytes first_flow
  /\ roomy calm 2
  /\ exists s' f',
       dev_write calm (open_file 0 1 0) [x68; x69] 2 init_module
       = Ret (Z.min 2 (total_free_bytes first_flow), s',
              [EvLock 0 1; EvUnlock 0 1; EvWake 0 1])
       /\ get_flow s' 0 1 = Some f'
       /\ flow_wf f'
       /\ log_bytes (list_heads f')
          = log_bytes (list_heads first_flow)
            ++ take (Z.to_nat (Z.min 2 (total_free_bytes first_flow))) [x68; x69]
       /\ valid_bytes f' = valid_bytes first_flow + Z.min 2 (total_free_bytes first_flow)
       /\ total_free_bytes f'
          = total_free_bytes first_flow - Z.min 2 (total_free_bytes first_flow).
Proof.
  assert (roomy calm 2) as Hroomy by (apply roomy_calm; unfold OBJECT_MAX_SIZE; lia).
  split; [reflexivity|]. split; [reflexivity|]. split; [exact flow_wf_first_flow|].
  split; [simpl; unfold OBJECT_MAX_SIZE, MAX_PAGES; lia|]. split; [exact Hroomy|].
  apply (dev_write_takes_what_fits calm (open_file 0 1 0) {| priority := 1; timeout := 0 |}
           [x68; x69] 2 init_module first_flow);
    [reflexivity | reflexivity | reflexivity | exact flow_wf_first_flow
    | simpl; unfold OBJECT_MAX_SIZE, MAX_PAGES; lia | lia | simpl; lia | exact Hroomy].
Defined.

(** ** Reads of part of what a flow holds *)

(** [dev_read] from the comment "Got the lock" on: the oldest bytes of the
    flow, as many as asked for and there, are delivered and taken off. *)
Lemma dev_read_locked_takes e sess m buff len s tr f :
  get_flow s m (priority sess) = Some f ->
  flow_wf f ->
  kmalloc_ok e = true ->
  (length (list_heads f) <= fuel e)%nat ->
  0 <= len < 2 ^ 31 ->
  (Z.to_nat len <= length buff)%nat ->
  exists s' buff' f',
    dev_read_locked e sess m buff len s tr
    = Ret (Z.min len (valid_bytes f), s', buff', tr ++ leave m (priority sess))
    /\ take (Z.to_nat (Z.min len (valid_bytes f))) buff'
       = take (Z.to_nat (Z.min len (valid_bytes f))) (log_bytes (list_heads f))
    /\ drop (Z.to_nat (Z.min len (valid_bytes f))) buff'
       = drop (Z.to_nat (Z.min len (valid_bytes f))) buff
    /\ get_flow s' m (priority sess) = Some f'
    /\ flow_wf f'
    /\ log_bytes (list_heads f')
       = drop (Z.to_nat (Z.min len (valid_bytes f))) (log_bytes (list_heads f))
    /\ total_free_bytes f' = total_free_bytes f + Z.min len (valid_bytes f).
Proof.
  intros Hf Hwf Hk Hfuel Hlen Hbuf.
  pose proof (flow_wf_bounds _ Hwf) as [Hvb Hfb].
  pose proof Hwf as (Hchain & Hv & Hfr & Hsum).
  pose proof (log_bytes_length _ (proj1 Hchain)) as Hloglen.
  unfold OBJECT_MAX_SIZE, MAX_PAGES in *.
  unfold dev_read_locked. rewrite Hf, Hk. cbn.
  destruct (Z.eqb_spec (valid_bytes f) 0) as [Hz|Hnz].
  { exists s, buff, f. rewrite Hz.
    replace (len `min` 0) with 0 by lia. rewrite Z.add_0_r.
    change (Z.to_nat 0) with 0%nat. by rewrite !drop_0. }
  rewrite (to_ulong_small (valid_bytes f)) by (unfold is_ulong; lia).
  assert ((if len >? valid_bytes f then valid_bytes f else len)
          = Z.min len (valid_bytes f)) as ->
    by (destruct (Z.gtb_spec len (valid_bytes f)); lia).
  set (n := Z.min len (valid_bytes f)).
  assert (0 <= n <= len /\ n <= valid_bytes f) as Hn by (subst n; lia).
  destruct (read_loop_takes (list_heads f) (fuel e) n
              (replicate (Z.to_nat n) x00) 0 0)
    as (cur & temp' & rem' & Hrun & Hrem & Hcurlen & Hremle & Htake & Hlen' & Hwf' & Hbytes & Hstored);
    [done|lia|lia|lia|rewrite length_replicate; lia|done|].
  rewrite Z.add_0_l in Hrun, Htake. rewrite Z.sub_0_r in *.
  rewrite Hrun. cbn.
  assert ((if rem' >? 0 then free_records (Z.to_nat rem') cur else Ret cur)
          = Ret (drop (Z.to_nat rem') cur)) as ->.
  { destruct (Z.gtb_spec rem' 0); [by apply free_records_ok|].
    by replace rem' with 0 by lia. }
  cbn. unfold copy_to_user.
  rewrite (to_ulong_small n) by (unfold is_ulong; lia).
  replace (Z.to_nat n `min` length buff)%nat with (Z.to_nat n) by lia.
  replace (n - Z.of_nat (Z.to_nat n)) with 0 by lia.
  replace (to_int 0) with 0 by reflexivity. rewrite Z.sub_0_r.
  assert (length (take (Z.to_nat n) temp') = Z.to_nat n) as Hmoved.
  { rewrite length_take, Hlen', length_replicate. lia. }
  rewrite Hmoved.
  eexists _, _, _. split; [done|].
  split; [rewrite take_app_length' by done; by rewrite Htake|].
  split; [by rewrite drop_app_length' by done|].
  split; [by eapply get_put_flow_same|].
  rewrite !to_int_small by (unfold is_int; lia).
  split; [|split; [done|done]].
  split_and!; cbn; unfold OBJECT_MAX_SIZE, MAX_PAGES; [done|lia|lia|lia].
Qed.

Lemma flow_wf_pages_held f :
  flow_wf f ->
  Z.of_nat (length (list_heads f)) * OBJECT_MAX_SIZE
  < valid_bytes f + 2 * OBJECT_MAX_SIZE.
Proof.
  intros ((Hok & Hpacked & Hhead) & Hv & Hfr & Hsum). rewrite Hv. clear Hv Hsum Hfr.
  unfold OBJECT_MAX_SIZE in *.
  assert (forall tl, Forall page_ok tl -> packed tl ->
            Forall (fun q => read_offset q = 0) tl ->
            Z.of_nat (length tl) * 4096 <= stored tl + 4096) as Htail.
  { induction tl as [|q tl IH]; intros Hq Hp H0; [cbn; lia|].
    apply Forall_cons in Hq as [(Hro & Hrl & _) Hq].
    apply Forall_cons in H0 as [Hq0 H0].
    unfold OBJECT_MAX_SIZE in *.
    destruct tl as [|q' tl]; [cbn; lia|].
    destruct Hp as [Hfull Hp]. unfold OBJECT_MAX_SIZE in Hfull.
    specialize (IH Hq Hp H0). cbn [length stored] in *. lia. }
  destruct (list_heads f) as [|p tl]; [cbn; lia|].
  apply Forall_cons in Hok as [(Hro & Hrl & _) Hok].
  destruct Hhead as [Hne H0]. unfold OBJECT_MAX_SIZE in *.
  destruct tl as [|q tl]; [cbn; lia|].
  destruct Hpacked as [Hfull Hpacked]. unfold OBJECT_MAX_SIZE in Hfull.
  specialize (Htail _ Hok Hpacked H0). cbn [length stored] in *. lia.
Qed.

Lemma flow_wf_pages f :
  flow_wf f -> (length (list_heads f) <= Z.to_nat (MAX_PAGES + 1))%nat.
Proof.
  intros Hwf. pose proof (flow_wf_pages_held _ Hwf) as Hheld.
  destruct (flow_wf_bounds _ Hwf) as [Hvb _].
  unfold OBJECT_MAX_SIZE, MAX_PAGES in *. lia.
Qed.

(** [dev_read], with nobody else on the device. *)
Lemma dev_read_takes e filp buff len s sess f :
  private_data filp = Some sess ->
  get_flow s (f_minor filp) (priority sess) = Some f ->
  flow_wf f ->
  able e (length (list_heads f)) ->
  0 <= len < 2 ^ 31 ->
  (Z.to_nat len <= length buff)%nat ->
  exists s' buff' tr f',
    dev_read e filp buff len s = Ret (Z.min len (valid_bytes f), s', buff', tr)
    /\ take (Z.to_nat (Z.min len (valid_bytes f))) buff'
       = take (Z.to_nat (Z.min len (valid_bytes f))) (log_bytes (list_heads f))
    /\ get_flow s' (f_minor filp) (priority sess) = Some f'
    /\ flow_wf f'
    /\ log_bytes (list_heads f')
       = drop (Z.to_nat (Z.min len (valid_bytes f))) (log_bytes (list_heads f))
    /\ total_free_bytes f' = total_free_bytes f + Z.min len (valid_bytes f).
Proof.
  intros Hsess Hf Hwf (Hquiet & [Htl1 Htl2] & Hk & Hfuel) Hlen Hbuf.
  unfold dev_read. rewrite clear_user_whole by lia.
  rewrite Hsess, Htl1, Htl2. cbn.
  rewrite Z.sub_0_r, (to_ulong_small len) by (unfold is_ulong; lia).
  rewrite (try_get_lock_free _ _ _ _ _ Hf). cbn. rewrite Hf. cbn.
  set (cleared := replicate (Z.to_nat len) x00 ++ drop (Z.to_nat len) buff).
  assert (Z.to_nat len <= length cleared)%nat as Hcl.
  { subst cleared. rewrite length_app, length_replicate. lia. }
  destruct ((valid_bytes f =? 0) && (timeout sess >? 0)) eqn:Hwait.
  - apply andb_prop in Hwait as [Hz _]. apply Z.eqb_eq in Hz.
    rewrite Hquiet.
    set (s1 := with_wait_data (with_wait_data s (priority sess) (f_minor filp) 1)
                 (priority sess) (f_minor filp) (-1)).
    assert (get_flow s1 (f_minor filp) (priority sess) = Some f) as Hf1 by done.
    destruct (negb (do_sleep_wqe (wait_data e) =? 1)).
    + eexists s1, cleared, _, f. rewrite Hz.
      replace (len `min` 0) with 0 by lia. rewrite Z.add_0_r.
      change (Z.to_nat 0) with 0%nat. by rewrite !drop_0.
    + rewrite (try_get_lock_free _ _ _ _ _ Hf1). cbn.
      destruct (dev_read_locked_takes e sess (f_minor filp) cleared len s1
                  (([EvLock (f_minor filp) (priority sess)]
                    ++ [EvUnlock (f_minor filp) (priority sess);
                        EvSleep (f_minor filp) (priority sess) WAIT_READ])
                   ++ [EvLock (f_minor filp) (priority sess)]) f)
        as (s' & buff' & f' & Hrun & Htake & _ & Hrest); [done..|].
      eexists s', buff', _, f'. split; [exact Hrun|done].
  - destruct (dev_read_locked_takes e sess (f_minor filp) cleared len s
                [EvLock (f_minor filp) (priority sess)] f)
      as (s' & buff' & f' & Hrun & Htake & _ & Hrest); [done..|].
    eexists s', buff', _, f'. split; [exact Hrun|done].
Qed.

(** X7: a read of up to [len] bytes, with nobody else on the device, the
    mutex free and the staging buffer allocated, on a well-formed flow of
    either priority, returns the smaller of [len] and the valid bytes; the
    destination starts with that many of the oldest bytes of the flow, in
    the order they were written; they are taken off the flow, whose free
    count goes up by as much, and the flow is well formed again. *)
Theorem dev_read_takes_the_oldest e filp buff len s sess f :
  private_data filp = Some sess ->
  get_flow s (f_minor filp) (priority sess) = Some f ->
  flow_wf f ->
  able e (length (list_heads f)) ->
  0 <= len < 2 ^ 31 ->
  (Z.to_nat len <= length buff)%nat ->
  exists s' buff' tr f',
    dev_read e filp buff len s = Ret (Z.min len (valid_bytes f), s', buff', tr)
    /\ take (Z.to_nat (Z.min len (valid_bytes f))) buff'
       = take (Z.to_nat (Z.min len (valid_bytes f))) (log_bytes (list_heads f))
    /\ get_flow s' (f_minor filp) (priority sess) = Some f'
    /\ flow_wf f'
    /\ log_bytes (list_heads f')
       = drop (Z.to_nat (Z.min len (valid_bytes f))) (log_bytes (list_heads f))
    /\ total_free_bytes f' = total_free_bytes f + Z.min len (valid_bytes f).
Proof.
  intros Hsess Hf Hwf Hable Hlen Hbuf.
  destruct (dev_read_takes e filp buff len s sess f)
    as (s' & buff' & tr & f' & Hrun & Htake & Hf' & Hwf' & Hbytes & Hfr); [done..|].
  by exists s', buff', tr, f'.
Qed.

Lemma hi_flow_reached : get_flow hi_state 0 1 = Some hi_flow /\ flow_wf hi_flow.
Proof.
  destruct (dev_write_stores calm (open_file 0 1 0) {| priority := 1; timeout := 0 |}
              [x68; x69] 2 init_module first_flow)
    as (s' & f' & Hrun & Hget & Hwf & _);
    [reflexivity | reflexivity | reflexivity | exact flow_wf_first_flow
    | simpl; unfold OBJECT_MAX_SIZE, MAX_PAGES; lia | lia | simpl; lia
    | apply roomy_calm; unfold OBJECT_MAX_SIZE; lia |].
  assert (hi_state = s') as Hs by (unfold hi_state; by rewrite Hrun).
  unfold hi_flow. rewrite Hs. cbn in Hget. by rewrite Hget.
Qed.

Lemma dev_read_takes_the_oldest_witness :
  private_data (open_file 0 1 0) = Some {| priority := 1; timeout := 0 |}
  /\ get_flow hi_state (f_minor (open_file 0 1 0)) 1 = Some hi_flow
  /\ flow_wf hi_flow
  /\ able calm (length (list_heads hi_flow))
  /\ exists s' buff' tr f',
       dev_read calm (open_file 0 1 0) (letters 8) 1 hi_state
       = Ret (Z.min 1 (valid_bytes hi_flow), s', buff', tr)
       /\ take (Z.to_nat (Z.min 1 (valid_bytes hi_flow))) buff'
          = take (Z.to_nat (Z.min 1 (valid_bytes hi_flow))) (log_bytes (list_heads hi_flow))
       /\ get_flow s' 0 1 = Some f'
       /\ flow_wf f'
       /\ log_bytes (list_heads f')
          = drop (Z.to_nat (Z.min 1 (valid_bytes hi_flow))) (log_bytes (list_heads hi_flow))
       /\ total_free_bytes f' = total_free_bytes hi_flow + Z.min 1 (valid_bytes hi_flow).
Proof.
  assert (able calm (length (list_heads hi_flow))) as Hable
    by (apply able_calm; vm_compute; reflexivity).
  split; [reflexivity|]. split; [exact (proj1 hi_flow_reached)|].
  split; [exact (proj2 hi_flow_reached)|]. split; [exact Hable|].
  apply (dev_read_takes_the_oldest calm (open_file 0 1 0) (letters 8) 1 hi_state
           {| priority := 1; timeout := 0 |} hi_flow);
    [reflexivity | exact (proj1 hi_flow_reached) | exact (proj2 hi_flow_reached)
    | exact Hable | lia | simpl; lia].
Defined.

(** ** A flow as a stream of bytes *)

(** A write on a flow with no free byte returns [- ENOSPC], after the sleep
    if the session may sleep, and leaves the flows as they are. *)
Lemma dev_write_full e filp sess buff len s f :
  private_data filp = Some sess ->
  get_flow s (f_minor filp) (priority sess) = Some f ->
  total_free_bytes f = 0 ->
  quiet e -> uncontended e -> kmalloc_ok e = true ->
  exists s' tr,
    dev_write e filp buff len s = Ret (- ENOSPC, s', tr)
    /\ objects s' = objects s.
Proof.
  intros Hsess Hf Hfree Hquiet [Htl1 Htl2] Hk.
  unfold dev_write. rewrite Hk, Hsess, Htl1, Htl2. cbn.
  destruct (copy_from_user buff len) as [ret temp].
  rewrite (try_get_lock_free _ _ _ _ _ Hf). cbn. rewrite Hf. cbn.
  rewrite Hfree. cbn.
  destruct (timeout sess >? 0).
  - rewrite Hquiet.
    set (s1 := with_wait_data (with_wait_data s (priority sess) (f_minor filp) 1)
                 (priority sess) (f_minor filp) (-1)).
    assert (get_flow s1 (f_minor filp) (priority sess) = Some f) as Hf1 by done.
    destruct (negb (do_sleep_wqe (wait_data e) =? 1)); [by eexists _, _|].
    rewrite (try_get_lock_free _ _ _ _ _ Hf1). cbn.
    unfold dev_write_locked. rewrite Hf1. cbn. rewrite Hfree. cbn. by eexists _, _.
  - unfold dev_write_locked. rewrite Hf. cbn. rewrite Hfree. cbn. by eexists _, _.
Qed.

(** Every usable operation keeps the flow well formed, and the bytes put in
    are the bytes got out followed by the bytes still there. *)
Lemma run_stream_inv filp sess ops : forall s f,
  private_data filp = Some sess ->
  priority sess = 1 ->
  get_flow s (f_minor filp) 1 = Some f ->
  flow_wf f ->
  Forall usable ops ->
  exists s' put got f',
    run_stream filp ops s = Some (s', put, got)
    /\ get_flow s' (f_minor filp) 1 = Some f'
    /\ flow_wf f'
    /\ log_bytes (list_heads f) ++ put = got ++ log_bytes (list_heads f').
Proof.
  induction ops as [|[e buff|e buff len] ops IH]; intros s f Hsess Hp Hf Hwf Hops.
  { exists s, [], [], f. by rewrite app_nil_r. }
  - apply Forall_cons in Hops as [(Hquiet & Hunc & Hne & Hlen & Hroomy) Hops].
    assert (0 < Z.of_nat (length buff)) as Hpos by (destruct buff; [done|cbn; lia]).
    cbn [run_stream].
    destruct (decide (total_free_bytes f = 0)) as [Hfull|Hroom].
    + destruct (dev_write_full e filp sess buff (Z.of_nat (length buff)) s f)
        as (s1 & tr & -> & Hobj); [done|by rewrite Hp|done..|apply Hroomy|].
      rewrite <- (get_flow_same_objects _ _ _ _ Hobj) in Hf.
      destruct (IH s1 f Hsess Hp Hf Hwf Hops) as (s' & put & got & f' & -> & Hf' & Hwf' & Heq).
      cbn. by eexists _, _, _, f'.
    + destruct (flow_wf_bounds _ Hwf) as [_ [Hfr _]].
      destruct (dev_write_stores e filp sess buff (Z.of_nat (length buff)) s f)
        as (s1 & f1 & -> & Hf1 & Hwf1 & Hbytes & _); [done..|lia|lia|lia|done|].
      destruct (IH s1 f1 Hsess Hp Hf1 Hwf1 Hops)
        as (s' & put & got & f' & -> & Hf' & Hwf' & Heq).
      cbn. eexists _, _, _, f'. split; [done|]. split; [done|]. split; [done|].
      by rewrite app_assoc, <- Hbytes.
  - apply Forall_cons in Hops as [((Hquiet & Hunc & Hk & Hfuel) & Hlen & Hbuf) Hops].
    pose proof (flow_wf_pages _ Hwf) as Hpages.
    cbn [run_stream].
    destruct (dev_read_takes e filp buff len s sess f)
      as (s1 & buff' & tr & f1 & -> & Htake & Hf1 & Hwf1 & Hbytes & _);
      [done|by rewrite Hp|done| |done|done|].
    { split_and!; [done..|lia]. }
    rewrite Hp in Hf1.
    destruct (IH s1 f1 Hsess Hp Hf1 Hwf1 Hops)
      as (s' & put & got & f' & -> & Hf' & Hwf' & Heq).
    cbn. eexists _, _, _, f'. split; [done|]. split; [done|]. split; [done|].
    rewrite <- app_assoc, <- Heq, Hbytes, Htake, app_assoc.
    by rewrite take_drop.
Qed.

(** X8: through a high priority session on a well-formed flow, any
    sequence of writes of whole buffers and of reads, each one usable
    (nobody else on the device, mutex free, memory given, a write of at
    least one byte), runs to its end, and the flow is first in, first out:
    the bytes the flow held followed by the bytes the writes took (for each
    write, the first [r] bytes of its buffer if it returned [r], nothing if
    it returned [- ENOSPC]) are the bytes the reads delivered, in the order
    of the reads, followed by the bytes the flow holds at the end. *)
Theorem stream_is_first_in_first_out filp sess ops s f :
  private_data filp = Some sess ->
  priority sess = 1 ->
  get_flow s (f_minor filp) 1 = Some f ->
  flow_wf f ->
  Forall usable ops ->
  exists s' put got f',
    run_stream filp ops s = Some (s', put, got)
    /\ get_flow s' (f_minor filp) 1 = Some f'
    /\ log_bytes (list_heads f) ++ put = got ++ log_bytes (list_heads f').
Proof.
  intros Hsess Hp Hf Hwf Hops.
  destruct (run_stream_inv filp sess ops s f Hsess Hp Hf Hwf Hops)
    as (s' & put & got & f' & Hrun & Hf' & _ & Heq).
  by exists s', put, got, f'.
Qed.

Lemma usable_hi_stream : Forall usable hi_stream.
Proof.
  assert (roomy calm 2) as Hroomy by (apply roomy_calm; unfold OBJECT_MAX_SIZE; lia).
  assert (able calm (Z.to_nat (MAX_PAGES + 1))) as Hable
    by (apply able_calm; vm_compute; reflexivity).
  repeat apply Forall_cons_2; [| | | |apply Forall_nil_2].
  - split_and!; [done|done|done|cbn; lia|exact Hroomy].
  - split_and!; [exact Hable|lia|lia|cbn; lia].
  - split_and!; [done|done|done|cbn; lia|exact Hroomy].
  - split_and!; [exact Hable|lia|lia|cbn; lia].
Qed.

Lemma stream_is_first_in_first_out_witness :
  private_data (open_file 0 1 0) = Some {| priority := 1; timeout := 0 |}
  /\ get_flow init_module (f_minor (open_file 0 1 0)) 1 = Some first_flow
  /\ flow_wf first_flow
  /\ Forall usable hi_stream
  /\ exists s' put got f',
       run_stream (open_file 0 1 0) hi_stream init_module = Some (s', put, got)
       /\ get_flow s' 0 1 = Some f'
       /\ log_bytes (list_heads first_flow) ++ put = got ++ log_bytes (list_heads f').
Proof.
  split; [reflexivity|]. split; [reflexivity|]. split; [exact flow_wf_first_flow|].
  split; [exact usable_hi_stream|].
  apply (stream_is_first_in_first_out (open_file 0 1 0) {| priority := 1; timeout := 0 |}
           hi_stream init_module first_flow);
    [reflexivity | reflexivity | reflexivity | exact flow_wf_first_flow
    | exact usable_hi_stream].
Defined.

(** X9: under the same conditions the flow stays well formed: at the end
    its count of valid bytes is the number of bytes its chain holds, valid
    and free bytes add up to OBJECT_MAX_SIZE * MAX_PAGES, and the pages held
    follow the bytes held: a flow with [v] valid bytes has fewer than
    v / OBJECT_MAX_SIZE + 2 nodes, hence never more than MAX_PAGES + 1. *)
Theorem stream_keeps_the_flow_well_formed filp sess ops s f :
  private_data filp = Some sess ->
  priority sess = 1 ->
  get_flow s (f_minor filp) 1 = Some f ->
  flow_wf f ->
  Forall usable ops ->
  exists s' put got f',
    run_stream filp ops s = Some (s', put, got)
    /\ get_flow s' (f_minor filp) 1 = Some f'
    /\ valid_bytes f' = Z.of_nat (length (log_bytes (list_heads f')))
    /\ valid_bytes f' + total_free_bytes f' = OBJECT_MAX_SIZE * MAX_PAGES
    /\ 0 <= total_free_bytes f'
    /\ Z.of_nat (length (list_heads f')) * OBJECT_MAX_SIZE
       < valid_bytes f' + 2 * OBJECT_MAX_SIZE
    /\ (length (list_heads f') <= Z.to_nat (MAX_PAGES + 1))%nat.
Proof.
  intros Hsess Hp Hf Hwf Hops.
  destruct (run_stream_inv filp sess ops s f Hsess Hp Hf Hwf Hops)
    as (s' & put & got & f' & Hrun & Hf' & Hwf' & _).
  exists s', put, got, f'. split; [done|]. split; [done|].
  pose proof (flow_wf_pages _ Hwf') as Hpages.
  pose proof (flow_wf_pages_held _ Hwf') as Hheld.
  destruct Hwf' as ((Hok & _) & Hv & Hfr & Hsum).
  split; [by rewrite log_bytes_length|]. done.
Qed.

Lemma stream_keeps_the_flow_well_formed_witness :
  private_data (open_file 0 1 0) = Some {| priority := 1; timeout := 0 |}
  /\ get_flow init_module (f_minor (open_file 0 1 0)) 1 = Some first_flow
  /\ flow_wf first_flow
  /\ Forall usable hi_stream
  /\ exists s' put got f',
       run_stream (open_file 0 1 0) hi_stream init_module = Some (s', put, got)
       /\ get_flow s' 0 1 = Some f'
       /\ valid_bytes f' = Z.of_nat (length (log_bytes (list_heads f')))
       /\ valid_bytes f' + total_free_bytes f' = OBJECT_MAX_SIZE * MAX_PAGES
       /\ 0 <= total_free_bytes f'
       /\ Z.of_nat (length (list_heads f')) * OBJECT_MAX_SIZE
          < valid_bytes f' + 2 * OBJECT_MAX_SIZE
       /\ (length (list_heads f') <= Z.to_nat (MAX_PAGES + 1))%nat.
Proof.
  split; [reflexivity|]. split; [reflexivity|]. split; [exact flow_wf_first_flow|].
  split; [exact usable_hi_stream|].
  apply (stream_keeps_the_flow_well_formed (open_file 0 1 0)
           {| priority := 1; timeout := 0 |} hi_stream init_module first_flow);
    [reflexivity | reflexivity | reflexivity | exact flow_wf_first_flow
    | exact usable_hi_stream].
Defined.

(** ** The low priority flow: deferred writes *)

Lemma dev_write_defers e filp sess buff len s f :
  private_data filp = Some sess ->
  priority sess = 0 ->
  get_flow s (f_minor filp) 0 = Some f ->
  0 < total_free_bytes f < 2 ^ 31 ->
  0 <= len < 2 ^ 31 ->
  (Z.to_nat len <= length buff)%nat ->
  queues e ->
  dev_write e filp buff len s
  = Ret (Z.min len (total_free_bytes f),
         with_pending
           (put_flow s (f_minor filp) 0
              {| valid_bytes := valid_bytes f;
                 total_free_bytes := total_free_bytes f - Z.min len (total_free_bytes f);
                 list_heads := list_heads f |})
           (pending_work s
            ++ [{| wq_data := take (Z.to_nat len) buff;
                   wq_minor := f_minor filp;
                   wq_len := Z.min len (total_free_bytes f) |}]),
         [EvLock (f_minor filp) 0; EvUnlock (f_minor filp) 0; EvWake (f_minor filp) 0]).
Proof.
  intros Hsess Hp Hf Hfree Hlen Hbuf (Hk & Htl & Hmod & Hwq & Hdata).
  unfold dev_write. rewrite Hk, Hsess, Htl. cbn.
  rewrite copy_from_user_fits by lia. cbn.
  rewrite Z.sub_0_r, (to_ulong_small len) by (unfold is_ulong; lia).
  rewrite Hp, (try_get_lock_free _ _ _ _ _ (eq_ind_r (fun p => get_flow _ _ p = _) Hf Hp)).
  cbn. rewrite Hf. cbn.
  destruct (Z.eqb_spec (total_free_bytes f) 0) as [?|_]; [lia|]. cbn.
  unfold dev_write_locked. rewrite Hp, Hf, Hmod, Hwq, Hdata. cbn.
  destruct (Z.eqb_spec (total_free_bytes f) 0) as [?|_]; [lia|].
  rewrite (to_ulong_small (total_free_bytes f)) by (unfold is_ulong; lia).
  assert ((if len >? total_free_bytes f then total_free_bytes f else len)
          = Z.min len (total_free_bytes f)) as ->
    by (destruct (Z.gtb_spec len (total_free_bytes f)); lia).
  rewrite to_long_small by lia.
  rewrite (to_ulong_small (total_free_bytes f - _)) by (unfold is_ulong; lia).
  by rewrite to_int_small by (unfold is_int; lia).
Qed.

(** X10: a write of [len] bytes through a low priority session on a flow
    with free bytes, with the mutex free and the allocations of the work
    given, returns the smaller of [len] and the free bytes at once; the free
    count is lowered by as much; the valid count and the chain of the flow
    are as before (a read right after finds nothing new); and one work is
    queued behind those already there, with the bytes of the buffer, the
    minor and the length returned. *)
Theorem low_write_only_reserves e filp sess buff len s f :
  private_data filp = Some sess ->
  priority sess = 0 ->
  get_flow s (f_minor filp) 0 = Some f ->
  0 < total_free_bytes f < 2 ^ 31 ->
  0 <= len < 2 ^ 31 ->
  (Z.to_nat len <= length buff)%nat ->
  queues e ->
  exists s' f',
    dev_write e filp buff len s
    = Ret (Z.min len (total_free_bytes f), s',
           [EvLock (f_minor filp) 0; EvUnlock (f_minor filp) 0; EvWake (f_minor filp) 0])
    /\ get_flow s' (f_minor filp) 0 = Some f'
    /\ valid_bytes f' = valid_bytes f
    /\ list_heads f' = list_heads f
    /\ total_free_bytes f' = total_free_bytes f - Z.min len (total_free_bytes f)
    /\ pending_work s'
       = pending_work s
         ++ [{| wq_data := take (Z.to_nat len) buff;
                wq_minor := f_minor filp;
                wq_len := Z.min len (total_free_bytes f) |}].
Proof.
  intros Hsess Hp Hf Hfree Hlen Hbuf Hq.
  rewrite (dev_write_defers e filp sess buff len s f) by done.
  eexists _, _. split; [done|].
  split; [by eapply (get_put_flow_same _ _ _ _ _ Hf)|]. done.
Qed.

Lemma queues_calm : queues calm.
Proof. by split_and!. Qed.

Lemma low_write_only_reserves_witness :
  private_data (open_file 0 0 0) = Some {| priority := 0; timeout := 0 |}
  /\ get_flow init_module (f_minor (open_file 0 0 0)) 0 = Some first_flow
  /\ 0 < total_free_bytes first_flow < 2 ^ 31
  /\ queues calm
  /\ exists s' f',
       dev_write calm (open_file 0 0 0) [x68; x69] 2 init_module
       = Ret (Z.min 2 (total_free_bytes first_flow), s',
              [EvLock 0 0; EvUnlock 0 0; EvWake 0 0])
       /\ get_flow s' 0 0 = Some f'
       /\ valid_bytes f' = valid_bytes first_flow
       /\ list_heads f' = list_heads first_flow
       /\ total_free_bytes f'
          = total_free_bytes first_flow - Z.min 2 (total_free_bytes first_flow)
       /\ pending_work s'
          = pending_work init_module
            ++ [{| wq_data := take (Z.to_nat 2) [x68; x69];
                   wq_minor := 0;
                   wq_len := Z.min 2 (total_free_bytes first_flow) |}].
Proof.
  assert (0 < total_free_bytes first_flow < 2 ^ 31) as Hfree
    by (simpl; unfold OBJECT_MAX_SIZE, MAX_PAGES; lia).
  split; [reflexivity|]. split; [reflexivity|]. split; [exact Hfree|].
  split; [exact queues_calm|].
  apply (low_write_only_reserves calm (open_file 0 0 0) {| priority := 0; timeout := 0 |}
           [x68; x69] 2 init_module first_flow);
    [reflexivity | reflexivity | reflexivity | exact Hfree | lia | simpl; lia
    | exact queues_calm].
Defined.

(** [do_wq_write] with the memory it needs appends the bytes of the work. *)
Lemma do_wq_write_stores e the_wq s f :
  get_flow s (wq_minor the_wq) 0 = Some f ->
  chain_wf (list_heads f) ->
  0 <= valid_bytes f ->
  valid_bytes f + wq_len the_wq < 2 ^ 31 ->
  0 < wq_len the_wq ->
  (Z.to_nat (wq_len the_wq) <= length (wq_data the_wq))%nat ->
  pages_for e (wq_len the_wq) ->
  exists chain',
    do_wq_write e the_wq s
    = Ret (with_data_count
             (put_flow s (wq_minor the_wq) 0
                {| valid_bytes := valid_bytes f + wq_len the_wq;
                   total_free_bytes := total_free_bytes f;
                   list_heads := chain' |})
             0 (wq_minor the_wq) (wq_len the_wq),
           [EvLock (wq_minor the_wq) 0; EvUnlock (wq_minor the_wq) 0;
            EvWake (wq_minor the_wq) 0])
    /\ chain_wf chain'
    /\ log_bytes chain'
       = log_bytes (list_heads f) ++ take (Z.to_nat (wq_len the_wq)) (wq_data the_wq)
    /\ stored chain' = stored (list_heads f) + wq_len the_wq.
Proof.
  intros Hf Hchain Hv Hsum Hn Hbuf [Hbu Hfu].
  unfold do_wq_write, write_data. rewrite Hf. cbn.
  destruct (write_pages_runs (fuel e) (page_budget e) (wq_len the_wq) (wq_data the_wq)
              (list_heads f)) as [chain' Hrun]; [done|lia|done..|].
  rewrite Hrun. cbn. rewrite (get_put_flow_same _ _ _ _ _ Hf). cbn.
  apply write_pages_appends in Hrun as [Hneg|(_ & Hchain' & Hbytes & Hstored)];
    [unfold ENOMEM in Hneg; lia| |done|lia|lia].
  rewrite put_put_flow.
  rewrite (to_ulong_small (valid_bytes f)) by (unfold is_ulong; lia).
  rewrite (to_ulong_small (valid_bytes f + _)) by (unfold is_ulong; lia).
  rewrite to_int_small by (unfold is_int; lia).
  exists chain'. split; [done|]. split; [done|]. split; [|done].
  rewrite Hbytes. unfold bytes_at. change (Z.to_nat 0) with 0%nat. by rewrite drop_0.
Qed.

(** X11: a low priority write followed by the run of its work, with the
    memory it needs, does what a high priority write does at once: on a
    well-formed flow with free bytes, the first [r] bytes of the buffer,
    [r] the smaller of the length and the free bytes, end up appended to the
    bytes of the flow, the flow is well formed again with [r] free bytes
    less, and the work is gone from the queue. *)
Theorem deferred_write_lands e1 e2 filp sess buff len s f :
  private_data filp = Some sess ->
  priority sess = 0 ->
  get_flow s (f_minor filp) 0 = Some f ->
  flow_wf f ->
  0 < total_free_bytes f ->
  0 < len < 2 ^ 31 ->
  (Z.to_nat len <= length buff)%nat ->
  queues e1 ->
  pages_for e2 len ->
  exists s1 s2 f2,
    exec e1 (CallWrite filp buff len) s = Ret s1
    /\ exec e2 (RunWork (length (pending_work s))) s1 = Ret s2
    /\ get_flow s2 (f_minor filp) 0 = Some f2
    /\ flow_wf f2
    /\ log_bytes (list_heads f2)
       = log_bytes (list_heads f) ++ take (Z.to_nat (Z.min len (total_free_bytes f))) buff
    /\ total_free_bytes f2 = total_free_bytes f - Z.min len (total_free_bytes f)
    /\ pending_work s2 = pending_work s.
Proof.
  intros Hsess Hp Hf Hwf Hfree Hlen Hbuf Hq Hpages.
  pose proof (flow_wf_bounds _ Hwf) as [Hvb Hfb].
  pose proof Hwf as (Hchain & Hv & Hfr & Hsum).
  unfold OBJECT_MAX_SIZE, MAX_PAGES in Hvb, Hfb, Hsum.
  set (n := Z.min len (total_free_bytes f)).
  assert (0 < n <= len /\ n <= total_free_bytes f) as Hn by (subst n; lia).
  cbn [exec].
  rewrite (dev_write_defers e1 filp sess buff len s f) by (done || lia).
  fold n. cbn [mbind outcome_bind].
  set (f1 := {| valid_bytes := valid_bytes f;
                total_free_bytes := total_free_bytes f - n;
                list_heads := list_heads f |}).
  set (w := {| wq_data := take (Z.to_nat len) buff;
               wq_minor := f_minor filp; wq_len := n |}).
  set (s1 := with_pending (put_flow s (f_minor filp) 0 f1) (pending_work s ++ [w])).
  assert (pending_work s1 !! length (pending_work s) = Some w) as Hlook
    by (by apply list_lookup_middle).
  assert (delete (length (pending_work s)) (pending_work s1) = pending_work s) as Hdel.
  { cbn [s1 pending_work with_pending]. by rewrite delete_middle, app_nil_r. }
  set (s1' := with_pending s1 (pending_work s)).
  assert (get_flow s1' (wq_minor w) 0 = Some f1) as Hf1
    by (by eapply (get_put_flow_same _ _ _ _ _ Hf)).
  destruct (do_wq_write_stores e2 w s1' f1 Hf1)
    as (chain' & Hrun & Hchain' & Hbytes & Hstored);
    [exact Hchain|unfold f1, w; cbn; lia|unfold f1, w; cbn; lia|unfold f1, w; cbn; lia
    |unfold w; cbn; rewrite length_take; lia
    |unfold w; cbn; eapply pages_for_less; [exact Hpages|lia]|].
  subst s1'.
  eexists s1, _, _. split; [done|].
  split; [by rewrite Hlook, Hdel, Hrun|].
  split; [rewrite get_flow_with_data_count; by eapply (get_put_flow_same _ _ _ _ _ Hf1)|].
  cbn [list_heads total_free_bytes valid_bytes f1 wq_data wq_len w] in *.
  split; [|split; [|split; [done|]]].
  - split_and!; cbn; unfold OBJECT_MAX_SIZE, MAX_PAGES; [done|lia|lia|lia].
  - rewrite Hbytes, take_take. do 2 f_equal. lia.
  - cbn [pending_work with_data_count]. by rewrite pending_put_flow.
Qed.

Lemma pages_for_calm n : n <= 63 * OBJECT_MAX_SIZE -> pages_for calm n.
Proof. unfold pages_for, OBJECT_MAX_SIZE. cbn. lia. Qed.

Lemma deferred_write_lands_witness :
  private_data (open_file 0 0 0) = Some {| priority := 0; timeout := 0 |}
  /\ get_flow init_module (f_minor (open_file 0 0 0)) 0 = Some first_flow
  /\ flow_wf first_flow
  /\ 0 < total_free_bytes first_flow
  /\ queues calm
  /\ pages_for calm 2
  /\ exists s1 s2 f2,
       exec calm (CallWrite (open_file 0 0 0) [x68; x69] 2) init_module = Ret s1
       /\ exec calm (RunWork (length (pending_work init_module))) s1 = Ret s2
       /\ get_flow s2 0 0 = Some f2
       /\ flow_wf f2
       /\ log_bytes (list_heads f2)
          = log_bytes (list_heads first_flow)
            ++ take (Z.to_nat (Z.min 2 (total_free_bytes first_flow))) [x68; x69]
       /\ total_free_bytes f2
          = total_free_bytes first_flow - Z.min 2 (total_free_bytes first_flow)
       /\ pending_work s2 = pending_work init_module.
Proof.
  assert (0 < total_free_bytes first_flow) as Hfree
    by (simpl; unfold OBJECT_MAX_SIZE, MAX_PAGES; lia).
  assert (pages_for calm 2) as Hpages
    by (apply pages_for_calm; unfold OBJECT_MAX_SIZE; lia).
  split; [reflexivity|]. split; [reflexivity|]. split; [exact flow_wf_first_flow|].
  split; [exact Hfree|]. split; [exact queues_calm|]. split; [exact Hpages|].
  apply (deferred_write_lands calm calm (open_file 0 0 0) {| priority := 0; timeout := 0 |}
           [x68; x69] 2 init_module first_flow);
    [reflexivity | reflexivity | reflexivity | exact flow_wf_first_flow | exact Hfree
    | lia | simpl; lia | exact queues_calm | exact Hpages].
Defined.

(** ** What a call makes of the state *)

Lemma to_int_of_ulong a : to_int (to_ulong a) = to_int a.
Proof.
  apply to_int_shift. destruct (to_ulong_spec a) as [k ->]. by exists k.
Qed.

Lemma to_int_add_l a b : to_int (to_int a + b) = to_int (a + b).
Proof.
  apply to_int_shift. destruct (to_int_spec a) as [k ->]. exists k. lia.
Qed.

Lemma dev_write_locked_writes_to e sess m buf len s tr r s' tr' :
  dev_write_locked e sess m buf len s tr = Ret (r, s', tr') ->
  writes_to m (priority sess) s s'.
Proof.
  unfold dev_write_locked. intros H. unbind H.
  destruct (total_free_bytes a =? 0); [injection H as <- <- <-; by apply wt_nothing|].
  destruct (Z.eqb_spec (priority sess) 0) as [Hp|Hp].
  - rewrite Hp in Hl |- *.
    destruct (module_get_ok e); cbn in H; [|injection H as <- <- <-; by apply wt_nothing].
    destruct (wq_alloc_ok e); cbn in H; [|injection H as <- <- <-; by apply wt_nothing].
    destruct (wq_data_ok e); cbn in H; [|injection H as <- <- <-; by apply wt_nothing].
    injection H as <- <- <-. by eapply wt_defer.
  - destruct (get_flow_prio _ _ _ _ Hl) as [?|Hp1]; [done|]. rewrite Hp1 in *.
    unbind H. destruct a0 as [written s1].
    apply write_data_Ret in Hl0 as (f & chain & Hf & Hw & ->).
    unbind H. injection H as <- <- <-.
    rewrite (get_put_flow_same _ _ _ _ _ Hf) in Hl0. injection Hl0 as <-.
    rewrite put_put_flow. eapply wt_flow; [exact Hf| |reflexivity]. done.
Qed.

Lemma dev_read_locked_writes_to e sess m buf len s tr r s' buf' tr' :
  dev_read_locked e sess m buf len s tr = Ret (r, s', buf', tr') ->
  writes_to m (priority sess) s s'.
Proof.
  unfold dev_read_locked. intros H. unbind H.
  destruct (valid_bytes a =? 0); [injection H as <- <- <- <-; by apply wt_nothing|].
  destruct (kmalloc_ok e); cbn in H; [|injection H as <- <- <- <-; by apply wt_nothing].
  unbind H. destruct a0 as [[[chain temp] total] rem]. unbind H.
  destruct (copy_to_user _ _ _) as [ret buff2]. injection H as <- <- <- <-.
  eapply wt_flow; [exact Hl| |reflexivity]. cbn. by rewrite Z.add_opp_r.
Qed.

Lemma do_wq_write_writes_to e the_wq s s' tr :
  do_wq_write e the_wq s = Ret (s', tr) -> writes_to (wq_minor the_wq) 0 s s'.
Proof.
  unfold do_wq_write. intros H. unbind H. destruct a as [r s1].
  apply write_data_Ret in Hl as (f & chain & Hf & Hw & ->).
  unbind H. injection H as <- <-.
  rewrite (get_put_flow_same _ _ _ _ _ Hf) in Hl. injection Hl as <-.
  rewrite put_put_flow. eapply wt_flow; [exact Hf| |reflexivity]. cbn.
  rewrite to_int_of_ulong. apply to_int_shift.
  destruct (to_ulong_spec (valid_bytes f)) as [k ->]. exists k. lia.
Qed.

Lemma dev_write_writes_to e filp sess buff len s r s' tr :
  private_data filp = Some sess ->
  dev_write e filp buff len s = Ret (r, s', tr) ->
  exists s0, starts e s s0 /\ writes_to (f_minor filp) (priority sess) s0 s'.
Proof.
  intros Hsess. unfold dev_write. rewrite Hsess. intros H.
  destruct (kmalloc_ok e); cbn in H.
  2:{ injection H as <- <- <-. exists s. split; [by left|by apply wt_nothing]. }
  destruct (copy_from_user buff len) as [ret temp]. cbn in H.
  unbind H. destruct a as [got tr1].
  destruct (negb (got =? 1)).
  { injection H as <- <- <-. exists s. split; [by left|by apply wt_nothing]. }
  unbind H.
  destruct ((total_free_bytes a =? 0) && (timeout sess >? 0)).
  - cbn in H. exists (after_sleep e sess (f_minor filp) s).
    split; [right; eauto|].
    destruct (negb (do_sleep_wqe (wait_data e) =? 1));
      [injection H as <- <- <-; by apply wt_nothing|].
    unbind H. destruct a0 as [got2 tr2].
    destruct (negb (got2 =? 1)); [injection H as <- <- <-; by apply wt_nothing|].
    by eapply dev_write_locked_writes_to.
  - exists s. split; [by left|]. by eapply dev_write_locked_writes_to.
Qed.

Lemma dev_read_writes_to e filp sess buff len s r s' buff' tr :
  private_data filp = Some sess ->
  dev_read e filp buff len s = Ret (r, s', buff', tr) ->
  exists s0, starts e s s0 /\ writes_to (f_minor filp) (priority sess) s0 s'.
Proof.
  intros Hsess. unfold dev_read. destruct (clear_user buff len) as [ret cleared].
  rewrite Hsess. intros H. cbn in H. unbind H. destruct a as [got tr1].
  destruct (negb (got =? 1)).
  { injection H as <- <- <- <-. exists s. split; [by left|by apply wt_nothing]. }
  unbind H.
  destruct ((valid_bytes a =? 0) && (timeout sess >? 0)).
  - cbn in H. exists (after_sleep e sess (f_minor filp) s).
    split; [right; eauto|].
    destruct (negb (do_sleep_wqe (wait_data e) =? 1));
      [injection H as <- <- <- <-; by apply wt_nothing|].
    unbind H. destruct a0 as [got2 tr2].
    destruct (negb (got2 =? 1)); [injection H as <- <- <- <-; by apply wt_nothing|].
    by eapply dev_read_locked_writes_to.
  - exists s. split; [by left|]. by eapply dev_read_locked_writes_to.
Qed.

Lemma dev_ioctl_writes_to e filp command param s r filp' s' tr m p :
  dev_ioctl e filp command param s = Ret (r, filp', s', tr) -> writes_to m p s s'.
Proof.
  unfold dev_ioctl. intros H. unbind H. cbn in H. unbind H. destruct a0 as [got tr1].
  destruct (negb (got =? 1)); [injection H as <- <- <- <-; by apply wt_nothing|].
  destruct (command =? SET_PRIO); [injection H as <- <- <- <-; by apply wt_nothing|].
  destruct (command =? SET_BLOCKING); [injection H as <- <- <- <-; by apply wt_nothing|].
  destruct (command =? SET_OPENCLOSE); injection H as <- <- <- <-;
    [by eapply wt_enable|by apply wt_nothing].
Qed.

(** Every step works on one state and one flow. *)
Lemma exec_writes_to e c s s' :
  exec e c s = Ret s' ->
  exists s0,
    works_on e c s s0
    /\ match call_flow c s with
       | Some (m, p) => writes_to m p s0 s'
       | None => s' = s0
       end.
Proof.
  destruct c as [f|f|f buff len|f buff len|f command param|k]; cbn; intros H.
  - unbind H. injection H as <-. exists s. split; [by left|done].
  - injection H as <-. exists s. split; [by left|done].
  - unbind H. destruct a as [[r s1] tr]. injection H as <-.
    destruct (private_data f) as [sess|] eqn:Hsess; cbn.
    + by eapply dev_write_writes_to.
    + unfold dev_write in Hl. rewrite Hsess in Hl.
      destruct (kmalloc_ok e); cbn in Hl.
      * by destruct (copy_from_user buff len).
      * injection Hl as _ <- _. exists s. split; [by left|done].
  - unbind H. destruct a as [[[r s1] buff'] tr]. injection H as <-.
    destruct (private_data f) as [sess|] eqn:Hsess; cbn.
    + by eapply dev_read_writes_to.
    + unfold dev_read in Hl. rewrite Hsess in Hl.
      by destruct (clear_user buff len).
  - unbind H. destruct a as [[[r filp'] s1] tr]. injection H as <-.
    destruct (private_data f) as [sess|] eqn:Hsess; cbn.
    + exists s. split; [by left|]. by eapply dev_ioctl_writes_to.
    + unfold dev_ioctl in Hl. by rewrite Hsess in Hl.
  - destruct (pending_work s !! k) as [the_wq|] eqn:Hk; cbn.
    + unbind H. destruct a as [s1 tr]. injection H as <-.
      eexists. split; [done|]. by eapply do_wq_write_writes_to.
    + injection H as <-. by exists s.
Qed.

Lemma at_index_add_at_same l m d c :
  at_index l m = Some c -> at_index (add_at l m d) m = Some (to_ulong (c + d)).
Proof.
  intros Hc. unfold add_at. rewrite Hc. by eapply at_index_set_same.
Qed.

Lemma at_index_add_at_other l m d m' :
  m <> m' -> at_index (add_at l m d) m' = at_index l m'.
Proof.
  intros Hne. unfold add_at. destruct (at_index l m); [|done].
  by apply at_index_set_other.
Qed.

Lemma add_at_back l m : Forall is_ulong l -> add_at (add_at l m 1) m (- 1) = l.
Proof.
  intros Hall. unfold add_at at 1.
  destruct (at_index l m) as [c|] eqn:Hc.
  - erewrite at_index_add_at_same by done.
    unfold add_at. rewrite Hc, set_index_twice.
    assert (is_ulong c) as Hu.
    { unfold at_index in Hc. destruct (m <? 0); [done|].
      by eapply Forall_lookup_1 in Hall. }
    replace (to_ulong (to_ulong (c + 1) + - 1)) with c; [by apply set_index_id|].
    unfold to_ulong, is_ulong in *.
    destruct (decide (c = 2 ^ 64 - 1)) as [->|]; [done|].
    rewrite (Z.mod_small (c + 1)) by lia. rewrite Z.mod_small; lia.
  - unfold add_at at 1. rewrite Hc. unfold add_at. by rewrite Hc.
Qed.

Lemma high_wait_put_flow s m p f : high_wait_data (put_flow s m p f) = high_wait_data s.
Proof. unfold put_flow. by destruct (at_index (objects s) m). Qed.

Lemma low_wait_put_flow s m p f : low_wait_data (put_flow s m p f) = low_wait_data s.
Proof. unfold put_flow. by destruct (at_index (objects s) m). Qed.

Lemma data_count_put_flow s m p f q : data_count (put_flow s m p f) q = data_count s q.
Proof. unfold data_count. by rewrite low_count_put_flow, high_count_put_flow. Qed.

Lemma counts_agree_same s s' :
  objects s' = objects s ->
  high_data_count s' = high_data_count s ->
  low_data_count s' = low_data_count s ->
  counts_agree s -> counts_agree s'.
Proof.
  intros Hobj Hhigh Hlow Hc m p f Hf.
  rewrite (get_flow_same_objects _ _ _ _ Hobj) in Hf.
  unfold data_count. rewrite Hhigh, Hlow. by apply Hc.
Qed.

(** A call keeps the byte counters in step with [valid_bytes]. *)
Lemma writes_to_counts m p s0 s' :
  writes_to m p s0 s' -> counts_agree s0 -> counts_agree s'.
Proof.
  intros [->| l -> |f free the_wq -> Hf -> |f f' d Hf Hv ->] Hc; [done|done| |].
  - eapply (counts_agree_same (put_flow s0 m 0 _)); [done..|].
    intros m' p' f' Hf'. rewrite data_count_put_flow.
    destruct (decide (m = m' /\ 0 = p')) as [[<- <-]|Hne].
    + rewrite (get_put_flow_same _ _ _ _ _ Hf) in Hf'. injection Hf' as <-.
      cbn [valid_bytes]. by apply Hc.
    + rewrite get_put_flow_other in Hf' by (destruct (decide (m = m')); tauto).
      by apply Hc.
  - intros m' p' g Hg. rewrite get_flow_with_data_count in Hg.
    destruct (get_flow_prio _ _ _ _ Hf) as [Hp|Hp];
      destruct (get_flow_prio _ _ _ _ Hg) as [Hp'|Hp']; subst p p';
      unfold data_count; cbn [with_data_count high_data_count low_data_count Z.eqb];
      rewrite ?high_count_put_flow, ?low_count_put_flow.
    + (* the low flow changed, the low flow looked at *)
      destruct (decide (m = m')) as [<-|Hne].
      * rewrite (get_put_flow_same _ _ _ _ _ Hf) in Hg. injection Hg as <-.
        destruct (Hc _ _ _ Hf) as (c & Hat & Hcv). unfold data_count in Hat. cbn in Hat.
        exists (to_ulong (c + d)). split; [by apply at_index_add_at_same|].
        by rewrite to_int_of_ulong, Hv, <- Hcv, to_int_add_l.
      * rewrite get_put_flow_other in Hg by auto.
        rewrite at_index_add_at_other by done. by apply (Hc _ 0).
    + rewrite get_put_flow_other in Hg by (right; lia). by apply (Hc _ 1).
    + rewrite get_put_flow_other in Hg by (right; lia). by apply (Hc _ 0).
    + destruct (decide (m = m')) as [<-|Hne].
      * rewrite (get_put_flow_same _ _ _ _ _ Hf) in Hg. injection Hg as <-.
        destruct (Hc _ _ _ Hf) as (c & Hat & Hcv). unfold data_count in Hat. cbn in Hat.
        exists (to_ulong (c + d)). split; [by apply at_index_add_at_same|].
        by rewrite to_int_of_ulong, Hv, <- Hcv, to_int_add_l.
      * rewrite get_put_flow_other in Hg by auto.
        rewrite at_index_add_at_other by done. by apply (Hc _ 1).
Qed.

Lemma writes_to_waiters m p s0 s' :
  writes_to m p s0 s' ->
  high_wait_data s' = high_wait_data s0 /\ low_wait_data s' = low_wait_data s0.
Proof.
  intros [->| l -> |f free the_wq -> Hf -> |f f' d Hf Hv ->]; [done|done|..]; cbn;
    by rewrite high_wait_put_flow, low_wait_put_flow.
Qed.

Lemma writes_to_others m p s0 s' m' p' :
  writes_to m p s0 s' ->
  m' <> m \/ p' <> p ->
  get_flow s' m' p' = get_flow s0 m' p'.
Proof.
  intros [->| l -> |f free the_wq -> Hf -> |f f' d Hf Hv ->] Hne; [done|done|..].
  - change (get_flow (put_flow s0 m 0 {| valid_bytes := valid_bytes f;
                                        total_free_bytes := free;
                                        list_heads := list_heads f |}) m' p'
            = get_flow s0 m' p').
    apply get_put_flow_other. destruct Hne; auto.
  - rewrite get_flow_with_data_count. apply get_put_flow_other. destruct Hne; auto.
Qed.

Lemma counts_agree_init : counts_agree init_module.
Proof.
  intros m p f. unfold get_flow, at_index, init_module. cbn.
  destruct (m <? 0) eqn:Hm; [done|].
  destruct (replicate _ _ !! _) as [o|] eqn:Ho; [|done].
  apply lookup_replicate in Ho as [-> Hlt].
  unfold flow_at. cbn. intros Hf. exists 0. split.
  - unfold data_count. cbn.
    destruct (p =? 0); by apply lookup_replicate.
  - destruct (p =? 0); [by injection Hf as <-|].
    destruct (p =? 1); [by injection Hf as <-|done].
Qed.

(** X12: every step keeps the byte counters of the module parameters in
    step with the flows: [low_data_count[minor]] and
    [high_data_count[minor]], taken as [int]s, are the [valid_bytes] of the
    low and of the high priority flow of [minor], whatever the step returns
    and whether its allocations succeed or not. *)
Theorem steps_keep_counts e c s s' :
  counts_agree s ->
  (forall d, counts_agree d -> counts_agree (interfere e d)) ->
  exec e c s = Ret s' ->
  counts_agree s'.
Proof.
  intros Hc Hrely Hexec.
  apply exec_writes_to in Hexec as (s0 & Hon & Hto).
  assert (counts_agree s0) as Hc0.
  { destruct c as [f|f|f buff len|f buff len|f command param|k]; cbn in Hon;
      try (destruct Hon as [->|(sess & m & ->)]; [done|by apply Hrely]).
    destruct (pending_work s !! k); by subst s0. }
  destruct (call_flow c s) as [[m p]|]; [by eapply writes_to_counts|by subst s'].
Qed.

Lemma steps_keep_counts_witness :
  counts_agree init_module
  /\ (forall d, counts_agree d -> counts_agree (interfere calm d))
  /\ exec calm low_write_hi init_module = Ret (step_to calm low_write_hi init_module)
  /\ counts_agree (step_to calm low_write_hi init_module).
Proof.
  split; [exact counts_agree_init|]. split; [intros d Hd; exact Hd|].
  split; [exact low_write_hi_runs|].
  apply (steps_keep_counts calm low_write_hi init_module
           (step_to calm low_write_hi init_module));
    [exact counts_agree_init | intros d Hd; exact Hd | exact low_write_hi_runs].
Defined.

Lemma works_on_objects e c s s0 :
  quiet e -> works_on e c s s0 -> objects s0 = objects s.
Proof.
  intros Hquiet Hon.
  assert (starts e s s0 -> objects s0 = objects s) as Hstarts.
  { intros [->|(sess & m & ->)]; [done|]. unfold after_sleep. by rewrite Hquiet. }
  destruct c as [f|f|f buff len|f buff len|f command param|k]; cbn in Hon; auto.
  destruct (pending_work s !! k); by subst s0.
Qed.

Lemma works_on_quiet e c s s0 :
  quiet e -> waiters_ok s -> works_on e c s s0 ->
  objects s0 = objects s
  /\ high_wait_data s0 = high_wait_data s
  /\ low_wait_data s0 = low_wait_data s.
Proof.
  intros Hquiet [Hhigh Hlow] Hon.
  assert (starts e s s0 ->
          objects s0 = objects s
          /\ high_wait_data s0 = high_wait_data s
          /\ low_wait_data s0 = low_wait_data s) as Hstarts.
  { intros [->|(sess & m & ->)]; [done|].
    unfold after_sleep. rewrite Hquiet. cbn.
    destruct (priority sess =? 0); by rewrite add_at_back. }
  destruct c as [f|f|f buff len|f buff len|f command param|k]; cbn in Hon; auto.
  destruct (pending_work s !! k); by subst s0.
Qed.

(** X13: with nobody else on the device, every step leaves the counters of
    sleeping threads, [high_wait_data] and [low_wait_data], as it found
    them: a call that sleeps for data or space raises the counter of its
    flow and lowers it again when the sleep ends, with data, with the
    timeout or with a signal. *)
Theorem steps_restore_waiters e c s s' :
  quiet e ->
  waiters_ok s ->
  exec e c s = Ret s' ->
  high_wait_data s' = high_wait_data s /\ low_wait_data s' = low_wait_data s.
Proof.
  intros Hquiet Hok Hexec.
  apply exec_writes_to in Hexec as (s0 & Hon & Hto).
  destruct (works_on_quiet e c s s0 Hquiet Hok Hon) as (_ & Hhigh & Hlow).
  destruct (call_flow c s) as [[m p]|].
  - apply writes_to_waiters in Hto as [-> ->]. done.
  - by subst s'.
Qed.

Lemma waiters_ok_init : waiters_ok init_module.
Proof. split; apply Forall_replicate; unfold is_ulong; lia. Qed.

Lemma blocking_read_runs :
  exec (sleeping 0) blocking_read init_module
  = Ret (step_to (sleeping 0) blocking_read init_module).
Proof. apply step_to_Ret. vm_compute. reflexivity. Qed.

Lemma steps_restore_waiters_witness :
  quiet (sleeping 0)
  /\ waiters_ok init_module
  /\ exec (sleeping 0) blocking_read init_module
     = Ret (step_to (sleeping 0) blocking_read init_module)
  /\ high_wait_data (step_to (sleeping 0) blocking_read init_module)
     = high_wait_data init_module
  /\ low_wait_data (step_to (sleeping 0) blocking_read init_module)
     = low_wait_data init_module.
Proof.
  split; [intros d; reflexivity|]. split; [exact waiters_ok_init|].
  split; [exact blocking_read_runs|].
  apply (steps_restore_waiters (sleeping 0) blocking_read init_module
           (step_to (sleeping 0) blocking_read init_module));
    [intros d; reflexivity | exact waiters_ok_init | exact blocking_read_runs].
Defined.

(** X14: with nobody else on the device, a step changes no flow but the
    one it works on: a read, a write or an ioctl leaves alone every flow
    but that of the minor of its file and the priority of its session, the
    run of a work every flow but the low priority flow of the minor of the
    work, and an open or a release every flow. *)
Theorem steps_touch_one_flow e c s s' minor prio :
  quiet e ->
  exec e c s = Ret s' ->
  (forall m p, call_flow c s = Some (m, p) -> minor <> m \/ prio <> p) ->
  get_flow s' minor prio = get_flow s minor prio.
Proof.
  intros Hquiet Hexec Hother.
  apply exec_writes_to in Hexec as (s0 & Hon & Hto).
  pose proof (works_on_objects e c s s0 Hquiet Hon) as Hobj.
  rewrite <- (get_flow_same_objects _ _ minor prio Hobj).
  destruct (call_flow c s) as [[m p]|]; [|by subst s'].
  eapply writes_to_others; [done|]. by apply Hother.
Qed.

Lemma high_write_hi_runs :
  exec calm high_write_hi init_module = Ret (step_to calm high_write_hi init_module).
Proof. apply step_to_Ret. vm_compute. reflexivity. Qed.

Lemma steps_touch_one_flow_witness :
  quiet calm
  /\ exec calm high_write_hi init_module = Ret (step_to calm high_write_hi init_module)
  /\ (forall m p, call_flow high_write_hi init_module = Some (m, p) -> 0 <> m \/ 0 <> p)
  /\ get_flow (step_to calm high_write_hi init_module) 0 0 = get_flow init_module 0 0.
Proof.
  assert (forall m p, call_flow high_write_hi init_module = Some (m, p) -> 0 <> m \/ 0 <> p)
    as Hother by (intros m p [= <- <-]; right; discriminate).
  split; [intros d; reflexivity|].
  split; [exact high_write_hi_runs|]. split; [exact Hother|].
  apply (steps_touch_one_flow calm high_write_hi init_module
           (step_to calm high_write_hi init_module) 0 0);
    [intros d; reflexivity | exact high_write_hi_runs | exact Hother].
Defined.

(** ** A write that is refused its pages *)

Lemma grow_chain_short budget : forall temp_len,
  Z.of_nat budget * OBJECT_MAX_SIZE < temp_len ->
  temp_len < 2 ^ 31 ->
  exists k : nat, grow_chain budget temp_len = (false, replicate k new_record).
Proof.
  unfold OBJECT_MAX_SIZE.
  induction budget as [|budget IH]; intros temp_len Hlt Hint; cbn.
  - destruct (Z.gtb_spec temp_len 0); [|lia]. by exists 0%nat.
  - destruct (Z.gtb_spec temp_len 0) as [Hpos|?]; [|lia].
    unfold OBJECT_MAX_SIZE. rewrite to_int_small by (unfold is_int; lia).
    destruct (IH (temp_len - 4096)) as [k ->]; [lia..|]. by exists (S k).
Qed.

Lemma log_bytes_new_records k : log_bytes (replicate k new_record) = [].
Proof. induction k as [|k IH]; [done|]. cbn [replicate]. by rewrite log_bytes_cons, IH. Qed.

(** When the allocator gives fewer pages than the bytes need beyond the
    room in the last node, [write_data] returns [- ENOMEM]; the nodes it
    linked before the failure stay in the chain, empty. *)
Lemma write_pages_short fu bu n buf chain :
  chain_wf chain ->
  0 < n < 2 ^ 31 ->
  Z.of_nat bu * OBJECT_MAX_SIZE < n - room_left chain ->
  exists chain',
    write_pages fu bu n buf chain = Ret (- ENOMEM, chain')
    /\ log_bytes chain' = log_bytes chain.
Proof.
  intros (Hok & Hpacked & _) Hn Hbu. unfold OBJECT_MAX_SIZE in Hbu.
  unfold write_pages.
  destruct (decide (chain = [])) as [->|Hne].
  - unfold room_left in Hbu. cbn in Hbu.
    destruct bu as [|bu]; [by eexists|].
    cbn [last_or_room]. change (record_length new_record) with 0.
    unfold OBJECT_MAX_SIZE.
    rewrite (to_int_small n) by (unfold is_int; lia).
    rewrite (to_int_small (4096 - 0)) by (unfold is_int; lia).
    rewrite (to_int_small (4096 - 0 - n)) by (unfold is_int; lia).
    rewrite (to_int_small (n - (4096 - 0))) by (unfold is_int; lia).
    destruct (Z.ltb_spec (4096 - 0 - n) 0) as [_|?]; [|lia].
    destruct (grow_chain_short bu (n - (4096 - 0))) as [k ->];
      [unfold OBJECT_MAX_SIZE; lia|lia|].
    cbn [negb]. eexists. split; [done|].
    destruct k as [|k]; [done|]. cbn [app replicate].
    by rewrite !log_bytes_cons, log_bytes_new_records.
  - destruct (packed_split _ Hpacked Hne) as (full & last & -> & Hfull).
    unfold room_left in Hbu. rewrite last_snoc in Hbu.
    apply Forall_app in Hok as [_ Hoklast].
    apply Forall_cons in Hoklast as [(Hro & Hrl & _) _]. unfold OBJECT_MAX_SIZE in *.
    destruct (full ++ [last]) as [|q l] eqn:E; [by destruct full|]. rewrite <- E.
    rewrite (last_or_room_packed _ _ Hfull).
    rewrite (to_int_small n) by (unfold is_int; lia).
    rewrite (to_int_small (4096 - record_length last)) by (unfold is_int; lia).
    rewrite (to_int_small (4096 - record_length last - n)) by (unfold is_int; lia).
    rewrite (to_int_small (n - (4096 - record_length last))) by (unfold is_int; lia).
    destruct (Z.ltb_spec (4096 - record_length last - n) 0) as [_|?]; [|lia].
    destruct (grow_chain_short bu (n - (4096 - record_length last))) as [k ->];
      [unfold OBJECT_MAX_SIZE; lia|lia|].
    cbn [negb]. eexists. split; [done|].
    destruct k as [|k]; [done|]. cbn [replicate].
    rewrite !log_bytes_app, !log_bytes_cons, log_bytes_new_records.
    by rewrite page_bytes_new_record.
Qed.

(** X15: a write through a high priority session that needs more pages
    than the allocator gives (beyond the room in the last node) returns
    [- ENOMEM] and appends no byte; all the same [dev_write] adds the value
    returned by [write_data] to the counters: the valid bytes of the flow go
    down by ENOMEM (12) and its free bytes up by 12. *)
Theorem high_write_refused_pages e filp sess buff len s f :
  private_data filp = Some sess ->
  priority sess = 1 ->
  get_flow s (f_minor filp) 1 = Some f ->
  flow_wf f ->
  0 < total_free_bytes f ->
  0 < len < 2 ^ 31 ->
  (Z.to_nat len <= length buff)%nat ->
  kmalloc_ok e = true ->
  trylock1 e = true ->
  Z.of_nat (page_budget e) * OBJECT_MAX_SIZE
    < Z.min len (total_free_bytes f) - room_left (list_heads f) ->
  exists s' f',
    dev_write e filp buff len s
    = Ret (- ENOMEM, s',
           [EvLock (f_minor filp) 1; EvUnlock (f_minor filp) 1; EvWake (f_minor filp) 1])
    /\ get_flow s' (f_minor filp) 1 = Some f'
    /\ log_bytes (list_heads f') = log_bytes (list_heads f)
    /\ valid_bytes f' = valid_bytes f - ENOMEM
    /\ total_free_bytes f' = total_free_bytes f + ENOMEM.
Proof.
  intros Hsess Hp Hf Hwf Hfree Hlen Hbuf Hk Htl Hshort.
  pose proof (flow_wf_bounds _ Hwf) as [Hvb Hfb].
  destruct Hwf as (Hchain & Hv & Hfr & Hsum).
  unfold OBJECT_MAX_SIZE, MAX_PAGES in Hvb, Hfb, Hsum.
  unfold dev_write. rewrite Hk, Hsess, Htl. cbn.
  rewrite copy_from_user_fits by lia. cbn.
  rewrite Z.sub_0_r, (to_ulong_small len) by (unfold is_ulong; lia).
  rewrite Hp, (try_get_lock_free _ _ _ _ _ (eq_ind_r (fun p => get_flow _ _ p = _) Hf Hp)).
  cbn. rewrite Hf. cbn.
  destruct (Z.eqb_spec (total_free_bytes f) 0) as [?|_]; [lia|]. cbn.
  unfold dev_write_locked. rewrite Hp, Hf. cbn.
  destruct (Z.eqb_spec (total_free_bytes f) 0) as [?|_]; [lia|].
  rewrite (to_ulong_small (total_free_bytes f)) by (unfold is_ulong; lia).
  assert ((if len >? total_free_bytes f then total_free_bytes f else len)
          = Z.min len (total_free_bytes f)) as ->
    by (destruct (Z.gtb_spec len (total_free_bytes f)); lia).
  destruct (write_pages_short (fuel e) (page_budget e) (Z.min len (total_free_bytes f))
              (take (Z.to_nat len) buff) (list_heads f))
    as (chain' & Hrun & Hbytes); [done|lia|done|].
  unfold write_data. rewrite Hf. cbn. rewrite Hrun. cbn.
  rewrite (get_put_flow_same _ _ _ _ _ Hf). cbn.
  replace (to_int (- ENOMEM)) with (- ENOMEM) by reflexivity.
  rewrite put_put_flow. unfold ENOMEM in *.
  rewrite !to_int_small by (unfold is_int; lia).
  eexists _, _. split; [done|].
  split; [rewrite get_flow_with_data_count; by eapply get_put_flow_same|].
  cbn [list_heads valid_bytes total_free_bytes]. split; [done|]. lia.
Qed.

Lemma high_write_refused_pages_witness :
  private_data (open_file 0 1 0) = Some {| priority := 1; timeout := 0 |}
  /\ get_flow init_module (f_minor (open_file 0 1 0)) 1 = Some first_flow
  /\ flow_wf first_flow
  /\ 0 < total_free_bytes first_flow
  /\ (Z.to_nat 5000 <= length (letters (Z.to_nat 5000)))%nat
  /\ Z.of_nat (page_budget no_pages) * OBJECT_MAX_SIZE
     < Z.min 5000 (total_free_bytes first_flow) - room_left (list_heads first_flow)
  /\ exists s' f',
       dev_write no_pages (open_file 0 1 0) (letters (Z.to_nat 5000)) 5000 init_module
       = Ret (- ENOMEM, s', [EvLock 0 1; EvUnlock 0 1; EvWake 0 1])
       /\ get_flow s' 0 1 = Some f'
       /\ log_bytes (list_heads f') = log_bytes (list_heads first_flow)
       /\ valid_bytes f' = valid_bytes first_flow - ENOMEM
       /\ total_free_bytes f' = total_free_bytes first_flow + ENOMEM.
Proof.
  assert (0 < total_free_bytes first_flow) as Hfree
    by (simpl; unfold OBJECT_MAX_SIZE, MAX_PAGES; lia).
  assert (Z.to_nat 5000 <= length (letters (Z.to_nat 5000)))%nat as Hbuf
    by (unfold letters; rewrite length_replicate; lia).
  assert (Z.of_nat (page_budget no_pages) * OBJECT_MAX_SIZE
          < Z.min 5000 (total_free_bytes first_flow) - room_left (list_heads first_flow))
    as Hshort by (apply Z.ltb_lt; vm_compute; reflexivity).
  split; [reflexivity|]. split; [reflexivity|]. split; [exact flow_wf_first_flow|].
  split; [exact Hfree|]. split; [exact Hbuf|]. split; [exact Hshort|].
  apply (high_write_refused_pages no_pages (open_file 0 1 0)
           {| priority := 1; timeout := 0 |} (letters (Z.to_nat 5000)) 5000
           init_module first_flow);
    [reflexivity | reflexivity | reflexivity | exact flow_wf_first_flow | exact Hfree
    | lia | exact Hbuf | reflexivity | reflexivity | exact Hshort].
Defined.

(** ** A writer that slept for space *)

(** X16: a write through a high priority session that may sleep, on a flow
    with no free byte, releases the mutex and sleeps; when the sleep ends
    with a value that [do_sleep_wqe] reads as space being there again (as an
    [int] it is neither 0 nor [- ERESTARTSYS]), it takes the mutex anew and
    stores into the flow as the other threads left it: it returns the
    smaller of its length and the free bytes found then, and appends that
    many bytes of its buffer to the bytes found then. *)
Theorem woken_writer_stores e filp sess buff len s f f1 :
  private_data filp = Some sess ->
  priority sess = 1 ->
  0 < timeout sess ->
  get_flow s (f_minor filp) 1 = Some f ->
  total_free_bytes f = 0 ->
  to_int (wait_data e) <> 0 ->
  to_int (wait_data e) <> - ERESTARTSYS ->
  trylock2 e = true ->
  get_flow (after_sleep e sess (f_minor filp) s) (f_minor filp) 1 = Some f1 ->
  flow_wf f1 ->
  0 < total_free_bytes f1 ->
  0 < len < 2 ^ 31 ->
  (Z.to_nat len <= length buff)%nat ->
  roomy e len ->
  exists s' f',
    dev_write e filp buff len s
    = Ret (Z.min len (total_free_bytes f1), s',
           [EvLock (f_minor filp) 1; EvUnlock (f_minor filp) 1;
            EvSleep (f_minor filp) 1 WAIT_WRITE;
            EvLock (f_minor filp) 1; EvUnlock (f_minor filp) 1;
            EvWake (f_minor filp) 1])
    /\ get_flow s' (f_minor filp) 1 = Some f'
    /\ flow_wf f'
    /\ log_bytes (list_heads f')
       = log_bytes (list_heads f1)
         ++ take (Z.to_nat (Z.min len (total_free_bytes f1))) buff.
Proof.
  intros Hsess Hp Htmo Hf Hfull Hw0 Hwsig Htl2 Hf1 Hwf1 Hfree1 Hlen Hbuf (Hk & Htl & Hpages).
  unfold dev_write. rewrite Hk, Hsess, Htl, Htl2. cbn.
  rewrite copy_from_user_fits by lia. cbn.
  rewrite Z.sub_0_r, (to_ulong_small len) by (unfold is_ulong; lia).
  rewrite Hp, (try_get_lock_free _ _ _ _ _ (eq_ind_r (fun p => get_flow _ _ p = _) Hf Hp)).
  cbn. rewrite Hf. cbn. rewrite Hfull. cbn.
  destruct (Z.gtb_spec (timeout sess) 0) as [_|?]; [|lia].
  rewrite (do_sleep_wqe_woken _ Hw0 Hwsig).
  cbn. rewrite ?Hp.
  assert (after_sleep e sess (f_minor filp) s
          = with_wait_data (interfere e (with_wait_data s 1 (f_minor filp) 1)) 1
              (f_minor filp) (- 1)) as Hs1 by (unfold after_sleep; by rewrite Hp).
  rewrite Hs1 in Hf1.
  rewrite (try_get_lock_free _ _ _ _ _ (eq_ind_r (fun p => get_flow _ _ p = _) Hf1 Hp)).
  cbn. rewrite ?Hp.
  destruct (dev_write_locked_stores e sess (f_minor filp) (take (Z.to_nat len) buff) len
              (with_wait_data (interfere e (with_wait_data s 1 (f_minor filp) 1)) 1
                 (f_minor filp) (- 1))
              [EvLock (f_minor filp) 1; EvUnlock (f_minor filp) 1;
               EvSleep (f_minor filp) 1 WAIT_WRITE; EvLock (f_minor filp) 1] f1)
    as (f' & Hrun & Hwf' & Hbytes & _);
    [done..|rewrite length_take; lia|done|].
  rewrite Hrun. eexists _, f'. split; [done|].
  split; [rewrite get_flow_with_data_count; by eapply get_put_flow_same|].
  split; [done|]. rewrite Hbytes, take_take. do 2 f_equal. lia.
Qed.

Lemma woken_writer_stores_witness :
  private_data (open_file 0 1 5) = Some {| priority := 1; timeout := 5 |}
  /\ get_flow full_high (f_minor (open_file 0 1 5)) 1 = Some full_flow
  /\ total_free_bytes full_flow = 0
  /\ to_int (wait_data drained) <> 0
  /\ to_int (wait_data drained) <> - ERESTARTSYS
  /\ get_flow (after_sleep drained {| priority := 1; timeout := 5 |} 0 full_high) 0 1
     = Some first_flow
  /\ flow_wf first_flow
  /\ roomy drained 2
  /\ exists s' f',
       dev_write drained (open_file 0 1 5) [x68; x69] 2 full_high
       = Ret (Z.min 2 (total_free_bytes first_flow), s',
              [EvLock 0 1; EvUnlock 0 1; EvSleep 0 1 WAIT_WRITE;
               EvLock 0 1; EvUnlock 0 1; EvWake 0 1])
       /\ get_flow s' 0 1 = Some f'
       /\ flow_wf f'
       /\ log_bytes (list_heads f')
          = log_bytes (list_heads first_flow)
            ++ take (Z.to_nat (Z.min 2 (total_free_bytes first_flow))) [x68; x69].
Proof.
  assert (get_flow full_high 0 1 = Some full_flow) as Hf by (vm_compute; reflexivity).
  assert (total_free_bytes full_flow = 0) as Hfull by (vm_compute; reflexivity).
  assert (get_flow (after_sleep drained {| priority := 1; timeout := 5 |} 0 full_high) 0 1
          = Some first_flow) as Hf1 by (vm_compute; reflexivity).
  assert (roomy drained 2) as Hroomy
    by (unfold roomy, pages_for, OBJECT_MAX_SIZE; cbn; lia).
  split; [reflexivity|]. split; [exact Hf|]. split; [exact Hfull|].
  split; [discriminate|]. split; [discriminate|]. split; [exact Hf1|].
  split; [exact flow_wf_first_flow|]. split; [exact Hroomy|].
  apply (woken_writer_stores drained (open_file 0 1 5) {| priority := 1; timeout := 5 |}
           [x68; x69] 2 full_high full_flow first_flow);
    [reflexivity | reflexivity | simpl; lia | exact Hf | exact Hfull | discriminate
    | discriminate | reflexivity | exact Hf1 | exact flow_wf_first_flow
    | simpl; unfold OBJECT_MAX_SIZE, MAX_PAGES; lia | lia | simpl; lia | exact Hroomy].
Defined.

(** ** Disabling an endpoint *)

Lemma get_flow_with_enable s l m p : get_flow (with_enable s l) m p = get_flow s m p.
Proof. done. Qed.

(** X17: an ioctl SET_OPENCLOSE with an argument other than 0 returns 0 and
    disables the minor of its file: from then on every open of that minor
    returns -1.  The sessions that are open stay usable: a write through a
    high priority session returns the smaller of its length and the free
    bytes and appends that many bytes of its buffer, as before. *)
Theorem disabling_stops_opens_not_sessions e1 e3 filp sess s flag f buff len param :
  private_data filp = Some sess ->
  priority sess = 1 ->
  get_flow s (f_minor filp) 1 = Some f ->
  flow_wf f ->
  0 < total_free_bytes f ->
  0 < len < 2 ^ 31 ->
  (Z.to_nat len <= length buff)%nat ->
  f_minor filp < MINORS ->
  at_index (enable_disable_array s) (f_minor filp) = Some flag ->
  param <> 0 ->
  trylock1 e1 = true ->
  roomy e3 len ->
  exists s1 tr,
    dev_ioctl e1 filp SET_OPENCLOSE param s = Ret (0, filp, s1, tr)
    /\ (forall e2 filp2,
          f_minor filp2 = f_minor filp -> dev_open e2 filp2 s1 = Ret (- 1, filp2))
    /\ exists s2 f2 tr2,
         dev_write e3 filp buff len s1 = Ret (Z.min len (total_free_bytes f), s2, tr2)
         /\ get_flow s2 (f_minor filp) 1 = Some f2
         /\ log_bytes (list_heads f2)
            = log_bytes (list_heads f)
              ++ take (Z.to_nat (Z.min len (total_free_bytes f))) buff.
Proof.
  intros Hsess Hp Hf Hwf Hfree Hlen Hbuf Hminor Hflag Hparam Htl Hroomy.
  unfold dev_ioctl. rewrite Hsess, Htl. cbn.
  rewrite Hp, (try_get_lock_free _ _ _ _ _ (eq_ind_r (fun p => get_flow _ _ p = _) Hf Hp)).
  cbn. eexists _, _. split; [done|]. split.
  - intros e2 filp2 Hsame. unfold dev_open. rewrite Hsame.
    destruct (Z.geb_spec (f_minor filp) MINORS) as [?|_]; [lia|].
    cbn [enable_disable_array with_enable].
    rewrite (at_index_set_same _ _ _ _ Hflag). cbn.
    by destruct (Z.eqb_spec param 0).
  - destruct (dev_write_stores e3 filp sess buff len
                (with_enable s (set_index (enable_disable_array s) (f_minor filp) param)) f)
      as (s2 & f2 & Hrun & Hf2 & _ & Hbytes & _); [done..|].
    by eexists _, _, _.
Qed.

Lemma disabling_stops_opens_not_sessions_witness :
  private_data (open_file 0 1 0) = Some {| priority := 1; timeout := 0 |}
  /\ get_flow init_module (f_minor (open_file 0 1 0)) 1 = Some first_flow
  /\ flow_wf first_flow
  /\ at_index (enable_disable_array init_module) (f_minor (open_file 0 1 0)) = Some 0
  /\ roomy calm 2
  /\ exists s1 tr,
       dev_ioctl calm (open_file 0 1 0) SET_OPENCLOSE 1 init_module
       = Ret (0, open_file 0 1 0, s1, tr)
       /\ (forall e2 filp2,
             f_minor filp2 = 0 -> dev_open e2 filp2 s1 = Ret (- 1, filp2))
       /\ exists s2 f2 tr2,
            dev_write calm (open_file 0 1 0) [x68; x69] 2 s1
            = Ret (Z.min 2 (total_free_bytes first_flow), s2, tr2)
            /\ get_flow s2 0 1 = Some f2
            /\ log_bytes (list_heads f2)
               = log_bytes (list_heads first_flow)
                 ++ take (Z.to_nat (Z.min 2 (total_free_bytes first_flow))) [x68; x69].
Proof.
  assert (roomy calm 2) as Hroomy by (apply roomy_calm; unfold OBJECT_MAX_SIZE; lia).
  split; [reflexivity|]. split; [reflexivity|]. split; [exact flow_wf_first_flow|].
  split; [reflexivity|]. split; [exact Hroomy|].
  apply (disabling_stops_opens_not_sessions calm calm (open_file 0 1 0)
           {| priority := 1; timeout := 0 |} init_module 0 first_flow [x68; x69] 2 1);
    [reflexivity | reflexivity | reflexivity | exact flow_wf_first_flow
    | simpl; unfold OBJECT_MAX_SIZE, MAX_PAGES; lia | lia | simpl; lia
    | simpl; unfold MINORS; lia | reflexivity | discriminate | reflexivity
    | exact Hroomy].
Defined.

(** ** Bytes and sessions *)

(** X18: the bytes belong to the device file, not to the session that
    wrote them: after a write of a whole buffer through a high priority
    session on an empty well-formed flow, the release of the file and an
    open of the same minor (enabled) give a new session, with the default
    priority 1, through which a read of as many bytes returns exactly the
    buffer written through the first session. *)
Theorem bytes_outlive_the_session e1 e2 e3 filp sess buff dest s f :
  private_data filp = Some sess ->
  priority sess = 1 ->
  get_flow s (f_minor filp) 1 = Some f ->
  flow_wf f ->
  valid_bytes f = 0 ->
  buff <> [] ->
  Z.of_nat (length buff) <= total_free_bytes f ->
  (length buff <= length dest)%nat ->
  f_minor filp < MINORS ->
  at_index (enable_disable_array s) (f_minor filp) = Some 0 ->
  roomy e1 (Z.of_nat (length buff)) ->
  kmalloc_ok e2 = true ->
  able e3 (Z.to_nat (MAX_PAGES + 1)) ->
  exists s1 tr1 filp2 s2 dest' tr2,
    dev_write e1 filp buff (Z.of_nat (length buff)) s
    = Ret (Z.of_nat (length buff), s1, tr1)
    /\ dev_release filp s1 = Ret (0, s1)
    /\ dev_open e2 (closed_file (f_minor filp)) s1 = Ret (0, filp2)
    /\ dev_read e3 filp2 dest (Z.of_nat (length buff)) s1
       = Ret (Z.of_nat (length buff), s2, dest', tr2)
    /\ take (length buff) dest' = buff.
Proof.
  intros Hsess Hp Hf Hwf Hempty Hne Hfits Hdest Hminor Hflag Hroomy Hk2 Hable.
  pose proof (flow_wf_bounds _ Hwf) as [_ Hfb]. unfold OBJECT_MAX_SIZE, MAX_PAGES in Hfb.
  assert (0 < Z.of_nat (length buff)) as Hpos by (destruct buff; [done|cbn; lia]).
  destruct (dev_write_stores e1 filp sess buff (Z.of_nat (length buff)) s f)
    as (s1 & f1 & Hrun & Hf1 & Hwf1 & Hbytes & Hv1 & _ & Hen); [done..|lia|lia|lia|done|].
  rewrite Z.min_l in Hrun, Hbytes, Hv1 by done.
  rewrite Nat2Z.id, take_ge in Hbytes by done.
  rewrite (log_bytes_empty (list_heads f)) in Hbytes;
    [|apply Hwf|destruct Hwf as (_ & <- & _); done].
  set (filp2 := {| f_minor := f_minor filp;
                   private_data := Some {| priority := 1; timeout := 0 |} |}).
  destruct (dev_read_takes e3 filp2 dest (Z.of_nat (length buff)) s1
              {| priority := 1; timeout := 0 |} f1)
    as (s2 & dest' & tr2 & f2 & Hread & Htake & _); [done|done|done| |lia|lia|].
  { destruct Hable as (? & ? & ? & ?). pose proof (flow_wf_pages _ Hwf1).
    split_and!; [done..|lia]. }
  rewrite Hv1, Hempty, Z.add_0_l, Z.min_id in Htake, Hread.
  rewrite Nat2Z.id, Hbytes, (take_ge buff) in Htake by done.
  exists s1, [EvLock (f_minor filp) 1; EvUnlock (f_minor filp) 1; EvWake (f_minor filp) 1],
    filp2, s2, dest', tr2.
  split; [done|]. split; [done|]. split; [|by split].
  unfold dev_open, closed_file. cbn [f_minor].
  destruct (Z.geb_spec (f_minor filp) MINORS) as [?|_]; [lia|].
  rewrite Hen, Hflag. cbn. by rewrite Hk2.
Qed.

Lemma bytes_outlive_the_session_witness :
  private_data (open_file 0 1 0) = Some {| priority := 1; timeout := 0 |}
  /\ get_flow init_module (f_minor (open_file 0 1 0)) 1 = Some first_flow
  /\ flow_wf first_flow
  /\ at_index (enable_disable_array init_module) (f_minor (open_file 0 1 0)) = Some 0
  /\ roomy calm (Z.of_nat (length [x68; x69]))
  /\ able calm (Z.to_nat (MAX_PAGES + 1))
  /\ exists s1 tr1 filp2 s2 dest' tr2,
       dev_write calm (open_file 0 1 0) [x68; x69] (Z.of_nat (length [x68; x69])) init_module
       = Ret (Z.of_nat (length [x68; x69]), s1, tr1)
       /\ dev_release (open_file 0 1 0) s1 = Ret (0, s1)
       /\ dev_open calm (closed_file 0) s1 = Ret (0, filp2)
       /\ dev_read calm filp2 (letters 8) (Z.of_nat (length [x68; x69])) s1
          = Ret (Z.of_nat (length [x68; x69]), s2, dest', tr2)
       /\ take (length [x68; x69]) dest' = [x68; x69].
Proof.
  assert (roomy calm (Z.of_nat (length [x68; x69]))) as Hroomy
    by (apply roomy_calm; unfold OBJECT_MAX_SIZE; cbn; lia).
  assert (able calm (Z.to_nat (MAX_PAGES + 1))) as Hable
    by (apply able_calm; vm_compute; reflexivity).
  split; [reflexivity|]. split; [reflexivity|]. split; [exact flow_wf_first_flow|].
  split; [reflexivity|]. split; [exact Hroomy|]. split; [exact Hable|].
  apply (bytes_outlive_the_session calm calm calm (open_file 0 1 0)
           {| priority := 1; timeout := 0 |} [x68; x69] (letters 8) init_module first_flow);
    [reflexivity | reflexivity | reflexivity | exact flow_wf_first_flow | reflexivity
    | discriminate | simpl; unfold OBJECT_MAX_SIZE, MAX_PAGES; lia | simpl; lia
    | simpl; unfold MINORS; lia | reflexivity | exact Hroomy | reflexivity | exact Hable].
Defined.

(** ** A reader that slept for data *)

(** X20: a read through a session that may sleep, on a flow with no valid
    byte, releases the mutex and sleeps; when the sleep ends with a value
    that [do_sleep_wqe] reads as bytes being there (as an [int] it is
    neither 0 nor [- ERESTARTSYS]), it takes the mutex anew and reads from
    the flow as the other threads left it: it returns the smaller of its
    length and the valid bytes found then, and delivers that many of the
    oldest bytes found then. *)
Theorem woken_reader_delivers e filp sess buff len s f f1 :
  private_data filp = Some sess ->
  0 < timeout sess ->
  get_flow s (f_minor filp) (priority sess) = Some f ->
  valid_bytes f = 0 ->
  to_int (wait_data e) <> 0 ->
  to_int (wait_data e) <> - ERESTARTSYS ->
  trylock1 e = true ->
  trylock2 e = true ->
  kmalloc_ok e = true ->
  get_flow (after_sleep e sess (f_minor filp) s) (f_minor filp) (priority sess) = Some f1 ->
  flow_wf f1 ->
  (length (list_heads f1) <= fuel e)%nat ->
  0 <= len < 2 ^ 31 ->
  (Z.to_nat len <= length buff)%nat ->
  exists s' buff',
    dev_read e filp buff len s
    = Ret (Z.min len (valid_bytes f1), s', buff',
           [EvLock (f_minor filp) (priority sess); EvUnlock (f_minor filp) (priority sess);
            EvSleep (f_minor filp) (priority sess) WAIT_READ;
            EvLock (f_minor filp) (priority sess); EvUnlock (f_minor filp) (priority sess);
            EvWake (f_minor filp) (priority sess)])
    /\ take (Z.to_nat (Z.min len (valid_bytes f1))) buff'
       = take (Z.to_nat (Z.min len (valid_bytes f1))) (log_bytes (list_heads f1)).
Proof.
  intros Hsess Htmo Hf Hempty Hw0 Hwsig Htl1 Htl2 Hk Hf1 Hwf1 Hfuel Hlen Hbuf.
  unfold dev_read. rewrite clear_user_whole by lia.
  rewrite Hsess, Htl1, Htl2. cbn.
  rewrite Z.sub_0_r, (to_ulong_small len) by (unfold is_ulong; lia).
  rewrite (try_get_lock_free _ _ _ _ _ Hf). cbn. rewrite Hf. cbn. rewrite Hempty. cbn.
  destruct (Z.gtb_spec (timeout sess) 0) as [_|?]; [|lia].
  rewrite (do_sleep_wqe_woken _ Hw0 Hwsig).
  cbn. unfold after_sleep in Hf1.
  rewrite (try_get_lock_free _ _ _ _ _ Hf1). cbn.
  set (cleared := replicate (Z.to_nat len) x00 ++ drop (Z.to_nat len) buff).
  assert (Z.to_nat len <= length cleared)%nat as Hcl.
  { subst cleared. rewrite length_app, length_replicate. lia. }
  destruct (dev_read_locked_takes e sess (f_minor filp) cleared len
              (with_wait_data
                 (interfere e (with_wait_data s (priority sess) (f_minor filp) 1))
                 (priority sess) (f_minor filp) (- 1))
              [EvLock (f_minor filp) (priority sess); EvUnlock (f_minor filp) (priority sess);
               EvSleep (f_minor filp) (priority sess) WAIT_READ;
               EvLock (f_minor filp) (priority sess)] f1)
    as (s' & buff' & f' & Hrun & Htake & _); [done..|].
  rewrite Hrun. by eexists _, _.
Qed.

Lemma woken_reader_delivers_witness :
  private_data (open_file 0 1 5) = Some {| priority := 1; timeout := 5 |}
  /\ get_flow init_module (f_minor (open_file 0 1 5)) 1 = Some first_flow
  /\ valid_bytes first_flow = 0
  /\ to_int (wait_data served) <> 0
  /\ to_int (wait_data served) <> - ERESTARTSYS
  /\ get_flow (after_sleep served {| priority := 1; timeout := 5 |} 0 init_module) 0 1
     = Some hi_flow
  /\ flow_wf hi_flow
  /\ (length (list_heads hi_flow) <= fuel served)%nat
  /\ exists s' buff',
       dev_read served (open_file 0 1 5) (letters 8) 8 init_module
       = Ret (Z.min 8 (valid_bytes hi_flow), s', buff',
              [EvLock 0 1; EvUnlock 0 1; EvSleep 0 1 WAIT_READ;
               EvLock 0 1; EvUnlock 0 1; EvWake 0 1])
       /\ take (Z.to_nat (Z.min 8 (valid_bytes hi_flow))) buff'
          = take (Z.to_nat (Z.min 8 (valid_bytes hi_flow))) (log_bytes (list_heads hi_flow)).
Proof.
  assert (get_flow (after_sleep served {| priority := 1; timeout := 5 |} 0 init_module) 0 1
          = Some hi_flow) as Hf1 by (vm_compute; reflexivity).
  assert (length (list_heads hi_flow) <= fuel served)%nat as Hfuel
    by (apply Nat.leb_le; vm_compute; reflexivity).
  split; [reflexivity|]. split; [reflexivity|]. split; [reflexivity|].
  split; [discriminate|]. split; [discriminate|]. split; [exact Hf1|].
  split; [exact (proj2 hi_flow_reached)|]. split; [exact Hfuel|].
  apply (woken_reader_delivers served (open_file 0 1 5) {| priority := 1; timeout := 5 |}
           (letters 8) 8 init_module first_flow hi_flow);
    [reflexivity | simpl; lia | reflexivity | reflexivity | discriminate | discriminate
    | reflexivity | reflexivity | reflexivity | exact Hf1 | exact (proj2 hi_flow_reached)
    | exact Hfuel | lia | simpl; lia].
Defined.

(** ** Allocations that fail before anything is done *)

(** X21: on a flow with free bytes a write returns [- ENOMEM] without
    asking for the mutex when its staging buffer is refused, and through a
    low priority session [- ENODEV] when [try_module_get] fails and -1 when
    the work cannot be allocated (the module reference is put back first);
    on a flow with valid bytes a read returns [- ENOMEM] when its staging
    buffer is refused.  In each case the state is as before (nothing is
    reserved) and a mutex that was taken is released with a wake-up. *)
Theorem refused_allocations_change_nothing e filp sess buff len s f :
  private_data filp = Some sess ->
  get_flow s (f_minor filp) (priority sess) = Some f ->
  trylock1 e = true ->
  (kmalloc_ok e = false -> dev_write e filp buff len s = Ret (- ENOMEM, s, []))
  /\ (kmalloc_ok e = false -> valid_bytes f <> 0 ->
      dev_read e filp buff len s
      = Ret (- ENOMEM, s, (clear_user buff len).2,
             [EvLock (f_minor filp) (priority sess)]
             ++ leave (f_minor filp) (priority sess)))
  /\ (kmalloc_ok e = true -> priority sess = 0 -> total_free_bytes f <> 0 ->
      (module_get_ok e = false ->
       dev_write e filp buff len s
       = Ret (- ENODEV, s, [EvLock (f_minor filp) 0] ++ leave (f_minor filp) 0))
      /\ (module_get_ok e = true -> wq_alloc_ok e = false ->
          dev_write e filp buff len s
          = Ret (- 1, s, [EvLock (f_minor filp) 0] ++ leave (f_minor filp) 0))).
Proof.
  intros Hsess Hf Htl. split_and!.
  - intros Hk. unfold dev_write. by rewrite Hk.
  - intros Hk Hv. unfold dev_read. destruct (clear_user buff len) as [ret cleared].
    rewrite Hsess, Htl. cbn. rewrite (try_get_lock_free _ _ _ _ _ Hf). cbn.
    rewrite Hf. cbn.
    destruct (Z.eqb_spec (valid_bytes f) 0) as [?|_]; [done|]. cbn.
    unfold dev_read_locked. rewrite Hf, Hk. cbn.
    by destruct (Z.eqb_spec (valid_bytes f) 0).
  - intros Hk Hp Hfree.
    assert (forall r,
              dev_write_locked e sess (f_minor filp) (copy_from_user buff len).2
                (to_ulong (len - (copy_from_user buff len).1)) s
                [EvLock (f_minor filp) (priority sess)]
              = Ret (r, s, [EvLock (f_minor filp) 0] ++ leave (f_minor filp) 0) ->
              dev_write e filp buff len s
              = Ret (r, s, [EvLock (f_minor filp) 0] ++ leave (f_minor filp) 0)) as Hvia.
    { intros r Hrun. unfold dev_write. rewrite Hk, Hsess, Htl. cbn.
      destruct (copy_from_user buff len) as [ret temp]. cbn in *.
      rewrite (try_get_lock_free _ _ _ _ _ Hf). cbn. rewrite Hf. cbn.
      destruct (Z.eqb_spec (total_free_bytes f) 0) as [?|_]; [done|]. cbn. exact Hrun. }
    split_and!; intros; apply Hvia; unfold dev_write_locked; rewrite Hf; cbn;
      (destruct (Z.eqb_spec (total_free_bytes f) 0) as [?|_]; [done|]);
      rewrite Hp; cbn; repeat match goal with H : _ = true |- _ => rewrite H end;
      repeat match goal with H : _ = false |- _ => rewrite H end; done.
Qed.

Lemma refused_allocations_change_nothing_witness :
  private_data (open_file 0 0 0) = Some {| priority := 0; timeout := 0 |}
  /\ get_flow init_module (f_minor (open_file 0 0 0)) 0 = Some first_flow
  /\ trylock1 no_kmalloc = true
  /\ (kmalloc_ok no_kmalloc = false ->
      dev_write no_kmalloc (open_file 0 0 0) [x68; x69] 2 init_module
      = Ret (- ENOMEM, init_module, []))
  /\ (kmalloc_ok no_kmalloc = false -> valid_bytes first_flow <> 0 ->
      dev_read no_kmalloc (open_file 0 0 0) [x68; x69] 2 init_module
      = Ret (- ENOMEM, init_module, (clear_user [x68; x69] 2).2,
             [EvLock 0 0] ++ leave 0 0))
  /\ (kmalloc_ok no_kmalloc = true -> 0 = 0 -> total_free_bytes first_flow <> 0 ->
      (module_get_ok no_kmalloc = false ->
       dev_write no_kmalloc (open_file 0 0 0) [x68; x69] 2 init_module
       = Ret (- ENODEV, init_module, [EvLock 0 0] ++ leave 0 0))
      /\ (module_get_ok no_kmalloc = true -> wq_alloc_ok no_kmalloc = false ->
          dev_write no_kmalloc (open_file 0 0 0) [x68; x69] 2 init_module
          = Ret (- 1, init_module, [EvLock 0 0] ++ leave 0 0))).
Proof.
  split; [reflexivity|]. split; [reflexivity|]. split; [reflexivity|].
  apply (refused_allocations_change_nothing no_kmalloc (open_file 0 0 0)
           {| priority := 0; timeout := 0 |} [x68; x69] 2 init_module first_flow);
    reflexivity.
Defined.

(** ** A sleep for the mutex *)

Lemma dev_write_locked_preceded e sess m buf len s ev tr :
  dev_write_locked e sess m buf len s (ev :: tr)
  = preceded ev (dev_write_locked e sess m buf len s tr).
Proof.
  unfold dev_write_locked, preceded.
  destruct (get_flow s m (priority sess)) as [f|]; cbn; [|done].
  destruct (total_free_bytes f =? 0); [done|].
  destruct (priority sess =? 0).
  - destruct (module_get_ok e); cbn; [|done].
    destruct (wq_alloc_ok e); cbn; [|done].
    by destruct (wq_data_ok e).
  - destruct (write_data _ _ _ _ _ _ _) as [[written s1]| |]; cbn; [|done..].
    by destruct (get_flow s1 m 1).
Qed.

Lemma dev_read_locked_preceded e sess m buff len s ev tr :
  dev_read_locked e sess m buff len s (ev :: tr)
  = preceded ev (dev_read_locked e sess m buff len s tr).
Proof.
  unfold dev_read_locked, preceded.
  destruct (get_flow s m (priority sess)) as [f|]; cbn; [|done].
  destruct (valid_bytes f =? 0); [done|].
  destruct (kmalloc_ok e); cbn; [|done].
  destruct (read_loop _ _ _ _ _ _) as [[[[chain temp] total] rem]| |]; cbn; [|done..].
  destruct (if rem >? 0 then _ else _) as [chain'| |]; cbn; [|done..].
  by destruct (copy_to_user _ _ _).
Qed.

Lemma try_get_lock_after_sleep e sess m s :
  trylock1 e = false ->
  0 < timeout sess ->
  0 < sleep1 e ->
  to_int (sleep1 e) <> 0 ->
  to_int (sleep1 e) <> - ERESTARTSYS ->
  try_get_lock (trylock1 e) (sleep1 e) sess m s
  = preceded (EvSleep m (priority sess) WAIT_MUTEX)
      (try_get_lock true (sleep1 e) sess m s).
Proof.
  intros -> Htmo Hpos H0 Hsig. unfold try_get_lock, preceded.
  destruct (at_index (objects s) m); cbn; [|done].
  destruct (Z.leb_spec (timeout sess) 0); [lia|].
  rewrite (do_sleep_wqe_woken _ H0 Hsig). unfold condition_met.
  by destruct (Z.ltb_spec 0 (sleep1 e)); [|lia].
Qed.

(** X22: when [mutex_trylock] fails for a session that may sleep and the
    sleep on the wait queue ends with the mutex taken and a remaining time
    that [do_sleep_wqe] reads as such (as an [int] it is neither 0 nor
    [- ERESTARTSYS]), a write (its staging buffer allocated), a read and an
    ioctl do exactly what they do when [mutex_trylock] succeeds at once:
    same result, same state, same bytes delivered, the only difference
    being the sleep for the mutex at the start of the calls they issue. *)
Theorem sleep_for_the_mutex_changes_nothing e filp sess buff len command param s :
  private_data filp = Some sess ->
  trylock1 e = false ->
  0 < timeout sess ->
  0 < sleep1 e ->
  to_int (sleep1 e) <> 0 ->
  to_int (sleep1 e) <> - ERESTARTSYS ->
  (kmalloc_ok e = true ->
   dev_write e filp buff len s
   = preceded (EvSleep (f_minor filp) (priority sess) WAIT_MUTEX)
       (dev_write (grabbing e) filp buff len s))
  /\ dev_read e filp buff len s
     = preceded (EvSleep (f_minor filp) (priority sess) WAIT_MUTEX)
         (dev_read (grabbing e) filp buff len s)
  /\ dev_ioctl e filp command param s
     = preceded (EvSleep (f_minor filp) (priority sess) WAIT_MUTEX)
         (dev_ioctl (grabbing e) filp command param s).
Proof.
  intros Hsess Htl Htmo Hpos H0 Hsig.
  pose proof (try_get_lock_after_sleep e sess (f_minor filp) s Htl Htmo Hpos H0 Hsig)
    as Hlock.
  split_and!.
  - intros Hk. unfold dev_write. cbn [grabbing kmalloc_ok trylock1 sleep1 wait_data
                                       interfere trylock2 sleep2].
    rewrite Hk, Hsess. cbn [negb].
    destruct (copy_from_user buff len) as [ret temp]. cbn [mbind outcome_bind expect].
    rewrite Hlock. unfold preceded.
    destruct (try_get_lock true (sleep1 e) sess (f_minor filp) s) as [[got tr]| |];
      cbn [mbind outcome_bind]; [|done..].
    destruct (negb (got =? 1)); [done|].
    destruct (get_flow s (f_minor filp) (priority sess)) as [f|];
      cbn [mbind outcome_bind expect]; [|done].
    destruct ((total_free_bytes f =? 0) && (timeout sess >? 0)).
    + cbn.
      destruct (negb (do_sleep_wqe (wait_data e) =? 1)); [done|].
      destruct (try_get_lock (trylock2 e) _ _ _ _) as [[got2 tr2]| |];
        cbn [mbind outcome_bind]; [|done..].
      destruct (negb (got2 =? 1)); [done|].
      apply dev_write_locked_preceded.
    + apply dev_write_locked_preceded.
  - unfold dev_read. cbn [grabbing kmalloc_ok trylock1 sleep1 wait_data
                            interfere trylock2 sleep2].
    destruct (clear_user buff len) as [ret cleared]. rewrite Hsess.
    cbn [mbind outcome_bind expect].
    rewrite Hlock. unfold preceded.
    destruct (try_get_lock true (sleep1 e) sess (f_minor filp) s) as [[got tr]| |];
      cbn [mbind outcome_bind]; [|done..].
    destruct (negb (got =? 1)); [done|].
    destruct (get_flow s (f_minor filp) (priority sess)) as [f|];
      cbn [mbind outcome_bind expect]; [|done].
    destruct ((valid_bytes f =? 0) && (timeout sess >? 0)).
    + cbn.
      destruct (negb (do_sleep_wqe (wait_data e) =? 1)); [done|].
      destruct (try_get_lock (trylock2 e) _ _ _ _) as [[got2 tr2]| |];
        cbn [mbind outcome_bind]; [|done..].
      destruct (negb (got2 =? 1)); [done|].
      apply dev_read_locked_preceded.
    + apply dev_read_locked_preceded.
  - unfold dev_ioctl. cbn [grabbing trylock1 sleep1]. rewrite Hsess.
    cbn [mbind outcome_bind expect].
    rewrite Hlock. unfold preceded.
    destruct (try_get_lock true (sleep1 e) sess (f_minor filp) s) as [[got tr]| |];
      cbn [mbind outcome_bind]; [|done..].
    destruct (negb (got =? 1)); [done|].
    destruct (command =? SET_PRIO); [done|].
    destruct (command =? SET_BLOCKING); [done|].
    by destruct (command =? SET_OPENCLOSE).
Qed.

Lemma sleep_for_the_mutex_changes_nothing_witness :
  private_data (open_file 0 1 5) = Some {| priority := 1; timeout := 5 |}
  /\ trylock1 patient = false
  /\ 0 < sleep1 patient
  /\ to_int (sleep1 patient) <> 0
  /\ to_int (sleep1 patient) <> - ERESTARTSYS
  /\ (kmalloc_ok patient = true ->
      dev_write patient (open_file 0 1 5) [x68; x69] 2 init_module
      = preceded (EvSleep 0 1 WAIT_MUTEX)
          (dev_write (grabbing patient) (open_file 0 1 5) [x68; x69] 2 init_module))
  /\ dev_read patient (open_file 0 1 5) [x68; x69] 2 init_module
     = preceded (EvSleep 0 1 WAIT_MUTEX)
         (dev_read (grabbing patient) (open_file 0 1 5) [x68; x69] 2 init_module)
  /\ dev_ioctl patient (open_file 0 1 5) SET_BLOCKING 0 init_module
     = preceded (EvSleep 0 1 WAIT_MUTEX)
         (dev_ioctl (grabbing patient) (open_file 0 1 5) SET_BLOCKING 0 init_module).
Proof.
  split; [reflexivity|]. split; [reflexivity|]. split; [simpl; lia|].
  split; [discriminate|]. split; [discriminate|].
  apply (sleep_for_the_mutex_changes_nothing patient (open_file 0 1 5)
           {| priority := 1; timeout := 5 |} [x68; x69] 2 SET_BLOCKING 0 init_module);
    [reflexivity | reflexivity | simpl; lia | simpl; lia | discriminate | discriminate].
Defined.

(** ** A sleep for the mutex whose value does not fit an [int] *)

Lemma try_get_lock_truncated e sess m s f :
  get_flow s m (priority sess) = Some f ->
  trylock1 e = false ->
  0 < timeout sess ->
  0 < sleep1 e ->
  to_int (sleep1 e) = 0 \/ to_int (sleep1 e) = - ERESTARTSYS ->
  try_get_lock (trylock1 e) (sleep1 e) sess m s
  = Ret (0, [EvSleep m (priority sess) WAIT_MUTEX; EvLock m (priority sess)]).
Proof.
  intros Hf -> Htmo Hpos Hcut. unfold try_get_lock.
  destruct (get_flow_object _ _ _ _ Hf) as [o ->]. cbn.
  destruct (Z.leb_spec (timeout sess) 0); [lia|].
  assert ((do_sleep_wqe (sleep1 e) =? 1) = false) as ->.
  { rewrite do_sleep_wqe_one. by destruct Hcut as [-> | ->]. }
  unfold condition_met. by destruct (Z.ltb_spec 0 (sleep1 e)); [|lia].
Qed.

(** X23: when [mutex_trylock] fails for a session that may sleep and the
    sleep on the wait queue ends with the mutex taken, but with a remaining
    time that is 0 or [- ERESTARTSYS] once it is assigned to the [int res]
    of [do_sleep_wqe] (2^32 jiffies, say), [try_get_lock] answers 0: a write
    (its staging buffer allocated) and a read return -1 and an ioctl returns
    [- ENODEV], with the state and the session as before, and the mutex
    that the wait condition took is not released. *)
Theorem truncated_sleep_keeps_the_mutex e filp sess s f buff len command param :
  private_data filp = Some sess ->
  get_flow s (f_minor filp) (priority sess) = Some f ->
  trylock1 e = false ->
  0 < timeout sess ->
  0 < sleep1 e ->
  to_int (sleep1 e) = 0 \/ to_int (sleep1 e) = - ERESTARTSYS ->
  kmalloc_ok e = true ->
  exists tr,
    tr = [EvSleep (f_minor filp) (priority sess) WAIT_MUTEX;
          EvLock (f_minor filp) (priority sess)]
    /\ dev_write e filp buff len s = Ret (- 1, s, tr)
    /\ dev_read e filp buff len s = Ret (- 1, s, (clear_user buff len).2, tr)
    /\ dev_ioctl e filp command param s = Ret (- ENODEV, filp, s, tr)
    /\ count is_lock tr = 1%nat
    /\ count is_unlock tr = 0%nat
    /\ discipline (f_minor filp) (priority sess) Idle tr = false.
Proof.
  intros Hsess Hf Htl Htmo Hpos Hcut Hk.
  pose proof (try_get_lock_truncated e sess (f_minor filp) s f Hf Htl Htmo Hpos Hcut)
    as Hlock.
  eexists. split; [done|]. split_and!.
  - unfold dev_write. rewrite Hk, Hsess. cbn.
    destruct (copy_from_user buff len) as [ret temp]. cbn. by rewrite Hlock.
  - unfold dev_read. destruct (clear_user buff len) as [ret cleared].
    rewrite Hsess. cbn. by rewrite Hlock.
  - unfold dev_ioctl. rewrite Hsess. cbn. by rewrite Hlock.
  - done.
  - done.
  - cbn. by rewrite !Z.eqb_refl.
Qed.

Lemma truncated_sleep_keeps_the_mutex_witness :
  private_data (open_file 0 1 (2 ^ 32)) = Some {| priority := 1; timeout := 2 ^ 32 |}
  /\ get_flow init_module (f_minor (open_file 0 1 (2 ^ 32))) 1 = Some first_flow
  /\ trylock1 overslept = false
  /\ 0 < sleep1 overslept
  /\ (to_int (sleep1 overslept) = 0 \/ to_int (sleep1 overslept) = - ERESTARTSYS)
  /\ kmalloc_ok overslept = true
  /\ exists tr,
       tr = [EvSleep 0 1 WAIT_MUTEX; EvLock 0 1]
       /\ dev_write overslept (open_file 0 1 (2 ^ 32)) [x68; x69] 2 init_module
          = Ret (- 1, init_module, tr)
       /\ dev_read overslept (open_file 0 1 (2 ^ 32)) [x68; x69] 2 init_module
          = Ret (- 1, init_module, (clear_user [x68; x69] 2).2, tr)
       /\ dev_ioctl overslept (open_file 0 1 (2 ^ 32)) SET_BLOCKING 0 init_module
          = Ret (- ENODEV, open_file 0 1 (2 ^ 32), init_module, tr)
       /\ count is_lock tr = 1%nat
       /\ count is_unlock tr = 0%nat
       /\ discipline 0 1 Idle tr = false.
Proof.
  split; [reflexivity|]. split; [reflexivity|]. split; [reflexivity|].
  split; [reflexivity|]. split; [left; reflexivity|]. split; [reflexivity|].
  apply (truncated_sleep_keeps_the_mutex overslept (open_file 0 1 (2 ^ 32))
           {| priority := 1; timeout := 2 ^ 32 |} init_module first_flow
           [x68; x69] 2 SET_BLOCKING 0);
    [reflexivity | reflexivity | reflexivity | reflexivity | reflexivity
    | left; reflexivity | reflexivity].
Defined.
